(** * The diagnostic scripts of the breath repository

    Five linear Python scripts compare a gridded NetCDF dataset with a flat
    binary export ("chunk"): [check_chunk.py], [diagnose_netcdf.py],
    [compare_netcdf_chunk.py], [verify_coordinate_mapping.py] and
    [final_diagnosis.py].  This development embeds their computations and
    their input/output effects and states the properties of the
    specification over that embedding. *)

From Stdlib Require Import ZArith QArith Qabs List String Lia Sorted.
From Stdlib.Strings Require Import Byte.
From stdpp Require Import base list gmap strings.
Import ListNotations.
Open Scope string_scope.

(** ** Floating-point values

    A Python float or a NumPy float32/float64 element is a NaN, an infinity
    or a finite value.  Finite values are held as exact rationals and the
    arithmetic on them is exact: rounding and overflow are not modelled, and
    the sign of zero is not kept.  Sums and products are kept in lowest
    terms ([Qred]), which does not change their value. *)

Inductive fl : Type :=
| NaN
| PInf
| NInf
| Fin (q : Q).

Definition fneg (x : fl) : fl :=
  match x with
  | NaN => NaN
  | PInf => NInf
  | NInf => PInf
  | Fin q => Fin (- q)
  end.

Definition fadd (x y : fl) : fl :=
  match x, y with
  | NaN, _ | _, NaN => NaN
  | PInf, NInf | NInf, PInf => NaN
  | PInf, _ | _, PInf => PInf
  | NInf, _ | _, NInf => NInf
  | Fin a, Fin b => Fin (Qred (a + b))
  end.

Definition fsub (x y : fl) : fl := fadd x (fneg y).

Definition fabs (x : fl) : fl :=
  match x with
  | NaN => NaN
  | PInf | NInf => PInf
  | Fin q => Fin (Qabs q)
  end.

Definition Qltb (a b : Q) : bool :=
  match (a ?= b)%Q with Lt => true | _ => false end.

(** [x < y]; every comparison with a NaN is false. *)
Definition flt (x y : fl) : bool :=
  match x, y with
  | NaN, _ | _, NaN => false
  | _, NInf => false
  | PInf, _ => false
  | NInf, _ => true
  | Fin _, PInf => true
  | Fin a, Fin b => Qltb a b
  end.

(** [x <= y]. *)
Definition fle (x y : fl) : bool :=
  match x, y with
  | NaN, _ | _, NaN => false
  | NInf, _ => true
  | _, PInf => true
  | PInf, _ => false
  | Fin _, NInf => false
  | Fin a, Fin b => Qle_bool a b
  end.

(** [x > y] and [x >= y]. *)
Definition fgt (x y : fl) : bool := flt y x.
Definition fge (x y : fl) : bool := fle y x.

(** [x == y] and [x != y]; a NaN differs from everything, itself included. *)
Definition feq (x y : fl) : bool :=
  match x, y with
  | PInf, PInf | NInf, NInf => true
  | Fin a, Fin b => Qeq_bool a b
  | _, _ => false
  end.

Definition fne (x y : fl) : bool := negb (feq x y).

Definition isnan (x : fl) : bool :=
  match x with NaN => true | _ => false end.

Definition fmul (x y : fl) : fl :=
  match x, y with
  | NaN, _ | _, NaN => NaN
  | Fin a, Fin b => Fin (Qred (a * b))
  | Fin a, i | i, Fin a =>
      match (a ?= 0)%Q with
      | Eq => NaN
      | Gt => i
      | Lt => fneg i
      end
  | PInf, PInf | NInf, NInf => PInf
  | PInf, NInf | NInf, PInf => NInf
  end.

Definition of_Z (n : Z) : fl := Fin (inject_Z n).

(** The decimal literals of the scripts. *)
Definition lit_99_99 : fl := Fin (9999 # 100).
Definition lit_0_01 : fl := Fin (1 # 100).
Definition lit_0_1 : fl := Fin (1 # 10).
Definition lit_m99_99 : fl := Fin (- (9999 # 100)).

(** ** Python values and exceptions *)

Inductive exn : Type :=
| FileNotFoundError
| FileExistsError
| OSError
| UnsupportedOperation
| KeyError
| AttributeError
| IndexError
| ValueError
| StructError
| ZeroDivisionError.

Inductive result (A : Type) : Type :=
| Ok (a : A)
| Err (e : exn).
Arguments Ok {A} a.
Arguments Err {A} e.

Definition is_ok {A} (r : result A) : bool :=
  match r with Ok _ => true | Err _ => false end.

(** [len(l)] as a Python integer. *)
Definition len {A} (l : list A) : Z := Z.of_nat (length l).

(** A slice bound [x] of a sequence of length [n], as Python normalises it:
    a negative bound counts from the end, and every bound is clipped. *)
Definition slice_bound (n x : Z) : Z :=
  if (x <? 0)%Z then Z.max (x + n) 0 else Z.min x n.

(** [l[start:stop]]. *)
Definition py_slice {A} (l : list A) (start stop : Z) : list A :=
  let a := slice_bound (len l) start in
  let b := slice_bound (len l) stop in
  firstn (Z.to_nat (b - a)) (skipn (Z.to_nat a) l).

(** [l[i]] for a non-negative index; out of range raises [IndexError]. *)
Definition py_index {A} (l : list A) (i : nat) : result A :=
  match nth_error l i with
  | Some x => Ok x
  | None => Err IndexError
  end.

(** [sum(1 for v in vals if p(v))]. *)
Fixpoint count_if {A} (p : A -> bool) (vals : list A) : Z :=
  match vals with
  | [] => 0%Z
  | v :: rest => ((if p v then 1 else 0) + count_if p rest)%Z
  end.

(** Python's true division of two integers. *)
Definition py_truediv (a b : Z) : result fl :=
  if (b =? 0)%Z then Err ZeroDivisionError
  else Ok (Fin (Qred (inject_Z a / inject_Z b))).

(** NumPy's true division of an integer scalar by an integer: a zero
    divisor gives an infinity or a NaN (with a warning), not an exception. *)
Definition np_truediv (a b : Z) : fl :=
  if (b =? 0)%Z then
    (if (a =? 0)%Z then NaN else if (0 <? a)%Z then PInf else NInf)
  else Fin (Qred (inject_Z a / inject_Z b)).

(** ** [struct.unpack] of little-endian float32 values *)

(** The value of the IEEE 754 binary32 pattern [bits]. *)
Definition f32_of_bits (bits : Z) : fl :=
  let sign := Z.testbit bits 31 in
  let e := Z.land (Z.shiftr bits 23) 255 in
  let m := Z.land bits 8388607 in
  if (e =? 255)%Z then
    (if (m =? 0)%Z then (if sign then NInf else PInf) else NaN)
  else
    let num := if (e =? 0)%Z then m else (8388608 + m)%Z in
    let ex := if (e =? 0)%Z then (-149)%Z else (e - 150)%Z in
    let mag :=
      if (0 <=? ex)%Z then inject_Z (num * 2 ^ ex)
      else (inject_Z num / inject_Z (2 ^ (- ex)))%Q in
    Fin (Qred (if sign then (- mag)%Q else mag)).

Definition le32 (b0 b1 b2 b3 : byte) : Z :=
  (Z.of_N (Byte.to_N b0) + 256 * Z.of_N (Byte.to_N b1)
   + 65536 * Z.of_N (Byte.to_N b2) + 16777216 * Z.of_N (Byte.to_N b3))%Z.

Fixpoint unpack_floats (n : nat) (data : list byte) : list fl :=
  match n, data with
  | S n', b0 :: b1 :: b2 :: b3 :: rest =>
      f32_of_bits (le32 b0 b1 b2 b3) :: unpack_floats n' rest
  | _, _ => []
  end.

(** [struct.unpack(f'<{n}f', data)]: the buffer must hold exactly [4 * n]
    bytes, otherwise [struct.error] is raised. *)
Definition struct_unpack_f (n : Z) (data : list byte) : result (list fl) :=
  if (len data =? 4 * n)%Z then Ok (unpack_floats (Z.to_nat n) data)
  else Err StructError.

(** ** NumPy operations on one-dimensional arrays *)

(** [np.where(mask)[0]]: the positions of the true entries. *)
Fixpoint where_from (i : nat) (mask : list bool) : list nat :=
  match mask with
  | [] => []
  | b :: rest =>
      if b then i :: where_from (S i) rest else where_from (S i) rest
  end.

Definition np_where (mask : list bool) : list nat := where_from 0 mask.

(** [a[indices]] for an index array whose entries are positions of [a], as
    the index arrays returned by [np.where] on a mask of [a] are. *)
Fixpoint np_take {A} (a : list A) (indices : list nat) : list A :=
  match indices with
  | [] => []
  | i :: rest =>
      match nth_error a i with
      | Some x => x :: np_take a rest
      | None => np_take a rest
      end
  end.

(** The scan of [np.argmin]: [best] is the running minimum found at
    position [besti], [i] the position of the head of [rest].  An element
    replaces the minimum when [not (x >= best)]; the scan stops at a NaN. *)
Fixpoint argmin_scan (best : fl) (besti i : nat) (rest : list fl) : nat :=
  match rest with
  | [] => besti
  | x :: rest' =>
      if isnan best then besti
      else if negb (fge x best) then argmin_scan x i (S i) rest'
      else argmin_scan best besti (S i) rest'
  end.

(** [np.argmin(a)]; an empty array raises [ValueError]. *)
Definition np_argmin (a : list fl) : result nat :=
  match a with
  | [] => Err ValueError
  | x :: rest => Ok (argmin_scan x 0 1 rest)
  end.

(** [np.abs(a - t)]. *)
Definition abs_diff (a : list fl) (t : fl) : list fl :=
  map (fun x => fabs (fsub x t)) a.

(** The running minimum and maximum of [a.min()] and [a.max()]: a NaN
    propagates. *)
Definition fmin2 (x y : fl) : fl :=
  if isnan x then x else if isnan y then y else if flt y x then y else x.
Definition fmax2 (x y : fl) : fl :=
  if isnan x then x else if isnan y then y else if flt x y then y else x.

Definition np_min (a : list fl) : result fl :=
  match a with
  | [] => Err ValueError
  | x :: rest => Ok (fold_left fmin2 rest x)
  end.

Definition np_max (a : list fl) : result fl :=
  match a with
  | [] => Err ValueError
  | x :: rest => Ok (fold_left fmax2 rest x)
  end.

(** [np.mean(a)] in exact arithmetic; the mean of an empty array is a NaN. *)
Definition np_mean (a : list fl) : fl :=
  match a with
  | [] => NaN
  | _ => fmul (fold_left fadd a (Fin 0)) (Fin (/ inject_Z (len a)))
  end.

(** ** Printed output

    A [print] call emits one message: the pieces of its f-string in order.
    Numbers are kept as values together with their format specification
    instead of being rendered to text. *)

#[warnings="-register-all"]
Inductive pitem : Type :=
| PStr (s : string)
| PInt (fmt : string) (n : Z)
| PBool (b : bool)
| PFloat (fmt : string) (v : fl)
| PList (items : list pitem)
| PTuple (items : list pitem).

Definition nl : string := String (Ascii.ascii_of_nat 10) EmptyString.

Fixpoint str_repeat (s : string) (n : nat) : string :=
  match n with
  | O => EmptyString
  | S n' => String.append s (str_repeat s n')
  end.

(** ["=" * 80] *)
Definition rule80 : string := str_repeat "=" 80.

(** ** The NetCDF dataset

    An element of a masked array is the masked constant or a value. *)

Inductive mval : Type :=
| Masked
| Value (v : fl).

Definition is_masked (v : mval) : bool :=
  match v with Masked => true | Value _ => false end.

(** Storing an element into a float array: the masked constant is converted
    to a NaN. *)
Definition float_of_mval (v : mval) : fl :=
  match v with Masked => NaN | Value x => x end.

Inductive attr : Type :=
| AttrNum (v : fl)
| AttrStr (s : string).

Definition pitem_of_attr (a : attr) : pitem :=
  match a with
  | AttrNum v => PFloat "" v
  | AttrStr s => PStr s
  end.

(** The variable [tx], indexed [time, latitude, longitude]. [v_masked] tells
    whether its slices come back as [numpy.ma.MaskedArray]; [v_elt] is read
    at in-range indices only. *)
Record variable3 : Type := {
  v_shape : nat * nat * nat;
  v_dtype : string;
  v_dimensions : list string;
  v_attrs : list (string * attr);
  v_masked : bool;
  v_elt : nat -> nat -> nat -> mval
}.

(** What the scripts read of an open dataset.  The coordinate variables
    carry no missing value and are read as plain float arrays. *)
Record dataset : Type := {
  data_model : string;
  dimensions : list (string * nat);
  var_tx : option variable3;
  var_latitude : option (list fl);
  var_longitude : option (list fl)
}.

(** A three-dimensional array, as sliced from [tx] or transposed. *)
Record array3 : Type := {
  a_shape : nat * nat * nat;
  a_masked : bool;
  a_elt : nat -> nat -> nat -> mval
}.

(** A one- or two-dimensional slice, flattened in C order. *)
Record marray : Type := {
  m_masked : bool;
  m_elts : list mval
}.

Definition dim0 (s : nat * nat * nat) : nat := fst (fst s).
Definition dim1 (s : nat * nat * nat) : nat := snd (fst s).
Definition dim2 (s : nat * nat * nat) : nat := snd s.

Definition pitem_of_shape (s : nat * nat * nat) : pitem :=
  PTuple [PInt "" (Z.of_nat (dim0 s)); PInt "" (Z.of_nat (dim1 s));
          PInt "" (Z.of_nat (dim2 s))].

(** [ncfile.variables[name]]: a missing key raises [KeyError]. *)
Definition get_variable {A} (v : option A) : result A :=
  match v with
  | Some x => Ok x
  | None => Err KeyError
  end.

Fixpoint assoc {A} (key : string) (l : list (string * A)) : option A :=
  match l with
  | [] => None
  | (k, x) :: rest => if String.eqb k key then Some x else assoc key rest
  end.

(** [hasattr(tx, name)] and [tx.name]. *)
Definition hasattr (tx : variable3) (name : string) : bool :=
  match assoc name (v_attrs tx) with Some _ => true | None => false end.

Definition getattr (tx : variable3) (name : string) : result attr :=
  match assoc name (v_attrs tx) with
  | Some a => Ok a
  | None => Err AttributeError
  end.

(** [tx[t0:t1, la0:la1, lo0:lo1]] with non-negative bounds: every bound is
    clipped to the shape. *)
Definition slice3 (tx : variable3) (t0 t1 la0 la1 lo0 lo1 : nat) : array3 :=
  let '(nt, nlat, nlon) := v_shape tx in
  let t0' := Nat.min t0 nt in
  let la0' := Nat.min la0 nlat in
  let lo0' := Nat.min lo0 nlon in
  {| a_shape := (Nat.min t1 nt - t0', Nat.min la1 nlat - la0',
                 Nat.min lo1 nlon - lo0');
     a_masked := v_masked tx;
     a_elt := fun t la lo => v_elt tx (t0' + t) (la0' + la) (lo0' + lo) |}.

(** [tx[0:730, :, :]] *)
Definition slice_first_days (tx : variable3) (days : nat) : array3 :=
  let '(nt, nlat, nlon) := v_shape tx in
  slice3 tx 0 days 0 nlat 0 nlon.

(** [tx[t0:t1, lat_idx, lon_idx]]: an integer index out of range raises
    [IndexError]. *)
Definition time_series (tx : variable3) (t0 t1 lat_idx lon_idx : nat)
  : result marray :=
  let '(nt, nlat, nlon) := v_shape tx in
  if (lat_idx <? nlat)%nat && (lon_idx <? nlon)%nat then
    let t0' := Nat.min t0 nt in
    Ok {| m_masked := v_masked tx;
          m_elts := map (fun t => v_elt tx t lat_idx lon_idx)
                        (seq t0' (Nat.min t1 nt - t0')) |}
  else Err IndexError.

(** A two-dimensional slice [tx[t, :, :]]. *)
Record array2 : Type := {
  a2_shape : nat * nat;
  a2_masked : bool;
  a2_elt : nat -> nat -> mval
}.

(** [tx[t, :, :]]: an integer index out of range raises [IndexError]. *)
Definition time_slice (tx : variable3) (t : nat) : result array2 :=
  let '(nt, nlat, nlon) := v_shape tx in
  if (t <? nt)%nat then
    Ok {| a2_shape := (nlat, nlon);
          a2_masked := v_masked tx;
          a2_elt := fun la lo => v_elt tx t la lo |}
  else Err IndexError.

(** The elements of a two-dimensional array in C order. *)
Definition elements2 (a : array2) : marray :=
  {| m_masked := a2_masked a;
     m_elts := flat_map (fun la => map (fun lo => a2_elt a la lo)
                                       (seq 0 (snd (a2_shape a))))
                        (seq 0 (fst (a2_shape a))) |}.

(** [a[row, :stop]] *)
Definition row_prefix (a : array2) (row stop : nat) : result (list mval) :=
  if (row <? fst (a2_shape a))%nat then
    Ok (map (fun lo => a2_elt a row lo)
            (seq 0 (Nat.min stop (snd (a2_shape a)))))
  else Err IndexError.

(** [np.transpose(a, (2, 1, 0))] *)
Definition transpose_210 (a : array3) : array3 :=
  let '(n0, n1, n2) := a_shape a in
  {| a_shape := (n2, n1, n0);
     a_masked := a_masked a;
     a_elt := fun i j t => a_elt a t j i |}.

(** [a[i, j, t]] with non-negative indices. *)
Definition get3 (a : array3) (i j t : nat) : result mval :=
  let '(n0, n1, n2) := a_shape a in
  if (i <? n0)%nat && (j <? n1)%nat && (t <? n2)%nat then Ok (a_elt a i j t)
  else Err IndexError.

(** The elements of a three-dimensional array in C order. *)
Definition elements3 (a : array3) : list mval :=
  let '(n0, n1, n2) := a_shape a in
  flat_map (fun i => flat_map (fun j => map (fun t => a_elt a i j t)
                                            (seq 0 n2)) (seq 0 n1)) (seq 0 n0).

(** [a.size] *)
Definition size3 (a : array3) : Z :=
  (Z.of_nat (dim0 (a_shape a)) * Z.of_nat (dim1 (a_shape a))
   * Z.of_nat (dim2 (a_shape a)))%Z.

(** [a.mask.sum()]: the number of masked elements. *)
Definition mask_sum (elts : list mval) : Z := count_if is_masked elts.

(** [f'{v:.2f}' if not isinstance(v, MaskedConstant) else 'MASKED'] *)
Definition show_masked (v : mval) : pitem :=
  match v with
  | Masked => PStr "MASKED"
  | Value x => PFloat ".2f" x
  end.

(** [f'{v:.2f}' if abs(v + 99.99) >= 0.01 else 'MISSING'] *)
Definition show_missing (v : fl) : pitem :=
  if fge (fabs (fadd v lit_99_99)) lit_0_01 then PFloat ".2f" v
  else PStr "MISSING".

(** [abs(v + 99.99) < 0.01] *)
Definition is_missing (v : fl) : bool := flt (fabs (fadd v lit_99_99)) lit_0_01.

(** ** Input and output effects

    A script is a finite tree of effects: each node performs one operation
    of the Python runtime and continues with its answer.  Besides what the
    scripts use, the operations cover writing and removing files and reading
    the command line, so that their absence from a script is a property of
    that script. *)

Record file_obj : Type := {
  f_path : string;
  f_mode : string
}.

Inductive op : Type :=
| Print (line : nat) (msg : list pitem)
| DatasetOpen (path mode : string)
| DatasetClose
| FileOpen (path mode : string)
| FileRead (f : file_obj) (size : option Z)
| FileWrite (f : file_obj) (data : list byte)
| FileClose (f : file_obj)
| FileRemove (path : string)
| GetArgv.

Definition ans (o : op) : Type :=
  match o with
  | Print _ _ => unit
  | DatasetOpen _ _ => dataset
  | DatasetClose => unit
  | FileOpen _ _ => file_obj
  | FileRead _ _ => list byte
  | FileWrite _ _ => unit
  | FileClose _ => unit
  | FileRemove _ => unit
  | GetArgv => list string
  end.

Inductive prog (A : Type) : Type :=
| Ret (a : A)
| Raise (e : exn)
| Vis (o : op) (k : ans o -> prog A).
Arguments Ret {A} a.
Arguments Raise {A} e.
Arguments Vis {A} o k.

Fixpoint bind {A B} (m : prog A) (f : A -> prog B) : prog B :=
  match m with
  | Ret a => f a
  | Raise e => Raise e
  | Vis o k => Vis o (fun x => bind (k x) f)
  end.

Definition perform (o : op) : prog (ans o) := Vis o Ret.

(** A computation that may raise. *)
Definition lift {A} (r : result A) : prog A :=
  match r with
  | Ok a => Ret a
  | Err e => Raise e
  end.

Declare Scope prog_scope.
Delimit Scope prog_scope with prog.
Notation "x <- m ;; k" := (bind m (fun x => k))
  (at level 100, m at next level, k at level 200, right associativity)
  : prog_scope.
Notation "m ;; k" := (bind m (fun _ => k))
  (at level 100, k at level 200, right associativity) : prog_scope.
Open Scope prog_scope.

Definition print (line : nat) (msg : list pitem) : prog unit :=
  perform (Print line msg).

(** A [for] loop over a list. *)
Fixpoint for_each {A} (l : list A) (body : A -> prog unit) : prog unit :=
  match l with
  | [] => Ret tt
  | x :: rest => body x ;; for_each rest body
  end.

(** [if c: body] *)
Definition when (c : bool) (body : prog unit) : prog unit :=
  if c then body else Ret tt.

(** The file system and the command line of a run. *)
Record world : Type := {
  fs : gmap string (list byte);
  argv : list string
}.

Definition set_fs (w : world) (files : gmap string (list byte)) : world :=
  {| fs := files; argv := argv w |}.

Inductive access : Type :=
| ReadOnly
| Update
| Truncate
| Append
| Exclusive.

Definition mode_in (mode : string) (modes : list string) : bool :=
  existsb (String.eqb mode) modes.

(** The access that a mode of the built-in [open] asks for. *)
Definition file_access (mode : string) : option access :=
  if mode_in mode ["r"; "rb"; "rt"] then Some ReadOnly
  else if mode_in mode ["r+"; "rb+"; "r+b"] then Some Update
  else if mode_in mode ["w"; "wb"; "wt"; "w+"; "wb+"; "w+b"] then Some Truncate
  else if mode_in mode ["a"; "ab"; "at"; "a+"; "ab+"; "a+b"] then Some Append
  else if mode_in mode ["x"; "xb"; "xt"] then Some Exclusive
  else None.

(** The access that a mode of [netCDF4.Dataset] asks for. *)
Definition dataset_access (mode : string) : option access :=
  if mode_in mode ["r"] then Some ReadOnly
  else if mode_in mode ["r+"; "a"] then Some Update
  else if mode_in mode ["w"] then Some Truncate
  else if mode_in mode ["x"] then Some Exclusive
  else None.

Definition can_read (mode : string) : bool :=
  mode_in mode ["r"; "rb"; "rt"; "r+"; "rb+"; "r+b"; "w+"; "wb+"; "w+b";
                "a+"; "ab+"; "a+b"].

Definition can_write (mode : string) : bool :=
  match file_access mode with
  | Some ReadOnly | None => false
  | Some _ => true
  end.

Section Runtime.

(** The netCDF4 library is not part of the repository: how it decodes the
    bytes of a dataset file, and the bytes of a dataset it has just
    created, are taken as given. *)
Variable parse_netcdf : list byte -> option dataset.
Variable netcdf_created : list byte.

(** Opening [path] with a given access: the file before, the outcome and
    the contents of the file after. *)
Definition open_file (files : gmap string (list byte)) (path : string)
    (a : access) (created : list byte)
  : result (list byte) * gmap string (list byte) :=
  match a, files !! path with
  | ReadOnly, Some c | Update, Some c | Append, Some c => (Ok c, files)
  | ReadOnly, None | Update, None => (Err FileNotFoundError, files)
  | Append, None | Exclusive, None | Truncate, _ =>
      (Ok created, <[path := created]> files)
  | Exclusive, Some _ => (Err FileExistsError, files)
  end.

(** One operation of the runtime.  A file object reads from the start of
    its file: every file object of the scripts is read once. *)
Definition exec (o : op) (w : world) : result (ans o) * world :=
  match o return result (ans o) * world with
  | Print _ _ => (Ok tt, w)
  | DatasetOpen path mode =>
      match dataset_access mode with
      | None => (Err ValueError, w)
      | Some a =>
          match open_file (fs w) path a netcdf_created with
          | (Ok c, files) =>
              match parse_netcdf c with
              | Some ds => (Ok ds, set_fs w files)
              | None => (Err OSError, set_fs w files)
              end
          | (Err e, files) => (Err e, set_fs w files)
          end
      end
  | DatasetClose => (Ok tt, w)
  | FileOpen path mode =>
      match file_access mode with
      | None => (Err ValueError, w)
      | Some a =>
          match open_file (fs w) path a [] with
          | (Ok _, files) =>
              (Ok {| f_path := path; f_mode := mode |}, set_fs w files)
          | (Err e, files) => (Err e, set_fs w files)
          end
      end
  | FileRead f size =>
      if can_read (f_mode f) then
        match fs w !! f_path f with
        | Some c =>
            match size with
            | Some n =>
                if (n <? 0)%Z then (Ok c, w) else (Ok (firstn (Z.to_nat n) c), w)
            | None => (Ok c, w)
            end
        | None => (Err OSError, w)
        end
      else (Err UnsupportedOperation, w)
  | FileWrite f data =>
      if can_write (f_mode f) then
        match fs w !! f_path f with
        | Some c => (Ok tt, set_fs w (<[f_path f := (c ++ data)%list]> (fs w)))
        | None => (Err OSError, w)
        end
      else (Err UnsupportedOperation, w)
  | FileClose _ => (Ok tt, w)
  | FileRemove path =>
      match fs w !! path with
      | Some _ => (Ok tt, set_fs w (delete path (fs w)))
      | None => (Err FileNotFoundError, w)
      end
  | GetArgv => (Ok (argv w), w)
  end.

(** A run: the operations performed in order, how the process ends (a
    normal exit or an uncaught exception) and the world it leaves. *)
Fixpoint run {A} (p : prog A) (w : world) : list op * (result A * world) :=
  match p with
  | Ret a => ([], (Ok a, w))
  | Raise e => ([], (Err e, w))
  | Vis o k =>
      match exec o w with
      | (Ok x, w') => let '(t, r) := run (k x) w' in (o :: t, r)
      | (Err e, w') => ([o], (Err e, w'))
      end
  end.

Definition trace {A} (p : prog A) (w : world) : list op := fst (run p w).
Definition outcome {A} (p : prog A) (w : world) : result A :=
  fst (snd (run p w)).
Definition final {A} (p : prog A) (w : world) : world := snd (snd (run p w)).

End Runtime.

(** What a run printed: the messages with their source lines, in order. *)
Fixpoint stdout (t : list op) : list (nat * list pitem) :=
  match t with
  | [] => []
  | Print line msg :: rest => (line, msg) :: stdout rest
  | _ :: rest => stdout rest
  end.

Definition nc_dataset (path mode : string) : prog dataset :=
  perform (DatasetOpen path mode).
Definition nc_close : prog unit := perform DatasetClose.
Definition py_open (path mode : string) : prog file_obj :=
  perform (FileOpen path mode).
Definition file_read (f : file_obj) (size : option Z) : prog (list byte) :=
  perform (FileRead f size).
Definition file_close (f : file_obj) : prog unit := perform (FileClose f).

(** [with open(path, mode) as f: data = f.read()] *)
Definition read_whole (path mode : string) : prog (list byte) :=
  f <- py_open path mode ;;
  data <- file_read f None ;;
  file_close f ;;
  Ret data.

(** The two files that the scripts name. *)
Definition netcdf_path : string :=
  "C:\REPO\breath\data\nc files\tx_ens_mean_0.1deg_reg_v31.0e.nc".
Definition chunk_path : string :=
  "C:\REPO\breath\data\nc files\TX\chunk_0001-0730_1980-1981.bin".

(** ** check_chunk.py *)

Module CheckChunk.

(** Lines 9 to 11: the three counts. *)
Definition count_missing (vals : list fl) : Z :=
  count_if (fun v => flt (fabs (fadd v lit_99_99)) lit_0_01) vals.
Definition count_nan (vals : list fl) : Z :=
  count_if (fun v => fne v v) vals.
Definition count_valid (vals : list fl) : Z :=
  count_if (fun v => feq v v && fgt (fabs (fadd v lit_99_99)) lit_0_01) vals.

Definition main : prog unit :=
  f <- py_open chunk_path "rb" ;;
  data <- file_read f (Some (1000 * 4)%Z) ;;
  vals <- lift (struct_unpack_f 1000 data) ;;
  print 6 [PStr "First 20 values:"] ;;
  print 7 [PList (map (PFloat ".6f") (py_slice vals 0 20))] ;;
  print 9 [PStr (nl +:+ "Count of -99.99 values: ");
           PInt "" (count_missing vals)] ;;
  print 10 [PStr "Count of NaN values: "; PInt "" (count_nan vals)] ;;
  print 11 [PStr "Valid values (not -99.99, not NaN): ";
            PInt "" (count_valid vals)].

End CheckChunk.

(** ** The bounding box of verify_coordinate_mapping.py and
    final_diagnosis.py *)

Definition min_lon : fl := Fin (-25).
Definition max_lon : fl := Fin 45.
Definition min_lat : fl := Fin 34.
Definition max_lat : fl := Fin 72.

(** [(a >= lo) & (a <= hi)] *)
Definition bbox_mask (a : list fl) (lo hi : fl) : list bool :=
  map (fun x => fge x lo && fle x hi) a.

(** ** verify_coordinate_mapping.py *)

Module VerifyCoordinateMapping.

(** Lines 24 to 31. *)
Definition lon_indices (lon_full : list fl) : list nat :=
  np_where (bbox_mask lon_full min_lon max_lon).
Definition lat_indices (lat_full : list fl) : list nat :=
  np_where (bbox_mask lat_full min_lat max_lat).
Definition lon_filtered (lon_full : list fl) : list fl :=
  np_take lon_full (lon_indices lon_full).
Definition lat_filtered (lat_full : list fl) : list fl :=
  np_take lat_full (lat_indices lat_full).

(** Line 75: the flattened coordinate index. *)
Definition coord_idx_calculated (filtered_lat_idx nlon filtered_lon_idx : nat)
  : nat :=
  filtered_lat_idx * nlon + filtered_lon_idx.

(** Lines 65 to 75 for a target location: the nearest-neighbour indices in
    the filtered grid and the coordinate index they give. *)
Definition coord_idx_calculated_of (lat_full lon_full : list fl)
    (test_lat test_lon : fl) : result nat :=
  match np_argmin (abs_diff (lat_filtered lat_full) test_lat) with
  | Ok filtered_lat_idx =>
      match np_argmin (abs_diff (lon_filtered lon_full) test_lon) with
      | Ok filtered_lon_idx =>
          Ok (coord_idx_calculated filtered_lat_idx
                (length (lon_filtered lon_full))
                          filtered_lon_idx)
      | Err e => Err e
      end
  | Err e => Err e
  end.

Definition num_days : Z := 730.

(** Lines 86 to 89: the time series of one coordinate of the chunk. *)
Definition chunk_ts (chunk_data : list byte) (coord_idx_calculated : nat)
  : result (list fl) :=
  let offset := (Z.of_nat coord_idx_calculated * num_days * 4)%Z in
  let chunk_ts_data := py_slice chunk_data offset (offset + num_days * 4)%Z in
  struct_unpack_f num_days chunk_ts_data.

(** Line 104: [float(v)], or -99.99 for the masked constant. *)
Definition nc_value (v : mval) : fl :=
  match v with
  | Masked => lit_m99_99
  | Value x => x
  end.

Definition test_lat : fl := Fin (525 # 10).
Definition test_lon : fl := Fin (134 # 10).

Definition main : prog unit :=
  print 5 [PStr rule80] ;;
  print 6 [PStr "Verifying coordinate mapping between NetCDF and binary chunks"] ;;
  print 7 [PStr rule80] ;;
  ncfile <- nc_dataset netcdf_path "r" ;;
  tx <- lift (get_variable (var_tx ncfile)) ;;
  lat_full <- lift (get_variable (var_latitude ncfile)) ;;
  lon_full <- lift (get_variable (var_longitude ncfile)) ;;
  print 15 [PStr (nl +:+ "Full NetCDF grid:")] ;;
  lon_lo <- lift (np_min lon_full) ;;
  lon_hi <- lift (np_max lon_full) ;;
  print 16 [PStr "  Longitude: "; PInt "" (len lon_full);
            PStr " cells from "; PFloat ".2f" lon_lo;
            PStr " to "; PFloat ".2f" lon_hi] ;;
  lat_lo <- lift (np_min lat_full) ;;
  lat_hi <- lift (np_max lat_full) ;;
  print 17 [PStr "  Latitude: "; PInt "" (len lat_full);
            PStr " cells from "; PFloat ".2f" lat_lo;
            PStr " to "; PFloat ".2f" lat_hi] ;;
  print 18 [PStr "  Total cells: "; PInt "," (len lon_full * len lat_full)] ;;
  let lon_f := lon_filtered lon_full in
  let lat_f := lat_filtered lat_full in
  print 33 [PStr (nl +:+ "Filtered grid (as per specification.xml):")] ;;
  lonf_lo <- lift (np_min lon_f) ;;
  lonf_hi <- lift (np_max lon_f) ;;
  print 34 [PStr "  Longitude: "; PInt "" (len lon_f);
            PStr " cells from "; PFloat ".2f" lonf_lo;
            PStr " to "; PFloat ".2f" lonf_hi] ;;
  latf_lo <- lift (np_min lat_f) ;;
  latf_hi <- lift (np_max lat_f) ;;
  print 35 [PStr "  Latitude: "; PInt "" (len lat_f);
            PStr " cells from "; PFloat ".2f" latf_lo;
            PStr " to "; PFloat ".2f" latf_hi] ;;
  print 36 [PStr "  Total cells: "; PInt "," (len lon_f * len lat_f)] ;;
  print 37 [PStr "  Expected by spec: 701 × 381 = 267,081"] ;;
  print 38 [PStr "  Match: "; PBool (len lon_f * len lat_f =? 267081)%Z] ;;
  full_lat_idx <- lift (np_argmin (abs_diff lat_full test_lat)) ;;
  full_lon_idx <- lift (np_argmin (abs_diff lon_full test_lon)) ;;
  print 47 [PStr (nl +:+ rule80)] ;;
  print 48 [PStr "Test location: Berlin ("; PFloat "" test_lat; PStr "°N, ";
            PFloat "" test_lon; PStr "°E)"] ;;
  print 49 [PStr rule80] ;;
  print 51 [PStr (nl +:+ "Full grid indices:")] ;;
  print 52 [PStr "  lat_idx = "; PInt "" (Z.of_nat full_lat_idx);
            PStr ", lon_idx = "; PInt "" (Z.of_nat full_lon_idx)] ;;
  full_lat <- lift (py_index lat_full full_lat_idx) ;;
  full_lon <- lift (py_index lon_full full_lon_idx) ;;
  print 53 [PStr "  Actual coordinates: "; PFloat ".2f" full_lat; PStr "°N, ";
            PFloat ".2f" full_lon; PStr "°E"] ;;
  berlin_nc <- lift (time_series tx 0 730 full_lat_idx full_lon_idx) ;;
  print 57 [PStr (nl +:+ "NetCDF data (first 10 days):")] ;;
  print 58 [PStr "  ";
            PList (map show_masked (py_slice (m_elts berlin_nc) 0 10))] ;;
  when (m_masked berlin_nc)
    (let masked_count := mask_sum (m_elts berlin_nc) in
     print 62 [PStr "  Masked: "; PInt "" masked_count; PStr " / ";
               PInt "" (len (m_elts berlin_nc))]) ;;
  filtered_lat_idx <- lift (np_argmin (abs_diff lat_f test_lat)) ;;
  filtered_lon_idx <- lift (np_argmin (abs_diff lon_f test_lon)) ;;
  print 68 [PStr (nl +:+ "Filtered grid indices:")] ;;
  print 69 [PStr "  lat_idx = "; PInt "" (Z.of_nat filtered_lat_idx);
            PStr ", lon_idx = "; PInt "" (Z.of_nat filtered_lon_idx)] ;;
  filt_lat <- lift (py_index lat_f filtered_lat_idx) ;;
  filt_lon <- lift (py_index lon_f filtered_lon_idx) ;;
  print 70 [PStr "  Actual coordinates: "; PFloat ".2f" filt_lat; PStr "°N, ";
            PFloat ".2f" filt_lon; PStr "°E"] ;;
  let coord_idx_calculated :=
    coord_idx_calculated filtered_lat_idx (length lon_f) filtered_lon_idx in
  print 77 [PStr (nl +:+ "Calculated coordinate index (lat-major):")] ;;
  print 78 [PStr "  coord_idx = "; PInt "" (Z.of_nat filtered_lat_idx);
            PStr " * "; PInt "" (len lon_f); PStr " + ";
            PInt "" (Z.of_nat filtered_lon_idx); PStr " = ";
            PInt "" (Z.of_nat coord_idx_calculated)] ;;
  chunk_data <- read_whole chunk_path "rb" ;;
  chunk_ts <- lift (chunk_ts chunk_data coord_idx_calculated) ;;
  print 91 [PStr (nl +:+ "Binary chunk data (first 10 days):")] ;;
  print 92 [PStr "  "; PList (map show_missing (py_slice chunk_ts 0 10))] ;;
  let missing_count := count_if is_missing chunk_ts in
  print 95 [PStr "  Missing: "; PInt "" missing_count; PStr " / ";
            PInt "" (len chunk_ts)] ;;
  print 98 [PStr (nl +:+ rule80)] ;;
  print 99 [PStr "Data comparison:"] ;;
  print 100 [PStr rule80] ;;
  when (missing_count =? 0)%Z
    (let nc_values := map nc_value (py_slice (m_elts berlin_nc) 0 10) in
     let chunk_values := py_slice chunk_ts 0 10 in
     print 107 [PStr (nl +:+ "First 10 days side-by-side:")] ;;
     print 108 [PStr "Day | NetCDF | Chunk  | Match?"] ;;
     print 109 [PStr "----+--------+--------+-------"] ;;
     for_each (seq 0 10) (fun i =>
       nc_v <- lift (py_index nc_values i) ;;
       chunk_v <- lift (py_index chunk_values i) ;;
       let match_ :=
         if flt (fabs (fsub nc_v chunk_v)) lit_0_1 then "✓" else "✗" in
       print 112 [PInt "3d" (Z.of_nat i); PStr " | "; PFloat "6.2f" nc_v;
                  PStr " | "; PFloat "6.2f" chunk_v; PStr " | ";
                  PStr match_])) ;;
  nc_close ;;
  print 116 [PStr (nl +:+ rule80)] ;;
  print 117 [PStr "Analysis complete!"] ;;
  print 118 [PStr rule80].

End VerifyCoordinateMapping.

(** ** compare_netcdf_chunk.py *)

Module CompareNetcdfChunk.

Definition num_coords : Z := 465 * 705.
Definition num_days : Z := 730.
Definition expected_size : Z := num_coords * num_days * 4.

(** Line 83: the flattened coordinate index. *)
Definition coord_index (lat_idx nlon lon_idx : nat) : nat :=
  lat_idx * nlon + lon_idx.

(** Lines 76 to 83 for a target location: the nearest-neighbour indices in
    the full grid and the coordinate index they give. *)
Definition coord_index_of (lat lon : list fl) (target_lat target_lon : fl)
  : result nat :=
  match np_argmin (abs_diff lat target_lat) with
  | Ok lat_idx =>
      match np_argmin (abs_diff lon target_lon) with
      | Ok lon_idx => Ok (coord_index lat_idx (length lon) lon_idx)
      | Err e => Err e
      end
  | Err e => Err e
  end.

(** Lines 97 to 99: the time series of one coordinate of the chunk. *)
Definition chunk_ts (chunk_data : list byte) (coord_index : nat)
  : result (list fl) :=
  let chunk_offset := (Z.of_nat coord_index * num_days * 4)%Z in
  let chunk_ts_data :=
    py_slice chunk_data chunk_offset (chunk_offset + num_days * 4)%Z in
  struct_unpack_f num_days chunk_ts_data.

Definition target_lat : fl := Fin 50.
Definition target_lon : fl := Fin 10.

(** [x * 100] for a percentage. *)
Definition percent (x : fl) : fl := fmul x (Fin 100).

Definition main : prog unit :=
  print 5 [PStr rule80] ;;
  print 6 [PStr "Comparing NetCDF source vs Binary chunk export"] ;;
  print 7 [PStr rule80] ;;
  ncfile <- nc_dataset netcdf_path "r" ;;
  tx <- lift (get_variable (var_tx ncfile)) ;;
  print 13 [PStr (nl +:+ "NetCDF info:")] ;;
  print 14 [PStr "  Shape: "; pitem_of_shape (v_shape tx)] ;;
  fill_value <- lift (getattr tx "_FillValue") ;;
  print 15 [PStr "  _FillValue: "; pitem_of_attr fill_value] ;;
  scale_factor <- lift (getattr tx "scale_factor") ;;
  print 16 [PStr "  scale_factor: "; pitem_of_attr scale_factor] ;;
  add_offset <- lift (getattr tx "add_offset") ;;
  print 17 [PStr "  add_offset: "; pitem_of_attr add_offset] ;;
  let first_730_days := slice_first_days tx 730 in
  print 21 [PStr (nl +:+ "First 730 days shape: ");
            pitem_of_shape (a_shape first_730_days)] ;;
  chunk_data <- read_whole chunk_path "rb" ;;
  print 33 [PStr (nl +:+ "Binary chunk info:")] ;;
  print 34 [PStr "  File size: "; PInt "," (len chunk_data); PStr " bytes"] ;;
  print 35 [PStr "  Expected size: "; PInt "," expected_size; PStr " bytes"] ;;
  print 36 [PStr "  Match: "; PBool (len chunk_data =? expected_size)%Z] ;;
  chunk_values <-
    lift (struct_unpack_f 1000 (py_slice chunk_data 0 (1000 * 4)%Z)) ;;
  let missing_chunk := count_if is_missing chunk_values in
  print 43 [PStr (nl +:+ "First 1000 values from chunk:")] ;;
  print 44 [PStr "  Missing (-99.99): "; PInt "" missing_chunk] ;;
  print 45 [PStr "  Valid: "; PInt "" (1000 - missing_chunk)%Z] ;;
  print 48 [PStr (nl +:+ rule80)] ;;
  print 49 [PStr "Checking coordinate 0 (first lat, first lon)..."] ;;
  print 50 [PStr rule80] ;;
  netcdf_timeseries <- lift (time_series tx 0 730 0 0) ;;
  print 57 [PStr (nl +:+ "NetCDF time series at coord (0,0):")] ;;
  print 58 [PStr "  First 20 values: ";
            PList (map show_masked
                       (py_slice (m_elts netcdf_timeseries) 0 20))] ;;
  when (m_masked netcdf_timeseries)
    (let masked_count := mask_sum (m_elts netcdf_timeseries) in
     print 63 [PStr "  Masked values: "; PInt "" masked_count; PStr " / ";
               PInt "" (len (m_elts netcdf_timeseries))] ;;
     print 64 [PStr "  Masked percentage: ";
               PFloat ".2f"
                 (percent (np_truediv masked_count
                                      (len (m_elts netcdf_timeseries))));
               PStr "%"]) ;;
  print 67 [PStr (nl +:+ rule80)] ;;
  print 68 [PStr "Checking central Europe location..."] ;;
  print 69 [PStr rule80] ;;
  lat <- lift (get_variable (var_latitude ncfile)) ;;
  lon <- lift (get_variable (var_longitude ncfile)) ;;
  lat_idx <- lift (np_argmin (abs_diff lat target_lat)) ;;
  lon_idx <- lift (np_argmin (abs_diff lon target_lon)) ;;
  lat_v <- lift (py_index lat lat_idx) ;;
  lon_v <- lift (py_index lon lon_idx) ;;
  print 79 [PStr (nl +:+ "Location: "); PFloat ".2f" lat_v; PStr "°N, ";
            PFloat ".2f" lon_v; PStr "°E"] ;;
  print 80 [PStr "  Indices: lat="; PInt "" (Z.of_nat lat_idx);
            PStr ", lon="; PInt "" (Z.of_nat lon_idx)] ;;
  let coord_index := coord_index lat_idx (length lon) lon_idx in
  print 84 [PStr "  Flattened coord index: "; PInt "" (Z.of_nat coord_index)] ;;
  netcdf_ts <- lift (time_series tx 0 730 lat_idx lon_idx) ;;
  print 88 [PStr (nl +:+ "NetCDF time series:")] ;;
  print 89 [PStr "  First 10 days: ";
            PList (map show_masked (py_slice (m_elts netcdf_ts) 0 10))] ;;
  when (m_masked netcdf_ts)
    (let masked := mask_sum (m_elts netcdf_ts) in
     print 93 [PStr "  Masked: "; PInt "" masked; PStr " / ";
               PInt "" (len (m_elts netcdf_ts))]) ;;
  chunk_ts <- lift (chunk_ts chunk_data coord_index) ;;
  print 101 [PStr (nl +:+ "Chunk file time series:")] ;;
  print 102 [PStr "  First 10 days: ";
             PList (map show_missing (py_slice chunk_ts 0 10))] ;;
  let missing_in_chunk_ts := count_if is_missing chunk_ts in
  print 105 [PStr "  Missing: "; PInt "" missing_in_chunk_ts; PStr " / ";
             PInt "" (len chunk_ts)] ;;
  print 108 [PStr (nl +:+ rule80)] ;;
  print 109 [PStr "Overall dataset statistics..."] ;;
  print 110 [PStr rule80] ;;
  all_chunk_values <-
    lift (struct_unpack_f (len chunk_data / 4)%Z chunk_data) ;;
  let total_missing := count_if is_missing all_chunk_values in
  let total_valid := (len all_chunk_values - total_missing)%Z in
  print 117 [PStr (nl +:+ "Chunk file totals:")] ;;
  print 118 [PStr "  Total values: "; PInt "," (len all_chunk_values)] ;;
  print 119 [PStr "  Missing (-99.99): "; PInt "," total_missing] ;;
  print 120 [PStr "  Valid: "; PInt "," total_valid] ;;
  missing_ratio <- lift (py_truediv total_missing (len all_chunk_values)) ;;
  print 121 [PStr "  Missing percentage: "; PFloat ".2f" (percent missing_ratio);
             PStr "%"] ;;
  when (a_masked first_730_days)
    (let total_masked_nc := mask_sum (elements3 first_730_days) in
     let total_values_nc := size3 first_730_days in
     print 127 [PStr (nl +:+ "NetCDF totals:")] ;;
     print 128 [PStr "  Total values: "; PInt "," total_values_nc] ;;
     print 129 [PStr "  Masked: "; PInt "," total_masked_nc] ;;
     print 130 [PStr "  Valid: ";
                PInt "," (total_values_nc - total_masked_nc)%Z] ;;
     print 131 [PStr "  Masked percentage: ";
                PFloat ".2f"
                  (percent (np_truediv total_masked_nc total_values_nc));
                PStr "%"]) ;;
  nc_close ;;
  print 135 [PStr (nl +:+ rule80)] ;;
  print 136 [PStr "Analysis complete!"] ;;
  print 137 [PStr rule80].

End CompareNetcdfChunk.

(** ** final_diagnosis.py *)

Module FinalDiagnosis.

(** Lines 19 to 23. *)
Definition lon_indices_np (lon_full : list fl) : list nat :=
  np_where (bbox_mask lon_full min_lon max_lon).
Definition lat_indices_np (lat_full : list fl) : list nat :=
  np_where (bbox_mask lat_full min_lat max_lat).

(** Line 83: [flat_data_python[flat_idx] = v]. *)
Definition store (flat : list fl) (flat_idx : nat) (v : fl)
  : result (list fl) :=
  if (flat_idx <? length flat)%nat then Ok (<[flat_idx := v]> flat)
  else Err IndexError.

(** A [for] loop that threads a state and stops at the first exception. *)
Fixpoint for_result {A S} (l : list A) (body : S -> A -> result S) (s : S)
  : result S :=
  match l with
  | [] => Ok s
  | x :: rest =>
      match body s x with
      | Ok s' => for_result rest body s'
      | Err e => Err e
      end
  end.

(** Lines 80 to 83: [for t in range(ntime)]. *)
Definition loop_t (data_transposed : array3) (ntime j i coord_idx : nat)
    (flat : list fl) : result (list fl) :=
  for_result (seq 0 ntime)
    (fun flat t =>
       let flat_idx := coord_idx * ntime + t in
       match get3 data_transposed i j t with
       | Ok v => store flat flat_idx (float_of_mval v)
       | Err e => Err e
       end)
    flat.

(** Lines 79 to 84: [for i in range(nlon)], with the running [coord_idx]. *)
Definition loop_i (data_transposed : array3) (nlon ntime j : nat)
    (st : list fl * nat) : result (list fl * nat) :=
  for_result (seq 0 nlon)
    (fun '(flat, coord_idx) i =>
       match loop_t data_transposed ntime j i coord_idx flat with
       | Ok flat' => Ok (flat', coord_idx + 1)
       | Err e => Err e
       end)
    st.

(** Lines 78 to 84: [for j in range(nlat)]. *)
Definition loop_j (data_transposed : array3) (nlat nlon ntime : nat)
    (st : list fl * nat) : result (list fl * nat) :=
  for_result (seq 0 nlat)
    (fun st j => loop_i data_transposed nlon ntime j st)
    st.

(** Lines 68 to 84: the flattened copy [flat_data_python]. *)
Definition flat_data_python (data_transposed : array3) : result (list fl) :=
  let '(nlon, nlat, ntime) := a_shape data_transposed in
  let num_coords := nlon * nlat in
  let flat_data_python := repeat (Fin 0) (num_coords * ntime) in
  let coord_idx := 0 in
  match loop_j data_transposed nlat nlon ntime (flat_data_python, coord_idx) with
  | Ok (flat, _) => Ok flat
  | Err e => Err e
  end.

(** Line 120: the flattened coordinate index. *)
Definition coord_idx_berlin (filtered_lat_idx nlon filtered_lon_idx : nat)
  : nat :=
  filtered_lat_idx * nlon + filtered_lon_idx.

(** Line 131: [python_ts[i] if not np.isnan(python_ts[i]) else -99.99] *)
Definition p_value (v : fl) : fl := if negb (isnan v) then v else lit_m99_99.

(** [l[-1]] *)
Definition py_last {A} (l : list A) : result A := py_index l (length l - 1).

Definition test_lat : fl := Fin (525 # 10).
Definition test_lon : fl := Fin (134 # 10).

Definition percent (x : fl) : fl := fmul x (Fin 100).

Definition main : prog unit :=
  print 5 [PStr rule80] ;;
  print 6 [PStr "FINAL DIAGNOSIS: Why values don't match"] ;;
  print 7 [PStr rule80] ;;
  ncfile <- nc_dataset netcdf_path "r" ;;
  tx <- lift (get_variable (var_tx ncfile)) ;;
  lat_full <- lift (get_variable (var_latitude ncfile)) ;;
  lon_full <- lift (get_variable (var_longitude ncfile)) ;;
  let lon_indices_np := lon_indices_np lon_full in
  let lat_indices_np := lat_indices_np lat_full in
  print 25 [PStr (nl +:+ "Grid dimensions:")] ;;
  print 26 [PStr "  Full: "; PInt "" (len lat_full); PStr " lat × ";
            PInt "" (len lon_full); PStr " lon"] ;;
  print 27 [PStr "  Filtered: "; PInt "" (len lat_indices_np);
            PStr " lat indices × "; PInt "" (len lon_indices_np);
            PStr " lon indices"] ;;
  print 28 [PStr "  Cells: ";
            PInt "," (len lat_indices_np * len lon_indices_np)] ;;
  lat_start <- lift (py_index lat_indices_np 0) ;;
  lat_last <- lift (py_last lat_indices_np) ;;
  let lat_end := lat_last + 1 in
  lon_start <- lift (py_index lon_indices_np 0) ;;
  lon_last <- lift (py_last lon_indices_np) ;;
  let lon_end := lon_last + 1 in
  print 42 [PStr (nl +:+ "Extracting data block:")] ;;
  print 43 [PStr "  Time: 0 to 730"] ;;
  print 44 [PStr "  Lat indices: "; PInt "" (Z.of_nat lat_start); PStr " to ";
            PInt "" (Z.of_nat lat_end); PStr " (";
            PInt "" (Z.of_nat lat_end - Z.of_nat lat_start); PStr " values)"] ;;
  print 45 [PStr "  Lon indices: "; PInt "" (Z.of_nat lon_start); PStr " to ";
            PInt "" (Z.of_nat lon_end); PStr " (";
            PInt "" (Z.of_nat lon_end - Z.of_nat lon_start); PStr " values)"] ;;
  let data_nc := slice3 tx 0 730 lat_start lat_end lon_start lon_end in
  print 50 [PStr (nl +:+ "Extracted array shape: ");
            pitem_of_shape (a_shape data_nc)] ;;
  print 51 [PStr "  Expected: (730, "; PInt "" (len lat_indices_np);
            PStr ", "; PInt "" (len lon_indices_np); PStr ")"] ;;
  let data_transposed := transpose_210 data_nc in
  print 55 [PStr (nl +:+ "Transposed to [lon, lat, time]: ");
            pitem_of_shape (a_shape data_transposed)] ;;
  let '(nlon, nlat, ntime) := a_shape data_transposed in
  let num_coords := nlon * nlat in
  print 71 [PStr (nl +:+ "Flattening with R's loop structure:")] ;;
  print 72 [PStr "  nlon="; PInt "" (Z.of_nat nlon); PStr ", nlat=";
            PInt "" (Z.of_nat nlat); PStr ", ntime=";
            PInt "" (Z.of_nat ntime)] ;;
  print 73 [PStr "  num_coords="; PInt "" (Z.of_nat num_coords)] ;;
  flat_data_python <- lift (flat_data_python data_transposed) ;;
  print 86 [PStr "  Flattened "; PInt "," (len flat_data_python);
            PStr " values"] ;;
  let masked_count := count_if isnan flat_data_python in
  print 91 [PStr "  Masked (NaN) values: "; PInt "," masked_count; PStr " (";
            PFloat ".2f"
              (percent (np_truediv masked_count (len flat_data_python)));
            PStr "%)"] ;;
  chunk_data <- read_whole chunk_path "rb" ;;
  all_chunk_values <-
    lift (struct_unpack_f (len chunk_data / 4)%Z chunk_data) ;;
  print 100 [PStr (nl +:+ "Chunk file:")] ;;
  print 101 [PStr "  Total values: "; PInt "," (len all_chunk_values)] ;;
  print 102 [PStr "  Size match: ";
             PBool (len all_chunk_values =? len flat_data_python)%Z] ;;
  let lat_filtered := np_take lat_full lat_indices_np in
  let lon_filtered := np_take lon_full lon_indices_np in
  filtered_lat_idx <- lift (np_argmin (abs_diff lat_filtered test_lat)) ;;
  filtered_lon_idx <- lift (np_argmin (abs_diff lon_filtered test_lon)) ;;
  print 114 [PStr (nl +:+ rule80)] ;;
  print 115 [PStr "Testing Berlin ("; PFloat "" test_lat; PStr "°N, ";
             PFloat "" test_lon; PStr "°E)"] ;;
  print 116 [PStr rule80] ;;
  print 117 [PStr "  Filtered indices: lat="; PInt "" (Z.of_nat filtered_lat_idx);
             PStr ", lon="; PInt "" (Z.of_nat filtered_lon_idx)] ;;
  let coord_idx_berlin :=
    coord_idx_berlin filtered_lat_idx nlon filtered_lon_idx in
  print 121 [PStr "  Coordinate index: "; PInt "" (Z.of_nat filtered_lat_idx);
             PStr " * "; PInt "" (Z.of_nat nlon); PStr " + ";
             PInt "" (Z.of_nat filtered_lon_idx); PStr " = ";
             PInt "" (Z.of_nat coord_idx_berlin)] ;;
  let lo := (Z.of_nat coord_idx_berlin * Z.of_nat ntime)%Z in
  let hi := ((Z.of_nat coord_idx_berlin + 1) * Z.of_nat ntime)%Z in
  let python_ts := py_slice flat_data_python lo hi in
  let chunk_ts := py_slice all_chunk_values lo hi in
  print 127 [PStr (nl +:+ "First 10 days comparison:")] ;;
  print 128 [PStr "Day | Python-flattened | Chunk file | Match?"] ;;
  print 129 [PStr "----+------------------+------------+-------"] ;;
  for_each (seq 0 10) (fun i =>
    python_v <- lift (py_index python_ts i) ;;
    let p_val := p_value python_v in
    c_val <- lift (py_index chunk_ts i) ;;
    let match_ :=
      if flt (fabs (fsub p_val c_val)) lit_0_01 then "YES" else "NO" in
    print 134 [PInt "3d" (Z.of_nat i); PStr " | "; PFloat "16.2f" p_val;
               PStr " | "; PFloat "10.2f" c_val; PStr " | "; PStr match_]) ;;
  let python_valid :=
    List.filter (fun v => negb (isnan v)) flat_data_python in
  let chunk_valid :=
    List.filter (fun v => fge (fabs (fadd v lit_99_99)) lit_0_01)
                all_chunk_values in
  print 140 [PStr (nl +:+ rule80)] ;;
  print 141 [PStr "Overall statistics comparison:"] ;;
  print 142 [PStr rule80] ;;
  print 143 [PStr (nl +:+ "Python-flattened:")] ;;
  print 144 [PStr "  Valid values: "; PInt "," (len python_valid)] ;;
  python_min <- lift (np_min python_valid) ;;
  print 145 [PStr "  Min: "; PFloat ".2f" python_min] ;;
  python_max <- lift (np_max python_valid) ;;
  print 146 [PStr "  Max: "; PFloat ".2f" python_max] ;;
  print 147 [PStr "  Mean: "; PFloat ".2f" (np_mean python_valid)] ;;
  print 149 [PStr (nl +:+ "Chunk file:")] ;;
  print 150 [PStr "  Valid values: "; PInt "," (len chunk_valid)] ;;
  chunk_min <- lift (np_min chunk_valid) ;;
  print 151 [PStr "  Min: "; PFloat ".2f" chunk_min] ;;
  chunk_max <- lift (np_max chunk_valid) ;;
  print 152 [PStr "  Max: "; PFloat ".2f" chunk_max] ;;
  print 153 [PStr "  Mean: "; PFloat ".2f" (np_mean chunk_valid)] ;;
  nc_close ;;
  print 157 [PStr (nl +:+ rule80)] ;;
  print 158 [PStr "Diagnosis complete!"] ;;
  print 159 [PStr rule80].

End FinalDiagnosis.

(** ** diagnose_netcdf.py *)

(** NumPy's reductions and boolean selection on a possibly masked array are
    not part of the repository; the script's statistics are computed by
    them and taken as given. *)
Record ma_library : Type := {
  ma_count_eq : marray -> attr -> Z;    (* np.sum(a == fill_value) *)
  ma_count_nan : marray -> Z;           (* np.sum(np.isnan(a)) *)
  ma_not_nan : marray -> marray;        (* a[~np.isnan(a)] *)
  ma_min : marray -> fl;                (* np.min(a) *)
  ma_max : marray -> fl;                (* np.max(a) *)
  ma_mean : marray -> fl;               (* np.mean(a) *)
  ma_std : marray -> fl                 (* np.std(a) *)
}.

Module DiagnoseNetcdf.

Section WithNumPy.

Variable np : ma_library.

(** [f'{v:.2f}' if not np.isnan(v) else 'NaN']; the masked constant is
    rendered as two dashes. *)
Definition show_nan (v : mval) : pitem :=
  match v with
  | Masked => PStr "--"
  | Value x => if negb (isnan x) then PFloat ".2f" x else PStr "NaN"
  end.

(** Lines 53 to 58 and 91 to 94: the number of missing cells of a slice. *)
Definition count_missing (fill_value : option attr) (slice : array2) : Z :=
  match fill_value with
  | Some fv => ma_count_eq np (elements2 slice) fv
  | None => ma_count_nan np (elements2 slice)
  end.

Definition percent (x : fl) : fl := fmul x (Fin 100).

Definition target_lat : fl := Fin 50.
Definition target_lon : fl := Fin 10.

Definition main : prog unit :=
  ncfile <- nc_dataset netcdf_path "r" ;;
  print 7 [PStr rule80] ;;
  print 8 [PStr "E-OBS NetCDF File Diagnostic"] ;;
  print 9 [PStr rule80] ;;
  print 12 [PStr (nl +:+ "File information:")] ;;
  print 13 [PStr "  Format: "; PStr (data_model ncfile)] ;;
  print 14 [PStr "  Dimensions: ";
            PList (map (fun d => PStr (fst d)) (dimensions ncfile))] ;;
  print 17 [PStr (nl +:+ "Dimension sizes:")] ;;
  for_each (dimensions ncfile) (fun '(dim_name, dim) =>
    print 19 [PStr "  "; PStr dim_name; PStr ": "; PInt "" (Z.of_nat dim)]) ;;
  tx <- lift (get_variable (var_tx ncfile)) ;;
  print 23 [PStr (nl +:+ "Variable 'tx' information:")] ;;
  print 24 [PStr "  Shape: "; pitem_of_shape (v_shape tx)] ;;
  print 25 [PStr "  Data type: "; PStr (v_dtype tx)] ;;
  print 26 [PStr "  Dimensions: "; PTuple (map PStr (v_dimensions tx))] ;;
  let fill_value := assoc "_FillValue" (v_attrs tx) in
  match fill_value with
  | Some fv => print 31 [PStr "  _FillValue: "; pitem_of_attr fv]
  | None => print 33 [PStr "  _FillValue: Not set"]
  end ;;
  match assoc "scale_factor" (v_attrs tx) with
  | Some a => print 37 [PStr "  scale_factor: "; pitem_of_attr a]
  | None => Ret tt
  end ;;
  match assoc "add_offset" (v_attrs tx) with
  | Some a => print 39 [PStr "  add_offset: "; pitem_of_attr a]
  | None => Ret tt
  end ;;
  match assoc "units" (v_attrs tx) with
  | Some a => print 41 [PStr "  units: "; pitem_of_attr a]
  | None => Ret tt
  end ;;
  print 44 [PStr (nl +:+ rule80)] ;;
  print 45 [PStr "Analyzing first time slice (day 0)..."] ;;
  print 46 [PStr rule80] ;;
  first_slice <- lift (time_slice tx 0) ;;
  print 50 [PStr (nl +:+ "First slice shape: ");
            PTuple [PInt "" (Z.of_nat (fst (a2_shape first_slice)));
                    PInt "" (Z.of_nat (snd (a2_shape first_slice)))]] ;;
  let missing_count := count_missing fill_value first_slice in
  let total_cells := len (m_elts (elements2 first_slice)) in
  let valid_count := (total_cells - missing_count)%Z in
  let missing_percent := percent (np_truediv missing_count total_cells) in
  print 64 [PStr (nl +:+ "Missing data statistics:")] ;;
  print 65 [PStr "  Total cells: "; PInt "," total_cells] ;;
  print 66 [PStr "  Valid values: "; PInt "," valid_count] ;;
  print 67 [PStr "  Missing values: "; PInt "," missing_count] ;;
  print 68 [PStr "  Missing percentage: "; PFloat ".2f" missing_percent;
            PStr "%"] ;;
  let valid_data := ma_not_nan np (elements2 first_slice) in
  when (0 <? len (m_elts valid_data))%Z
    (print 73 [PStr (nl +:+ "Valid data statistics:")] ;;
     print 74 [PStr "  Min: "; PFloat ".2f" (ma_min np valid_data)] ;;
     print 75 [PStr "  Max: "; PFloat ".2f" (ma_max np valid_data)] ;;
     print 76 [PStr "  Mean: "; PFloat ".2f" (ma_mean np valid_data)] ;;
     print 77 [PStr "  Std: "; PFloat ".2f" (ma_std np valid_data)]) ;;
  print 80 [PStr (nl +:+ "First 20 values from first row:")] ;;
  first_row <- lift (row_prefix first_slice 0 20) ;;
  print 82 [PList (map show_nan first_row)] ;;
  let middle_idx := dim0 (v_shape tx) / 2 in
  print 86 [PStr (nl +:+ rule80)] ;;
  print 87 [PStr "Analyzing middle time slice (day ";
            PInt "" (Z.of_nat middle_idx); PStr ")..."] ;;
  print 88 [PStr rule80] ;;
  middle_slice <- lift (time_slice tx middle_idx) ;;
  let missing_count_mid := count_missing fill_value middle_slice in
  let missing_percent_mid :=
    percent (np_truediv missing_count_mid total_cells) in
  print 97 [PStr (nl +:+ "Missing percentage: ");
            PFloat ".2f" missing_percent_mid; PStr "%"] ;;
  print 100 [PStr (nl +:+ rule80)] ;;
  print 101 [PStr "Sampling specific locations (should have valid data)..."] ;;
  print 102 [PStr rule80] ;;
  lat <- lift (get_variable (var_latitude ncfile)) ;;
  lon <- lift (get_variable (var_longitude ncfile)) ;;
  lat_lo <- lift (np_min lat) ;;
  lat_hi <- lift (np_max lat) ;;
  print 108 [PStr (nl +:+ "Latitude range: "); PFloat ".2f" lat_lo;
             PStr " to "; PFloat ".2f" lat_hi] ;;
  lon_lo <- lift (np_min lon) ;;
  lon_hi <- lift (np_max lon) ;;
  print 109 [PStr "Longitude range: "; PFloat ".2f" lon_lo; PStr " to ";
             PFloat ".2f" lon_hi] ;;
  lat_idx <- lift (np_argmin (abs_diff lat target_lat)) ;;
  lon_idx <- lift (np_argmin (abs_diff lon target_lon)) ;;
  print 118 [PStr (nl +:+ "Sampling location near "); PFloat "" target_lat;
             PStr "°N, "; PFloat "" target_lon; PStr "°E:"] ;;
  lat_v <- lift (py_index lat lat_idx) ;;
  lon_v <- lift (py_index lon lon_idx) ;;
  print 119 [PStr "  Actual coordinates: "; PFloat ".2f" lat_v; PStr "°N, ";
             PFloat ".2f" lon_v; PStr "°E"] ;;
  print 120 [PStr "  Array indices: lat_idx="; PInt "" (Z.of_nat lat_idx);
             PStr ", lon_idx="; PInt "" (Z.of_nat lon_idx)] ;;
  location_timeseries <-
    lift (time_series tx 0 (dim0 (v_shape tx)) lat_idx lon_idx) ;;
  let valid_ts := ma_not_nan np location_timeseries in
  let missing_ts := ma_count_nan np location_timeseries in
  let missing_ts_percent :=
    percent (np_truediv missing_ts (len (m_elts location_timeseries))) in
  print 128 [PStr (nl +:+ "Time series at this location:")] ;;
  print 129 [PStr "  Total days: ";
             PInt "" (len (m_elts location_timeseries))] ;;
  print 130 [PStr "  Valid days: "; PInt "" (len (m_elts valid_ts))] ;;
  print 131 [PStr "  Missing days: "; PInt "" missing_ts] ;;
  print 132 [PStr "  Missing percentage: "; PFloat ".2f" missing_ts_percent;
             PStr "%"] ;;
  print 133 [PStr (nl +:+ "First 10 days: ");
             PList (map show_nan
                        (py_slice (m_elts location_timeseries) 0 10))] ;;
  nc_close ;;
  print 137 [PStr (nl +:+ rule80)] ;;
  print 138 [PStr "Diagnostic complete!"] ;;
  print 139 [PStr rule80].

End WithNumPy.

End DiagnoseNetcdf.

(** ** The five scripts *)

Inductive script : Type :=
| check_chunk
| diagnose_netcdf
| compare_netcdf_chunk
| verify_coordinate_mapping
| final_diagnosis.

Definition program (np : ma_library) (s : script) : prog unit :=
  match s with
  | check_chunk => CheckChunk.main
  | diagnose_netcdf => DiagnoseNetcdf.main np
  | compare_netcdf_chunk => CompareNetcdfChunk.main
  | verify_coordinate_mapping => VerifyCoordinateMapping.main
  | final_diagnosis => FinalDiagnosis.main
  end.

(** ** Notions used by the properties *)



(** [lo <= x <= hi] for a coordinate [x]: a NaN or an infinity is outside
    every finite range. *)
Definition within (lo hi : Q) (x : fl) : Prop :=
  match x with
  | Fin q => (lo <= q /\ q <= hi)%Q
  | _ => False
  end.

(** The two flattening conventions of a (lat, lon) grid with [nlat] rows and
    [nlon] columns. *)
Definition lat_major (nlat nlon lat_idx lon_idx : nat) : nat :=
  lat_idx * nlon + lon_idx.
Definition lon_major (nlat nlon lat_idx lon_idx : nat) : nat :=
  lon_idx * nlat + lat_idx.

(** The coordinate-index arithmetic of each script as a function of the
    grid and of the two indices; check_chunk.py and diagnose_netcdf.py
    compute no coordinate index. *)
Definition flat_index (s : script) : option (nat -> nat -> nat -> nat -> nat) :=
  match s with
  | check_chunk | diagnose_netcdf => None
  | compare_netcdf_chunk =>
      Some (fun nlat nlon lat_idx lon_idx =>
              CompareNetcdfChunk.coord_index lat_idx nlon lon_idx)
  | verify_coordinate_mapping =>
      Some (fun nlat nlon lat_idx lon_idx =>
              VerifyCoordinateMapping.coord_idx_calculated lat_idx nlon lon_idx)
  | final_diagnosis =>
      Some (fun nlat nlon lat_idx lon_idx =>
              FinalDiagnosis.coord_idx_berlin lat_idx nlon lon_idx)
  end.

(** The position of cell [(j, i, t)] in the flat array. *)
Definition flat_pos (nlon ntime j i t : nat) : nat := (j * nlon + i) * ntime + t.

(** The order in which [np.argmin] compares: a NaN is below everything, and
    the other values are ordered as numbers. *)
Definition ale (x y : fl) : bool := isnan x || (negb (isnan y) && fle x y).

(** [m] is the position of the first minimum of [l]. *)
Definition first_min (l : list fl) (m : nat) : Prop :=
  exists pre x post,
    l = (pre ++ x :: post)%list /\ length pre = m
    /\ (forall y, In y pre -> ale y x = false)
    /\ (forall y, In y post -> ale x y = true).

(** A grid of 465 latitudes from 34.00 and 705 longitudes from -25.00, in
    steps of 0.05: every cell lies inside the bounding box. *)
Definition grid_lat_inside : list fl :=
  map (fun j => Fin (Qred ((3400 + 5 * Z.of_nat j) # 100))) (seq 0 465).
Definition grid_lon_inside : list fl :=
  map (fun i => Fin (Qred ((-2500 + 5 * Z.of_nat i) # 100))) (seq 0 705).

(** A 2 x 3 grid whose first longitude lies outside the bounding box. *)
Definition grid_lat_small : list fl := [Fin 40; Fin 50].
Definition grid_lon_small : list fl := [Fin (-30); Fin 10; Fin (134 # 10)].


(** ** Monitors

    A monitor reads the operations of a script one after the other and
    keeps a state; a step that returns [None] rejects the operation.
    [wp step p s post] says that the monitor, started in state [s], accepts
    every operation that [p] can perform whatever answers it receives, and
    that [post] holds of the result and of the monitor state at each normal
    end of [p]. *)

(** The answers that the runtime can give: opening a file returns the file
    object of that path and mode. *)
Definition answers (o : op) : ans o -> Prop :=
  match o return ans o -> Prop with
  | FileOpen path mode => fun f => f = {| f_path := path; f_mode := mode |}
  | _ => fun _ => True
  end.

Section Monitor.

Context {S : Type}.
Variable step : op -> S -> option S.

Fixpoint wp {A} (p : prog A) (s : S) (post : A -> S -> Prop) : Prop :=
  match p with
  | Ret a => post a s
  | Raise _ => True
  | Vis o k =>
      match step o s with
      | Some s' => forall x, answers o x -> wp (k x) s' post
      | None => False
      end
  end.

(** The state in which the monitor leaves a trace, if it accepts it. *)
Fixpoint monitor (t : list op) (s : S) : option S :=
  match t with
  | [] => Some s
  | o :: rest =>
      match step o s with
      | Some s' => monitor rest s'
      | None => None
      end
  end.

End Monitor.

(** The operations a script may perform when it may use the dataset
    ([use_dataset]) and the chunk file ([use_chunk]): printing, opening the
    dataset read-only, opening and reading the chunk file read-only, and
    closing them. *)
Definition allowed (use_dataset use_chunk : bool) (o : op) : bool :=
  match o with
  | Print _ _ => true
  | DatasetOpen path mode =>
      use_dataset && String.eqb path netcdf_path && String.eqb mode "r"
  | DatasetClose => use_dataset
  | FileOpen path mode =>
      use_chunk && String.eqb path chunk_path && String.eqb mode "rb"
  | FileRead f _ =>
      use_chunk && String.eqb (f_path f) chunk_path && String.eqb (f_mode f) "rb"
  | FileClose f => use_chunk && String.eqb (f_path f) chunk_path
  | FileWrite _ _ | FileRemove _ | GetArgv => false
  end.

Definition access_step (use_dataset use_chunk : bool) (o : op) (s : unit)
  : option unit :=
  if allowed use_dataset use_chunk o then Some tt else None.

Definition uses_dataset (s : script) : bool :=
  match s with check_chunk => false | _ => true end.
Definition uses_chunk (s : script) : bool :=
  match s with diagnose_netcdf => false | _ => true end.



(** The monitor that records which of the operations [targets] it has
    seen. *)
Definition seen_step (targets : list (op -> bool)) (o : op) (seen : list bool)
  : option (list bool) :=
  Some (map (fun '(q, b) => b || q o) (combine targets seen)).

Definition is_dataset_open (o : op) : bool :=
  match o with
  | DatasetOpen path mode => String.eqb path netcdf_path && String.eqb mode "r"
  | _ => false
  end.
Definition is_chunk_open (o : op) : bool :=
  match o with
  | FileOpen path mode => String.eqb path chunk_path && String.eqb mode "rb"
  | _ => false
  end.
Definition is_print_at (line : nat) (o : op) : bool :=
  match o with
  | Print l _ => (l =? line)%nat
  | _ => false
  end.

(** The source lines on which a script prints its coordinate index, the
    time series of the dataset and the time series of the chunk
    (final_diagnosis.py prints the two series on one line). *)
Definition index_line (s : script) : nat :=
  match s with
  | compare_netcdf_chunk => 84
  | verify_coordinate_mapping => 78
  | final_diagnosis => 121
  | _ => 0
  end.
Definition netcdf_series_line (s : script) : nat :=
  match s with
  | compare_netcdf_chunk => 89
  | verify_coordinate_mapping => 58
  | final_diagnosis => 134
  | _ => 0
  end.
Definition chunk_series_line (s : script) : nat :=
  match s with
  | compare_netcdf_chunk => 102
  | verify_coordinate_mapping => 92
  | final_diagnosis => 134
  | _ => 0
  end.

Definition compares_sources (s : script) : bool :=
  match s with
  | compare_netcdf_chunk | verify_coordinate_mapping | final_diagnosis => true
  | check_chunk | diagnose_netcdf => false
  end.

Definition targets_of (s : script) : list (op -> bool) :=
  [is_dataset_open; is_chunk_open; is_print_at (index_line s);
   is_print_at (netcdf_series_line s); is_print_at (chunk_series_line s)].

(** Two worlds agree on the two files that the scripts name. *)
Definition agree (w1 w2 : world) : Prop :=
  fs w1 !! netcdf_path = fs w2 !! netcdf_path
  /\ fs w1 !! chunk_path = fs w2 !! chunk_path.

(** An operation that leaves every file as it is. *)
Definition read_only (o : op) : Prop :=
  match o with
  | DatasetOpen _ mode => mode = "r"
  | FileOpen _ mode => mode = "r" \/ mode = "rb"
  | FileWrite _ _ | FileRemove _ => False
  | _ => True
  end.

(** An operation that names no file other than the two hard-coded paths
    and does not read the command line. *)
Definition hard_coded (o : op) : Prop :=
  match o with
  | DatasetOpen path _ => path = netcdf_path
  | FileOpen path _ | FileRemove path => path = chunk_path
  | FileRead f _ | FileWrite f _ | FileClose f => f_path f = chunk_path
  | GetArgv => False
  | _ => True
  end.

(** ** Sample inputs

    A dataset of 10 days on a 2 x 2 grid inside the bounding box, with the
    fourth day masked, and a chunk of four coordinates of 730 zero
    values. *)
Definition sample_tx : variable3 :=
  {| v_shape := (10, 2, 2);
     v_dtype := "float32";
     v_dimensions := ["time"; "latitude"; "longitude"];
     v_attrs := [("_FillValue", AttrNum (Fin (-9999)));
                 ("scale_factor", AttrNum (Fin (1 # 100)));
                 ("add_offset", AttrNum (Fin 0));
                 ("units", AttrStr "Celsius")];
     v_masked := true;
     v_elt := fun t la lo => if (t =? 3)%nat then Masked else Value (Fin 0) |}.

Definition sample_dataset : dataset :=
  {| data_model := "NETCDF4_CLASSIC";
     dimensions := [("longitude", 2); ("latitude", 2); ("time", 10)];
     var_tx := Some sample_tx;
     var_latitude := Some [Fin 50; Fin (525 # 10)];
     var_longitude := Some [Fin 10; Fin (134 # 10)] |}.

Definition sample_parse (b : list byte) : option dataset := Some sample_dataset.

Definition sample_numpy : ma_library :=
  {| ma_count_eq := fun _ _ => 0%Z;
     ma_count_nan := fun _ => 0%Z;
     ma_not_nan := fun a => a;
     ma_min := fun _ => Fin 0;
     ma_max := fun _ => Fin 0;
     ma_mean := fun _ => Fin 0;
     ma_std := fun _ => Fin 0 |}.

Definition sample_world (args : list string) : world :=
  {| fs := <[netcdf_path := []]> (<[chunk_path := repeat x00 (4 * 2920)]> ∅);
     argv := args |}.

(** ** Further notions used by the properties *)


(** A coordinate array in ascending order, in descending order, or in one
    of the two. *)
Definition ascending (a : list fl) : Prop :=
  forall i j x y, i <= j -> nth_error a i = Some x -> nth_error a j = Some y ->
    fle x y = true.
Definition descending (a : list fl) : Prop :=
  forall i j x y, i <= j -> nth_error a i = Some x -> nth_error a j = Some y ->
    fle y x = true.
Definition monotone (a : list fl) : Prop := ascending a \/ descending a.

(** The printed item is the text [MISSING]. *)
Definition shown_missing (p : pitem) : bool :=
  match p with
  | PStr s => String.eqb s "MISSING"
  | _ => false
  end.

Definition is_print (o : op) : bool :=
  match o with Print _ _ => true | _ => false end.

(** What opening the dataset of the scripts read-only gives in a world: the
    file must exist and the library must be able to decode it. *)
Definition dataset_of (parse_netcdf : list byte -> option dataset) (w : world)
  : result dataset :=
  match fs w !! netcdf_path with
  | None => Err FileNotFoundError
  | Some c =>
      match parse_netcdf c with
      | Some ds => Ok ds
      | None => Err OSError
      end
  end.

(** The exceptions with which an operation of the runtime can fail. *)
Definition fails (o : op) (e : exn) : Prop :=
  match o with
  | Print _ _ | DatasetClose | FileClose _ | GetArgv => False
  | DatasetOpen _ mode =>
      match dataset_access mode with
      | None => e = ValueError
      | Some ReadOnly | Some Update => e = FileNotFoundError \/ e = OSError
      | Some Exclusive => e = FileExistsError \/ e = OSError
      | Some Truncate | Some Append => e = OSError
      end
  | FileOpen _ mode =>
      match file_access mode with
      | None => e = ValueError
      | Some ReadOnly | Some Update => e = FileNotFoundError
      | Some Exclusive => e = FileExistsError
      | Some Truncate | Some Append => False
      end
  | FileRead f _ =>
      if can_read (f_mode f) then e = OSError else e = UnsupportedOperation
  | FileWrite f _ =>
      if can_write (f_mode f) then e = OSError else e = UnsupportedOperation
  | FileRemove _ => e = FileNotFoundError
  end.

(** ** Monitors that also see the exceptions

    [wpe step p s post epost] is [wp step p s post] with one more
    obligation: [epost e s] holds of the exception [e] and of the monitor
    state wherever [p] can end with an uncaught exception, raised by one of
    its computations or by an operation of the runtime. *)
Section MonitorExn.

Context {S : Type}.
Variable step : op -> S -> option S.

Fixpoint wpe {A} (p : prog A) (s : S) (post : A -> S -> Prop)
    (epost : exn -> S -> Prop) : Prop :=
  match p with
  | Ret a => post a s
  | Raise e => epost e s
  | Vis o k =>
      match step o s with
      | Some s' =>
          (forall e, fails o e -> epost e s')
          /\ (forall x, answers o x -> wpe (k x) s' post epost)
      | None => False
      end
  end.

End MonitorExn.

(** The state of the dataset handle of a script. *)
Inductive handle : Type :=
| NotOpened
| Opened
| Closed.

(** The monitor of the dataset handle: the dataset is opened once and
    closed once, in that order, and once it is closed the script only
    prints. *)
Definition handle_step (o : op) (h : handle) : option handle :=
  match o, h with
  | Print _ _, _ => Some h
  | DatasetOpen _ _, NotOpened => Some Opened
  | DatasetOpen _ _, _ => None
  | DatasetClose, Opened => Some Closed
  | DatasetClose, _ => None
  | _, Closed => None
  | _, _ => Some h
  end.

(** The monitor that accepts every operation. *)
Definition any_step (o : op) (s : unit) : option unit := Some tt.

(** The exceptions with which each script can end. *)
Definition may_raise (s : script) (e : exn) : bool :=
  match e with
  | FileNotFoundError | OSError => true
  | StructError => uses_chunk s
  | KeyError | IndexError | ValueError => uses_dataset s
  | AttributeError =>
      match s with compare_netcdf_chunk => true | _ => false end
  | FileExistsError | UnsupportedOperation | ZeroDivisionError => false
  end.

(** A dataset that holds no variable. *)
Definition empty_dataset : dataset :=
  {| data_model := "NETCDF4_CLASSIC";
     dimensions := [];
     var_tx := None;
     var_latitude := None;
     var_longitude := None |}.

(** Lines 39 to 68 and 107 to 120 of final_diagnosis.py for a target
    location, as far as the coordinate index depends on them: the bounds of
    the extracted block, the shape of the block once transposed, the
    nearest-neighbour indices in the filtered grid and the coordinate index
    they give. *)
Definition coord_idx_berlin_of (tx : variable3) (lat_full lon_full : list fl)
    (test_lat test_lon : fl) : result nat :=
  let lon_indices_np := FinalDiagnosis.lon_indices_np lon_full in
  let lat_indices_np := FinalDiagnosis.lat_indices_np lat_full in
  match py_index lat_indices_np 0 with
  | Err e => Err e
  | Ok lat_start =>
  match FinalDiagnosis.py_last lat_indices_np with
  | Err e => Err e
  | Ok lat_last =>
  match py_index lon_indices_np 0 with
  | Err e => Err e
  | Ok lon_start =>
  match FinalDiagnosis.py_last lon_indices_np with
  | Err e => Err e
  | Ok lon_last =>
      let data_nc :=
        slice3 tx 0 730 lat_start (lat_last + 1) lon_start (lon_last + 1) in
      let data_transposed := transpose_210 data_nc in
      let '(nlon, nlat, ntime) := a_shape data_transposed in
      let lat_filtered := np_take lat_full lat_indices_np in
      let lon_filtered := np_take lon_full lon_indices_np in
      match np_argmin (abs_diff lat_filtered test_lat) with
      | Err e => Err e
      | Ok filtered_lat_idx =>
      match np_argmin (abs_diff lon_filtered test_lon) with
      | Err e => Err e
      | Ok filtered_lon_idx =>
          Ok (FinalDiagnosis.coord_idx_berlin filtered_lat_idx nlon
                                               filtered_lon_idx)
      end
      end
  end
  end
  end
  end.

(** The sample dataset with a variable [tx] that carries no attribute. *)
Definition bare_dataset : dataset :=
  {| data_model := data_model sample_dataset;
     dimensions := dimensions sample_dataset;
     var_tx := Some {| v_shape := v_shape sample_tx;
                       v_dtype := v_dtype sample_tx;
                       v_dimensions := v_dimensions sample_tx;
                       v_attrs := [];
                       v_masked := v_masked sample_tx;
                       v_elt := v_elt sample_tx |};
     var_latitude := var_latitude sample_dataset;
     var_longitude := var_longitude sample_dataset |}.

(** * Properties *)

Close Scope string_scope.

(** ** Facts about the floating-point comparisons *)

Lemma Qltb_lt (a b : Q) : Qltb a b = true <-> (a < b)%Q.
Proof.
  unfold Qltb. rewrite Qlt_alt. destruct (a ?= b)%Q; split; congruence.
Qed.

Lemma Qabs_Qred (x : Q) : (Qabs (Qred x) == Qabs x)%Q.
Proof. now rewrite Qred_correct. Qed.

Lemma count_if_nonneg {A} (p : A -> bool) (l : list A) : (0 <= count_if p l)%Z.
Proof. induction l as [|v l IH]; simpl; [lia|]. destruct (p v); lia. Qed.





(** ** check_chunk.py: the three counts *)


(** ** Bounding-box filtering *)

Lemma where_from_spec (mask : list bool) (k i : nat) :
  In i (where_from k mask) <-> k <= i /\ nth_error mask (i - k) = Some true.
Proof.
  revert k. induction mask as [|b mask IH]; intros k; cbn [where_from].
  - split; [intros [] | intros [_ H]]. now destruct (i - k).
  - assert (Hrest : In i (where_from (S k) mask)
                    <-> k < i /\ nth_error (b :: mask) (i - k) = Some true).
    { rewrite IH. split; intros [Hle Hn]; (split; [lia|]).
      - replace (i - k) with (S (i - S k)) by lia. exact Hn.
      - replace (i - k) with (S (i - S k)) in Hn by lia. exact Hn. }
    destruct b; cbn [In]; rewrite Hrest.
    + split.
      * intros [<- | [Hlt Hn]]; [|split; [lia | exact Hn]].
        split; [lia|]. now rewrite Nat.sub_diag.
      * intros [Hle Hn]. destruct (Nat.eq_dec k i) as [->|Hne]; [now left|].
        right. split; [lia | exact Hn].
    + split; [intros [Hlt Hn]; split; [lia | exact Hn]|].
      intros [Hle Hn]. split; [|exact Hn].
      destruct (Nat.eq_dec k i) as [->|Hne]; [|lia].
      rewrite Nat.sub_diag in Hn. discriminate.
Qed.

Lemma where_from_sorted (mask : list bool) (k : nat) :
  StronglySorted lt (where_from k mask).
Proof.
  revert k. induction mask as [|b mask IH]; intros k; cbn [where_from].
  - constructor.
  - destruct b; [|apply IH]. constructor; [apply IH|].
    apply List.Forall_forall. intros i Hi. apply where_from_spec in Hi. lia.
Qed.

Lemma np_take_where_from {A} (p : A -> bool) (pre a : list A) :
  np_take (pre ++ a) (where_from (length pre) (map p a)) = List.filter p a.
Proof.
  revert pre. induction a as [|x a IH]; intros pre; [reflexivity|].
  cbn [map where_from List.filter].
  assert (Hshift : np_take (pre ++ x :: a) (where_from (S (length pre)) (map p a))
                   = List.filter p a).
  { specialize (IH (pre ++ [x])). rewrite <- app_assoc in IH. cbn [app] in IH.
    rewrite length_app in IH. cbn [length] in IH.
    now rewrite Nat.add_1_r in IH. }
  destruct (p x); [|exact Hshift].
  cbn [np_take]. rewrite nth_error_app2 by lia.
  rewrite Nat.sub_diag. cbn [nth_error]. now rewrite Hshift.
Qed.

Lemma np_take_where {A} (p : A -> bool) (a : list A) :
  np_take a (np_where (map p a)) = List.filter p a.
Proof. exact (np_take_where_from p [] a). Qed.

Lemma fle_Fin_iff (a : Q) (x : fl) :
  fle (Fin a) x = true <-> x = PInf \/ exists q, x = Fin q /\ (a <= q)%Q.
Proof.
  destruct x as [| | |q]; cbn [fle].
  - split; [discriminate | intros [?|(q & ? & _)]; discriminate].
  - split; [now left | trivial].
  - split; [discriminate | intros [?|(q & ? & _)]; discriminate].
  - rewrite Qle_bool_iff. split.
    + intros H. right. eauto.
    + intros [?|(q' & [= ->] & H)]; [discriminate | exact H].
Qed.

Lemma fle_iff_Fin (x : fl) (b : Q) :
  fle x (Fin b) = true <-> x = NInf \/ exists q, x = Fin q /\ (q <= b)%Q.
Proof.
  destruct x as [| | |q]; cbn [fle].
  - split; [discriminate | intros [?|(q & ? & _)]; discriminate].
  - split; [discriminate | intros [?|(q & ? & _)]; discriminate].
  - split; [now left | trivial].
  - rewrite Qle_bool_iff. split.
    + intros H. right. eauto.
    + intros [?|(q' & [= ->] & H)]; [discriminate | exact H].
Qed.

(** The mask [(x >= lo) & (x <= hi)] holds exactly for the finite values of
    the closed interval. *)
Lemma bbox_test_within (lo hi : Q) (x : fl) :
  fge x (Fin lo) && fle x (Fin hi) = true <-> within lo hi x.
Proof.
  unfold fge. rewrite andb_true_iff, fle_Fin_iff, fle_iff_Fin.
  destruct x as [| | |q]; cbn [within].
  - split; [intros [[?|(q & ? & _)] _]; discriminate | tauto].
  - split; [intros [_ [?|(q & ? & _)]]; discriminate | tauto].
  - split; [intros [[?|(q & ? & _)] _]; discriminate | tauto].
  - split.
    + intros [[?|(q1 & [= <-] & H1)] [?|(q2 & [= <-] & H2)]];
        try discriminate. now split.
    + intros [H1 H2]. split; right; eauto.
Qed.

Lemma bbox_indices_spec (a : list fl) (lo hi : Q) (i : nat) :
  In i (np_where (bbox_mask a (Fin lo) (Fin hi)))
  <-> exists x, nth_error a i = Some x /\ within lo hi x.
Proof.
  unfold np_where, bbox_mask. rewrite where_from_spec, Nat.sub_0_r.
  rewrite nth_error_map. split.
  - intros [_ H]. destruct (nth_error a i) as [x|]; [|discriminate].
    exists x. split; [reflexivity|]. apply bbox_test_within.
    cbn [option_map] in H. congruence.
  - intros (x & -> & H). split; [lia|]. cbn [option_map].
    apply bbox_test_within in H. now rewrite H.
Qed.

(** C4. In verify_coordinate_mapping.py and final_diagnosis.py the kept
    longitude indices are exactly the positions whose longitude lies in
    [-25, 45] and the kept latitude indices exactly those whose latitude
    lies in [34, 72], bounds included; each index list is strictly
    increasing, and the filtered coordinates are the kept values in their
    original order.  This holds for every input coordinate array. *)
Theorem bbox_filter_inclusive_and_ordered (lon_full lat_full : list fl) :
  (forall i, In i (VerifyCoordinateMapping.lon_indices lon_full)
             <-> exists x, nth_error lon_full i = Some x /\ within (-25) 45 x)
  /\ (forall j, In j (VerifyCoordinateMapping.lat_indices lat_full)
                <-> exists y, nth_error lat_full j = Some y /\ within 34 72 y)
  /\ StronglySorted lt (VerifyCoordinateMapping.lon_indices lon_full)
  /\ StronglySorted lt (VerifyCoordinateMapping.lat_indices lat_full)
  /\ VerifyCoordinateMapping.lon_filtered lon_full
     = List.filter (fun x => fge x min_lon && fle x max_lon) lon_full
  /\ VerifyCoordinateMapping.lat_filtered lat_full
     = List.filter (fun y => fge y min_lat && fle y max_lat) lat_full
  /\ (forall i, In i (FinalDiagnosis.lon_indices_np lon_full)
                <-> exists x, nth_error lon_full i = Some x /\ within (-25) 45 x)
  /\ (forall j, In j (FinalDiagnosis.lat_indices_np lat_full)
                <-> exists y, nth_error lat_full j = Some y /\ within 34 72 y)
  /\ StronglySorted lt (FinalDiagnosis.lon_indices_np lon_full)
  /\ StronglySorted lt (FinalDiagnosis.lat_indices_np lat_full).
Proof.
  unfold VerifyCoordinateMapping.lon_indices, VerifyCoordinateMapping.lat_indices,
    VerifyCoordinateMapping.lon_filtered, VerifyCoordinateMapping.lat_filtered,
    VerifyCoordinateMapping.lon_indices, VerifyCoordinateMapping.lat_indices,
    FinalDiagnosis.lon_indices_np, FinalDiagnosis.lat_indices_np,
    min_lon, max_lon, min_lat, max_lat.
  repeat split; try apply bbox_indices_spec; try apply where_from_sorted;
    try apply (proj1 (bbox_indices_spec _ _ _ _));
    try apply (proj2 (bbox_indices_spec _ _ _ _));
    try apply np_take_where.
Qed.

(** ** The flattening convention of the coordinate index *)

(** C1, as stated, fails: no script flattens the grid lon-major.  Already on
    the 2 x 3 grid, at row 1 and column 0, the index of every script that
    computes one is 3, while the lon-major index is 1. *)
Lemma no_script_flattens_lon_major :
  ~ (exists s f, flat_index s = Some f
                 /\ forall nlat nlon lat_idx lon_idx,
                      lat_idx < nlat -> lon_idx < nlon ->
                      f nlat nlon lat_idx lon_idx
                      = lon_major nlat nlon lat_idx lon_idx).
Proof.
  intros (s & f & Hs & H). specialize (H 2 3 1 0).
  destruct s; cbn [flat_index] in Hs; try discriminate;
    injection Hs as <-; cbv in H; lia.
Qed.

(** C1, amended. Every script that computes a flattened coordinate index
    (compare_netcdf_chunk.py, verify_coordinate_mapping.py and
    final_diagnosis.py) computes the lat-major one, lat_idx * nlon + lon_idx;
    check_chunk.py and diagnose_netcdf.py compute none.  On every grid with
    nlat > 1 and nlon > 1 the lat-major and the lon-major index functions
    differ at some cell of the grid. *)
Theorem every_coordinate_index_is_lat_major :
  (forall s f, flat_index s = Some f ->
     forall nlat nlon lat_idx lon_idx,
       f nlat nlon lat_idx lon_idx = lat_major nlat nlon lat_idx lon_idx)
  /\ (forall s, flat_index s = None <-> s = check_chunk \/ s = diagnose_netcdf)
  /\ (forall nlat nlon, 1 < nlat -> 1 < nlon ->
        exists lat_idx lon_idx,
          lat_idx < nlat /\ lon_idx < nlon
          /\ lat_major nlat nlon lat_idx lon_idx
             <> lon_major nlat nlon lat_idx lon_idx).
Proof.
  split; [|split].
  - intros s f Hs nlat nlon la lo.
    destruct s; cbn [flat_index] in Hs; try discriminate;
      injection Hs as <-; reflexivity.
  - intros s. destruct s; cbn [flat_index]; split;
      try discriminate; try tauto; intros [H|H]; discriminate.
  - intros nlat nlon Hlat Hlon. exists 1, 0.
    unfold lat_major, lon_major. repeat split; lia.
Qed.

(** ** Slicing a time series from the chunk *)

Lemma py_slice_length {A} (l : list A) (a b : Z) :
  (0 <= a)%Z -> (a <= b)%Z ->
  len (py_slice l a b) = (Z.min b (len l) - Z.min a (len l))%Z.
Proof.
  intros Ha Hb. unfold py_slice, slice_bound, len.
  destruct (Z.ltb_spec a 0), (Z.ltb_spec b 0); try lia.
  rewrite length_firstn, length_skipn. lia.
Qed.

Lemma struct_unpack_f_ok (n : Z) (data : list byte) :
  is_ok (struct_unpack_f n data) = true <-> len data = (4 * n)%Z.
Proof.
  unfold struct_unpack_f. destruct (Z.eqb_spec (len data) (4 * n)); cbn [is_ok].
  - tauto.
  - split; [discriminate | tauto].
Qed.

Lemma struct_unpack_f_err (n : Z) (data : list byte) :
  len data <> (4 * n)%Z -> struct_unpack_f n data = Err StructError.
Proof.
  intros H. unfold struct_unpack_f.
  now destruct (Z.eqb_spec (len data) (4 * n)).
Qed.

Lemma chunk_series_ok (chunk_data : list byte) (coord : nat) :
  is_ok (struct_unpack_f 730
           (py_slice chunk_data (Z.of_nat coord * 730 * 4)
                     (Z.of_nat coord * 730 * 4 + 730 * 4))) = true
  <-> (Z.of_nat coord * 730 * 4 + 730 * 4 <= len chunk_data)%Z.
Proof.
  rewrite struct_unpack_f_ok, py_slice_length by lia.
  pose proof (Zle_0_nat (length chunk_data)). unfold len in *. lia.
Qed.

(** C8. In verify_coordinate_mapping.py and compare_netcdf_chunk.py,
    unpacking the 730 float32 values at byte offset coord * 730 * 4
    succeeds if and only if coord * 730 * 4 + 730 * 4 <= len(chunk_data).
    For 0 <= coord < len(chunk_data) // (730 * 4) both succeed, so the
    failure of struct.unpack on a short slice cannot happen; for every
    larger coord both raise struct.error, and so does any script that
    continues from that unpack. *)
Theorem chunk_slice_safe_iff_in_bounds
    (parse_netcdf : list byte -> option dataset) (netcdf_created : list byte)
    (chunk_data : list byte) (coord : nat) :
  (is_ok (VerifyCoordinateMapping.chunk_ts chunk_data coord) = true
   <-> (Z.of_nat coord * 730 * 4 + 730 * 4 <= len chunk_data)%Z)
  /\ (is_ok (CompareNetcdfChunk.chunk_ts chunk_data coord) = true
      <-> (Z.of_nat coord * 730 * 4 + 730 * 4 <= len chunk_data)%Z)
  /\ ((0 <= Z.of_nat coord < len chunk_data / (730 * 4))%Z ->
      is_ok (VerifyCoordinateMapping.chunk_ts chunk_data coord) = true
      /\ is_ok (CompareNetcdfChunk.chunk_ts chunk_data coord) = true)
  /\ ((len chunk_data / (730 * 4) <= Z.of_nat coord)%Z ->
      VerifyCoordinateMapping.chunk_ts chunk_data coord = Err StructError
      /\ CompareNetcdfChunk.chunk_ts chunk_data coord = Err StructError
      /\ forall (k : list fl -> prog unit) (w : world),
           outcome parse_netcdf netcdf_created
             (chunk_ts <- lift (VerifyCoordinateMapping.chunk_ts chunk_data coord) ;;
              k chunk_ts) w = Err StructError
           /\ outcome parse_netcdf netcdf_created
                (chunk_ts <- lift (CompareNetcdfChunk.chunk_ts chunk_data coord) ;;
                 k chunk_ts) w = Err StructError).
Proof.
  unfold VerifyCoordinateMapping.chunk_ts, CompareNetcdfChunk.chunk_ts,
    VerifyCoordinateMapping.num_days, CompareNetcdfChunk.num_days.
  cbv zeta.
  pose proof (chunk_series_ok chunk_data coord) as Hok.
  pose proof (Zle_0_nat (length chunk_data)) as Hlen. fold (len chunk_data) in Hlen.
  pose proof (Z.div_mod (len chunk_data) (730 * 4) ltac:(lia)) as Hdiv.
  pose proof (Z.mod_pos_bound (len chunk_data) (730 * 4) ltac:(lia)) as Hmod.
  split; [exact Hok|]. split; [exact Hok|]. split.
  - intros Hc. assert (Hfit : (Z.of_nat coord * 730 * 4 + 730 * 4 <= len chunk_data)%Z) by nia.
    split; now apply Hok.
  - intros Hc.
    assert (Hfail : struct_unpack_f 730
              (py_slice chunk_data (Z.of_nat coord * 730 * 4)
                        (Z.of_nat coord * 730 * 4 + 730 * 4)) = Err StructError).
    { apply struct_unpack_f_err. intros Hl.
      assert (Hfit : (Z.of_nat coord * 730 * 4 + 730 * 4 <= len chunk_data)%Z).
      { apply Hok. now apply struct_unpack_f_ok. }
      nia. }
    split; [exact Hfail|]. split; [exact Hfail|].
    intros k w. rewrite Hfail. split; reflexivity.
Qed.

(** ** The flattening loop of final_diagnosis.py *)

Section Flatten.

Variable data : array3.
Variables nlon nlat ntime : nat.
Hypothesis shape : a_shape data = (nlon, nlat, ntime).

Lemma get3_in_range (i j t : nat) :
  i < nlon -> j < nlat -> t < ntime -> get3 data i j t = Ok (a_elt data i j t).
Proof.
  intros Hi Hj Ht. unfold get3. rewrite shape.
  destruct (Nat.ltb_spec i nlon), (Nat.ltb_spec j nlat), (Nat.ltb_spec t ntime);
    try lia. reflexivity.
Qed.

Lemma loop_t_from (j i c n s : nat) (flat : list fl) :
  i < nlon -> j < nlat -> s + n <= ntime -> c * ntime + s + n <= length flat ->
  exists flat',
    FinalDiagnosis.for_result (seq s n)
      (fun flat t =>
         match get3 data i j t with
         | Ok v => FinalDiagnosis.store flat (c * ntime + t) (float_of_mval v)
         | Err e => Err e
         end) flat = Ok flat'
    /\ length flat' = length flat
    /\ (forall t, s <= t < s + n ->
          flat' !! (c * ntime + t) = Some (float_of_mval (a_elt data i j t)))
    /\ (forall k, ~ (c * ntime + s <= k < c * ntime + s + n) ->
          flat' !! k = flat !! k).
Proof.
  intros Hi Hj. revert s flat.
  induction n as [|n IH]; intros s flat Hs Hlen; cbn [seq FinalDiagnosis.for_result].
  - exists flat. repeat split; trivial. intros t Ht. lia.
  - rewrite get3_in_range by lia. unfold FinalDiagnosis.store at 1.
    destruct (Nat.ltb_spec (c * ntime + s) (length flat)) as [Hin|]; [|lia].
    destruct (IH (S s) (<[c * ntime + s := float_of_mval (a_elt data i j s)]> flat))
      as (flat' & Hrun & Hl & Hval & Hframe).
    { lia. }
    { rewrite length_insert. lia. }
    exists flat'. split; [exact Hrun|]. rewrite length_insert in Hl.
    split; [exact Hl|]. split.
    + intros t Ht. destruct (Nat.eq_dec t s) as [->|Hne].
      * rewrite Hframe by lia. now apply list_lookup_insert_eq.
      * apply Hval. lia.
    + intros k Hk. rewrite Hframe by lia. apply list_lookup_insert_ne. lia.
Qed.

Lemma loop_t_spec (j i c : nat) (flat : list fl) :
  i < nlon -> j < nlat -> (c + 1) * ntime <= length flat ->
  exists flat',
    FinalDiagnosis.loop_t data ntime j i c flat = Ok flat'
    /\ length flat' = length flat
    /\ (forall t, t < ntime ->
          flat' !! (c * ntime + t) = Some (float_of_mval (a_elt data i j t)))
    /\ (forall k, ~ (c * ntime <= k < (c + 1) * ntime) -> flat' !! k = flat !! k).
Proof.
  intros Hi Hj Hlen.
  destruct (loop_t_from j i c ntime 0 flat Hi Hj) as (flat' & Hrun & Hl & Hval & Hframe);
    [lia | lia |].
  exists flat'. split; [exact Hrun|]. split; [exact Hl|]. split.
  - intros t Ht. apply Hval. lia.
  - intros k Hk. apply Hframe. lia.
Qed.

Lemma loop_i_from (j n s : nat) (flat : list fl) :
  j < nlat -> s + n <= nlon -> (j * nlon + s + n) * ntime <= length flat ->
  exists flat',
    FinalDiagnosis.for_result (seq s n)
      (fun '(flat, coord_idx) i =>
         match FinalDiagnosis.loop_t data ntime j i coord_idx flat with
         | Ok flat' => Ok (flat', coord_idx + 1)
         | Err e => Err e
         end) (flat, j * nlon + s) = Ok (flat', j * nlon + s + n)
    /\ length flat' = length flat
    /\ (forall i t, s <= i < s + n -> t < ntime ->
          flat' !! flat_pos nlon ntime j i t
          = Some (float_of_mval (a_elt data i j t)))
    /\ (forall k, ~ ((j * nlon + s) * ntime <= k < (j * nlon + s + n) * ntime) ->
          flat' !! k = flat !! k).
Proof.
  intros Hj. revert s flat.
  induction n as [|n IH]; intros s flat Hs Hlen; cbn [seq FinalDiagnosis.for_result].
  - exists flat. rewrite Nat.add_0_r. repeat split; trivial. intros i t Hi. lia.
  - destruct (loop_t_spec j s (j * nlon + s) flat) as (flat1 & Hrun1 & Hl1 & Hval1 & Hframe1);
      [lia | lia | nia |].
    rewrite Hrun1.
    destruct (IH (S s) flat1) as (flat' & Hrun & Hl & Hval & Hframe);
      [lia | rewrite Hl1; nia |].
    exists flat'.
    replace (j * nlon + s + 1) with (j * nlon + S s) by lia.
    replace (j * nlon + s + S n) with (j * nlon + S s + n) by lia.
    split; [exact Hrun|]. split; [congruence|]. split.
    + intros i t Hi Ht. destruct (Nat.eq_dec i s) as [->|Hne].
      * unfold flat_pos. rewrite Hframe by nia. now apply Hval1.
      * apply Hval; lia.
    + intros k Hk. rewrite Hframe by nia. apply Hframe1. nia.
Qed.

Lemma loop_i_spec (j : nat) (flat : list fl) :
  j < nlat -> (j * nlon + nlon) * ntime <= length flat ->
  exists flat',
    FinalDiagnosis.loop_i data nlon ntime j (flat, j * nlon) = Ok (flat', (j + 1) * nlon)
    /\ length flat' = length flat
    /\ (forall i t, i < nlon -> t < ntime ->
          flat' !! flat_pos nlon ntime j i t
          = Some (float_of_mval (a_elt data i j t)))
    /\ (forall k, ~ (j * nlon * ntime <= k < (j + 1) * nlon * ntime) ->
          flat' !! k = flat !! k).
Proof.
  intros Hj Hlen.
  destruct (loop_i_from j nlon 0 flat Hj) as (flat' & Hrun & Hl & Hval & Hframe);
    [lia | rewrite Nat.add_0_r; exact Hlen |].
  exists flat'. unfold FinalDiagnosis.loop_i.
  rewrite Nat.add_0_r in Hrun. rewrite Hrun. split; [f_equal; f_equal; lia|].
  split; [exact Hl|]. split.
  - intros i t Hi Ht. apply Hval; lia.
  - intros k Hk. apply Hframe. nia.
Qed.

Lemma loop_j_from (n s : nat) (flat : list fl) :
  s + n <= nlat -> (s + n) * nlon * ntime <= length flat ->
  exists flat',
    FinalDiagnosis.for_result (seq s n)
      (fun st j => FinalDiagnosis.loop_i data nlon ntime j st)
      (flat, s * nlon) = Ok (flat', (s + n) * nlon)
    /\ length flat' = length flat
    /\ (forall j i t, s <= j < s + n -> i < nlon -> t < ntime ->
          flat' !! flat_pos nlon ntime j i t
          = Some (float_of_mval (a_elt data i j t)))
    /\ (forall k, ~ (s * nlon * ntime <= k < (s + n) * nlon * ntime) ->
          flat' !! k = flat !! k).
Proof.
  revert s flat.
  induction n as [|n IH]; intros s flat Hs Hlen; cbn [seq FinalDiagnosis.for_result].
  - exists flat. rewrite Nat.add_0_r. repeat split; trivial. intros j i t Hj. lia.
  - destruct (loop_i_spec s flat) as (flat1 & Hrun1 & Hl1 & Hval1 & Hframe1);
      [lia | nia |].
    rewrite Hrun1.
    destruct (IH (S s) flat1) as (flat' & Hrun & Hl & Hval & Hframe);
      [lia | rewrite Hl1; nia |].
    exists flat'.
    replace ((s + 1) * nlon) with (S s * nlon) by lia.
    replace ((s + S n) * nlon) with ((S s + n) * nlon) by lia.
    split; [exact Hrun|]. split; [congruence|]. split.
    + intros j i t Hj Hi Ht. destruct (Nat.eq_dec j s) as [->|Hne].
      * rewrite Hframe; [now apply Hval1|]. unfold flat_pos. nia.
      * apply Hval; lia.
    + intros k Hk. rewrite Hframe by nia. apply Hframe1. nia.
Qed.

Lemma flatten_spec :
  exists flat,
    FinalDiagnosis.flat_data_python data = Ok flat
    /\ length flat = nlon * nlat * ntime
    /\ forall j i t, j < nlat -> i < nlon -> t < ntime ->
         flat !! flat_pos nlon ntime j i t
         = Some (float_of_mval (a_elt data i j t)).
Proof.
  destruct (loop_j_from nlat 0 (repeat (Fin 0) (nlon * nlat * ntime)))
    as (flat & Hrun & Hl & Hval & _).
  { lia. }
  { rewrite repeat_length. nia. }
  exists flat. unfold FinalDiagnosis.flat_data_python, FinalDiagnosis.loop_j.
  rewrite shape. cbn [Nat.mul] in Hrun. rewrite Hrun.
  split; [reflexivity|]. rewrite repeat_length in Hl. split; [exact Hl|].
  intros j i t Hj Hi Ht. apply Hval; lia.
Qed.

End Flatten.




(** ** Nearest-neighbour search *)

Lemma fle_total (x y : fl) :
  isnan x = false -> isnan y = false -> fle x y = false -> fle y x = true.
Proof.
  destruct x as [| | |a], y as [| | |b]; cbn; intros Hx Hy H;
    try discriminate; try reflexivity.
  apply Qle_bool_iff. apply Qlt_le_weak. apply Qnot_le_lt.
  intros Hle. apply Qle_bool_iff in Hle. congruence.
Qed.

Lemma fle_trans (x y z : fl) : fle x y = true -> fle y z = true -> fle x z = true.
Proof.
  destruct x as [| | |a], y as [| | |b], z as [| | |c]; cbn; intros H1 H2;
    try discriminate; try reflexivity.
  rewrite Qle_bool_iff in *. eapply Qle_trans; eassumption.
Qed.

Lemma fle_not_nan (x y : fl) :
  fle x y = true -> isnan x = false /\ isnan y = false.
Proof. destruct x, y; cbn; intros H; try discriminate; now split. Qed.

Lemma ale_total (x y : fl) : ale x y = false -> ale y x = true.
Proof.
  unfold ale. destruct (isnan x) eqn:Hx; cbn [orb]; [discriminate|].
  destruct (isnan y) eqn:Hy; cbn [negb andb orb]; [reflexivity|].
  intros H. now apply fle_total.
Qed.

Lemma ale_trans (x y z : fl) : ale x y = true -> ale y z = true -> ale x z = true.
Proof.
  unfold ale. destruct (isnan x) eqn:Hx; cbn [orb]; [reflexivity|].
  destruct (isnan y) eqn:Hy; cbn [negb andb orb]; [discriminate|].
  intros H1 H2. apply andb_true_iff in H2 as [Hz H2].
  rewrite Hz. cbn [andb]. eapply fle_trans; eassumption.
Qed.

(** While the running minimum is not a NaN, an element replaces it exactly
    when it is strictly below it. *)
Lemma argmin_replaces (best x : fl) :
  isnan best = false -> negb (fge x best) = negb (ale best x).
Proof.
  intros Hb. unfold fge, ale. rewrite Hb. cbn [orb]. f_equal.
  destruct (fle best x) eqn:H.
  - apply fle_not_nan in H as [_ Hx]. now rewrite Hx.
  - now rewrite andb_false_r.
Qed.

Lemma argmin_scan_first_min (rest pre mid : list fl) (best : fl) :
  (forall y, In y pre -> ale y best = false) ->
  (forall y, In y mid -> ale best y = true) ->
  first_min (pre ++ best :: mid ++ rest)
            (argmin_scan best (length pre) (length (pre ++ best :: mid)) rest).
Proof.
  revert pre mid best.
  induction rest as [|x rest IH]; intros pre mid best Hpre Hmid; cbn [argmin_scan].
  - exists pre, best, (mid ++ []). auto. repeat split; auto.
    intros y Hy. rewrite app_nil_r in Hy. auto.
  - destruct (isnan best) eqn:Hb.
    + exists pre, best, (mid ++ x :: rest). repeat split; auto.
      intros y _. unfold ale. now rewrite Hb.
    + rewrite argmin_replaces by exact Hb.
      destruct (ale best x) eqn:Hx; cbn [negb].
      * pose proof (IH pre (mid ++ [x]) best Hpre) as IH'.
        replace (length (pre ++ best :: mid ++ [x]))
          with (S (length (pre ++ best :: mid))) in IH'
          by (rewrite !length_app; cbn [length]; rewrite length_app;
              cbn [length]; lia).
        rewrite <- app_assoc in IH'. cbn [app] in IH'. apply IH'.
        intros y Hy. apply in_app_or in Hy as [Hy|[<-|[]]]; auto.
      * pose proof (IH (pre ++ best :: mid) [] x) as IH'.
        replace (length ((pre ++ best :: mid) ++ [x]))
          with (S (length (pre ++ best :: mid))) in IH'
          by (rewrite (length_app (pre ++ best :: mid)); cbn [length]; lia).
        rewrite <- app_assoc in IH'. cbn [app] in IH'. apply IH'.
        -- intros y Hy. apply in_app_or in Hy as [Hy|[<-|Hy]].
           ++ destruct (ale y x) eqn:Hyx; [|reflexivity].
              assert (ale x best = true) by now apply ale_total.
              rewrite <- (Hpre y Hy). symmetry. eapply ale_trans; eassumption.
           ++ exact Hx.
           ++ destruct (ale y x) eqn:Hyx; [|reflexivity].
              rewrite <- Hx. symmetry. eapply ale_trans; [apply Hmid|]; eassumption.
        -- intros y [].
Qed.

Lemma np_argmin_first_min (a : list fl) (m : nat) :
  np_argmin a = Ok m -> first_min a m.
Proof.
  destruct a as [|x rest]; cbn [np_argmin]; [discriminate|].
  intros [= <-]. apply (argmin_scan_first_min rest [] [] x); intros y [].
Qed.

Lemma np_argmin_ok (a : list fl) : a <> [] -> exists m, np_argmin a = Ok m.
Proof. destruct a; [congruence|]. intros _. cbn. eauto. Qed.

Lemma first_min_unique (l : list fl) (m m' : nat) :
  first_min l m -> first_min l m' -> m = m'.
Proof.
  assert (Hlt : forall m m', first_min l m -> first_min l m' -> ~ m < m').
  { clear m m'. intros m m' (pre & x & post & -> & Hm & Hpre & Hpost)
      (pre' & x' & post' & E & Hm' & Hpre' & Hpost') Hlt.
    assert (Hx : nth_error (pre' ++ x' :: post') m = Some x).
    { rewrite <- E, nth_error_app2 by lia. now replace (m - length pre) with 0 by lia. }
    rewrite nth_error_app1 in Hx by lia. apply nth_error_In in Hx.
    assert (Hx' : nth_error (pre ++ x :: post) m' = Some x').
    { rewrite E, nth_error_app2 by lia. now replace (m' - length pre') with 0 by lia. }
    rewrite nth_error_app2 in Hx' by lia.
    destruct (m' - length pre) as [|d] eqn:Hd; [lia|]. cbn [nth_error] in Hx'.
    apply nth_error_In in Hx'.
    specialize (Hpre' x Hx). specialize (Hpost x' Hx'). congruence. }
  intros H1 H2. pose proof (Hlt _ _ H1 H2). pose proof (Hlt _ _ H2 H1). lia.
Qed.

(** Filtering keeps the first minimum when it keeps its element: its new
    position is the number of kept elements before it. *)
Lemma first_min_filter (key : fl -> fl) (p : fl -> bool) (xs1 xs2 : list fl) (x0 : fl) :
  first_min (map key (xs1 ++ x0 :: xs2)) (length xs1) ->
  p x0 = true ->
  first_min (map key (List.filter p (xs1 ++ x0 :: xs2)))
            (length (List.filter p xs1)).
Proof.
  intros (pre & k & post & E & Hm & Hpre & Hpost) Hp.
  rewrite map_app in E. cbn [map] in E.
  apply app_inj_1 in E as [E1 E2]; [|now rewrite length_map].
  injection E2 as <- <-. subst pre.
  exists (map key (List.filter p xs1)), (key x0), (map key (List.filter p xs2)).
  split; [|split; [|split]].
  - rewrite List.filter_app. cbn [List.filter]. rewrite Hp.
    now rewrite map_app.
  - now rewrite length_map.
  - intros y Hy. apply Hpre. apply in_map_iff in Hy as (u & <- & Hu).
    apply filter_In in Hu as [Hu _]. now apply in_map.
  - intros y Hy. apply Hpost. apply in_map_iff in Hy as (u & <- & Hu).
    apply filter_In in Hu as [Hu _]. now apply in_map.
Qed.

Lemma filter_length_le {A} (p : A -> bool) (l : list A) :
  length (List.filter p l) <= length l.
Proof. induction l as [|x l IH]; cbn; [lia|]. destruct (p x); cbn; lia. Qed.

(** The nearest neighbour in the filtered array, when the nearest neighbour
    of the full array is kept. *)
Lemma nearest_after_filter (a : list fl) (p : fl -> bool) (t : fl) (m : nat) (x : fl) :
  np_argmin (abs_diff a t) = Ok m ->
  nth_error a m = Some x -> p x = true ->
  exists m',
    np_argmin (abs_diff (List.filter p a) t) = Ok m'
    /\ m' = length (List.filter p (firstn m a)) /\ m' <= m.
Proof.
  intros Hm Hx Hp. apply np_argmin_first_min in Hm.
  apply nth_error_split in Hx as (xs1 & xs2 & -> & Hlen). subst m.
  unfold abs_diff in *.
  pose proof (first_min_filter _ p xs1 xs2 x Hm Hp) as Hf.
  destruct (np_argmin_ok (map (fun x => fabs (fsub x t))
                              (List.filter p (xs1 ++ x :: xs2)))) as (m' & Hm').
  { rewrite List.filter_app. cbn [List.filter]. rewrite Hp.
    rewrite map_app. cbn [map]. now destruct (map _ (List.filter p xs1)). }
  exists m'. split; [exact Hm'|].
  apply np_argmin_first_min in Hm'.
  rewrite (first_min_unique _ _ _ Hm' Hf).
  rewrite firstn_app, Nat.sub_diag, firstn_all. cbn [firstn]. rewrite app_nil_r.
  split; [reflexivity | apply filter_length_le].
Qed.

(** ** The coordinate index of compare_netcdf_chunk.py against that of
    verify_coordinate_mapping.py *)

Lemma np_where_map_spec {A} (p : A -> bool) (a : list A) (i : nat) :
  In i (np_where (map p a)) <-> exists x, nth_error a i = Some x /\ p x = true.
Proof.
  unfold np_where. rewrite where_from_spec, Nat.sub_0_r, nth_error_map. split.
  - intros [_ H]. destruct (nth_error a i) as [x|]; [|discriminate].
    exists x. cbn in H. split; congruence.
  - intros (x & -> & H). cbn. split; [lia | congruence].
Qed.

Lemma filter_all {A} (p : A -> bool) (l : list A) :
  (forall x, In x l -> p x = true) -> List.filter p l = l.
Proof.
  induction l as [|x l IH]; intros H; cbn; [reflexivity|].
  rewrite (H x) by now left. f_equal. apply IH. intros y Hy. apply H. now right.
Qed.

Lemma verify_filtered_is_filter (lat lon : list fl) :
  VerifyCoordinateMapping.lat_filtered lat
  = List.filter (fun y => fge y min_lat && fle y max_lat) lat
  /\ VerifyCoordinateMapping.lon_filtered lon
     = List.filter (fun x => fge x min_lon && fle x max_lon) lon.
Proof.
  unfold VerifyCoordinateMapping.lat_filtered, VerifyCoordinateMapping.lon_filtered,
    VerifyCoordinateMapping.lat_indices, VerifyCoordinateMapping.lon_indices, bbox_mask.
  split; apply np_take_where.
Qed.

(** When the bounding box keeps every cell, the two scripts compute the
    same coordinate index. *)
Lemma indices_agree_when_all_kept (lat lon : list fl) (target_lat target_lon : fl) :
  (forall y, In y lat -> within 34 72 y) ->
  (forall x, In x lon -> within (-25) 45 x) ->
  VerifyCoordinateMapping.coord_idx_calculated_of lat lon target_lat target_lon
  = CompareNetcdfChunk.coord_index_of lat lon target_lat target_lon.
Proof.
  intros Hlat Hlon.
  unfold VerifyCoordinateMapping.coord_idx_calculated_of,
    CompareNetcdfChunk.coord_index_of.
  destruct (verify_filtered_is_filter lat lon) as [-> ->].
  rewrite !filter_all; [reflexivity | |].
  - intros x Hx. apply (bbox_test_within (-25) 45). auto.
  - intros y Hy. apply (bbox_test_within 34 72). auto.
Qed.

Lemma within_grid_lat_inside : forall y, In y grid_lat_inside -> within 34 72 y.
Proof.
  intros y Hy. apply (bbox_test_within 34 72).
  revert y Hy. apply forallb_forall. vm_compute. reflexivity.
Qed.

Lemma within_grid_lon_inside : forall x, In x grid_lon_inside -> within (-25) 45 x.
Proof.
  intros x Hx. apply (bbox_test_within (-25) 45).
  revert x Hx. apply forallb_forall. vm_compute. reflexivity.
Qed.

(** On the grid of 465 x 705 cells inside the box and the target 50.0 N,
    10.0 E both scripts find the row 320 and the column 700. *)
Lemma nearest_on_grid_inside :
  np_argmin (abs_diff grid_lat_inside (Fin 50)) = Ok 320
  /\ np_argmin (abs_diff grid_lon_inside (Fin 10)) = Ok 700
  /\ np_argmin (abs_diff (VerifyCoordinateMapping.lat_filtered grid_lat_inside)
                         (Fin 50)) = Ok 320
  /\ np_argmin (abs_diff (VerifyCoordinateMapping.lon_filtered grid_lon_inside)
                         (Fin 10)) = Ok 700
  /\ length (VerifyCoordinateMapping.lon_filtered grid_lon_inside) = 705.
Proof. repeat split; vm_compute; reflexivity. Qed.

(** C2, as stated, fails: on a grid of 465 latitudes 34.00, 34.05, ... and
    705 longitudes -25.00, -24.95, ..., which lies inside the bounding box,
    and for the target 50.0 N, 10.0 E, both scripts find row 320 and column
    700 of a grid 705 wide, hence the same coordinate index
    320 * 705 + 700 and the same byte offset. *)
Lemma coordinate_indices_can_coincide :
  ~ (forall lat lon target_lat target_lon ci vi,
       length lat = 465 -> length lon = 705 ->
       CompareNetcdfChunk.coord_index_of lat lon target_lat target_lon = Ok ci ->
       VerifyCoordinateMapping.coord_idx_calculated_of lat lon target_lat target_lon
       = Ok vi ->
       ci <> vi).
Proof.
  intros H.
  pose proof (indices_agree_when_all_kept grid_lat_inside grid_lon_inside
                (Fin 50) (Fin 10) within_grid_lat_inside within_grid_lon_inside) as Hsame.
  destruct nearest_on_grid_inside as (Hla & Hlo & _).
  assert (HC : CompareNetcdfChunk.coord_index_of grid_lat_inside grid_lon_inside
                 (Fin 50) (Fin 10)
               = Ok (CompareNetcdfChunk.coord_index 320 (length grid_lon_inside) 700)).
  { unfold CompareNetcdfChunk.coord_index_of. now rewrite Hla, Hlo. }
  refine (H grid_lat_inside grid_lon_inside (Fin 50) (Fin 10) _ _ _ _ HC _ eq_refl).
  - reflexivity.
  - reflexivity.
  - now rewrite Hsame.
Qed.

Lemma verify_vs_compare_arith (la lo fla flo n nf : nat) :
  fla <= la -> flo <= lo -> nf <= n -> lo < n ->
  fla * nf + flo <= la * n + lo
  /\ (fla * nf + flo = la * n + lo
      <-> fla = la /\ flo = lo /\ (la = 0 \/ nf = n)).
Proof.
  intros Hla Hlo Hn Hlt.
  assert (H1 : fla * nf <= fla * n) by now apply Nat.mul_le_mono_l.
  assert (H2 : fla * n <= la * n) by now apply Nat.mul_le_mono_r.
  split; [lia|]. split.
  - intros E. destruct (Nat.eq_dec fla la) as [->|Hne].
    + split; [reflexivity|]. assert (flo = lo) by lia. split; [assumption|].
      destruct la as [|la]; [now left|]. right.
      assert (S la * nf = S la * n) by lia.
      apply Nat.mul_cancel_l in H0; [assumption | lia].
    + exfalso. assert (Hs : S fla <= la) by lia.
      assert (S fla * n <= la * n) by now apply Nat.mul_le_mono_r.
      cbn [Nat.mul] in H. lia.
  - intros (-> & -> & [-> | ->]); reflexivity.
Qed.

(** C2, amended. For the same target and the same coordinate arrays the
    two coordinate indices need not differ.  They are equal whenever the
    bounding box keeps every cell of the grid.  Whenever the nearest row and
    column of the full grid are kept by the box, the index of
    verify_coordinate_mapping.py is at most that of compare_netcdf_chunk.py,
    and the two are equal, and the byte offsets read from the chunk equal,
    if and only if filtering shifts neither the row nor the column and
    either the row is row 0 or no longitude is dropped.  They do differ on
    the 2 x 3 grid whose first longitude lies outside the box: 4 against
    2 for the target 50.0 N, 10.0 E. *)
Theorem coordinate_indices_compare_vs_verify :
  (forall lat lon target_lat target_lon,
     (forall y, In y lat -> within 34 72 y) ->
     (forall x, In x lon -> within (-25) 45 x) ->
     VerifyCoordinateMapping.coord_idx_calculated_of lat lon target_lat target_lon
     = CompareNetcdfChunk.coord_index_of lat lon target_lat target_lon)
  /\ (forall lat lon target_lat target_lon lat_idx lon_idx,
        np_argmin (abs_diff lat target_lat) = Ok lat_idx ->
        np_argmin (abs_diff lon target_lon) = Ok lon_idx ->
        In lat_idx (VerifyCoordinateMapping.lat_indices lat) ->
        In lon_idx (VerifyCoordinateMapping.lon_indices lon) ->
        exists filtered_lat_idx filtered_lon_idx ci vi,
          np_argmin (abs_diff (VerifyCoordinateMapping.lat_filtered lat) target_lat)
          = Ok filtered_lat_idx
          /\ np_argmin (abs_diff (VerifyCoordinateMapping.lon_filtered lon) target_lon)
             = Ok filtered_lon_idx
          /\ ci = lat_idx * length lon + lon_idx
          /\ vi = filtered_lat_idx * length (VerifyCoordinateMapping.lon_filtered lon)
                  + filtered_lon_idx
          /\ CompareNetcdfChunk.coord_index_of lat lon target_lat target_lon = Ok ci
          /\ VerifyCoordinateMapping.coord_idx_calculated_of
               lat lon target_lat target_lon = Ok vi
          /\ vi <= ci
          /\ (vi = ci
              <-> filtered_lat_idx = lat_idx /\ filtered_lon_idx = lon_idx
                  /\ (lat_idx = 0
                      \/ length (VerifyCoordinateMapping.lon_filtered lon)
                         = length lon))
          /\ ((Z.of_nat vi * VerifyCoordinateMapping.num_days * 4
               = Z.of_nat ci * CompareNetcdfChunk.num_days * 4)%Z
              <-> vi = ci))
  /\ (CompareNetcdfChunk.coord_index_of grid_lat_small grid_lon_small
        (Fin 50) (Fin 10) = Ok 4
      /\ VerifyCoordinateMapping.coord_idx_calculated_of
           grid_lat_small grid_lon_small (Fin 50) (Fin 10) = Ok 2).
Proof.
  split; [exact indices_agree_when_all_kept|].
  split; [|split; vm_compute; reflexivity].
  intros lat lon tlat tlon la lo Hla Hlo Kla Klo.
  apply np_where_map_spec in Kla as (y & Hy & Py).
  apply np_where_map_spec in Klo as (x & Hx & Px).
  destruct (verify_filtered_is_filter lat lon) as [Elat Elon].
  destruct (nearest_after_filter lat (fun y => fge y min_lat && fle y max_lat)
              tlat la y Hla Hy Py) as (fla & Hfla & _ & Lla).
  destruct (nearest_after_filter lon (fun x => fge x min_lon && fle x max_lon)
              tlon lo x Hlo Hx Px) as (flo & Hflo & _ & Llo).
  exists fla, flo, (la * length lon + lo),
    (fla * length (VerifyCoordinateMapping.lon_filtered lon) + flo).
  rewrite <- Elat in Hfla. rewrite <- Elon in Hflo.
  assert (Hn : length (VerifyCoordinateMapping.lon_filtered lon) <= length lon).
  { rewrite Elon. apply filter_length_le. }
  assert (Hlt : lo < length lon).
  { apply nth_error_Some. congruence. }
  destruct (verify_vs_compare_arith la lo fla flo (length lon)
              (length (VerifyCoordinateMapping.lon_filtered lon)) Lla Llo Hn Hlt)
    as [Hle Hiff].
  split; [exact Hfla|]. split; [exact Hflo|].
  split; [reflexivity|]. split; [reflexivity|]. split.
  { unfold CompareNetcdfChunk.coord_index_of. now rewrite Hla, Hlo. }
  split.
  { unfold VerifyCoordinateMapping.coord_idx_calculated_of. now rewrite Hfla, Hflo. }
  split; [exact Hle|]. split; [exact Hiff|].
  unfold VerifyCoordinateMapping.num_days, CompareNetcdfChunk.num_days. lia.
Qed.

(** ** Reasoning about scripts with monitors *)

Section MonitorRules.

Context {S : Type}.
Variable step : op -> S -> option S.

Lemma wp_bind {A B} (m : prog A) (f : A -> prog B) (s : S) (post : B -> S -> Prop) :
  wp step m s (fun a s' => wp step (f a) s' post) -> wp step (bind m f) s post.
Proof.
  revert s. induction m as [a|e|o k IH]; intros s H; cbn [bind wp] in *; trivial.
  destruct (step o s) as [s'|]; [|exact H].
  intros x Hx. apply IH, H, Hx.
Qed.

Lemma wp_perform (o : op) (s s' : S) (post : ans o -> S -> Prop) :
  step o s = Some s' -> (forall x, answers o x -> post x s') ->
  wp step (perform o) s post.
Proof. intros Hs H. unfold perform. cbn [wp]. rewrite Hs. exact H. Qed.

Lemma wp_lift {A} (r : result A) (s : S) (post : A -> S -> Prop) :
  (forall a, post a s) -> wp step (lift r) s post.
Proof. intros H. destruct r; cbn; auto. Qed.

Lemma wp_when (c : bool) (body : prog unit) (s : S) (post : unit -> S -> Prop) :
  wp step body s post -> post tt s -> wp step (when c body) s post.
Proof. intros H1 H2. destruct c; cbn; assumption. Qed.

Lemma wp_for_each {A} (inv : S -> Prop) (l : list A) (body : A -> prog unit)
    (s : S) (post : unit -> S -> Prop) :
  inv s ->
  (forall x s, inv s -> wp step (body x) s (fun _ s' => inv s')) ->
  (forall s, inv s -> post tt s) ->
  wp step (for_each l body) s post.
Proof.
  intros Hs Hbody Hpost. revert s Hs.
  induction l as [|x l IH]; intros s Hs; cbn [for_each].
  - cbn. auto.
  - apply wp_bind. generalize (Hbody x s Hs). generalize (body x). clear -IH.
    intros p. revert s. induction p as [a|e|o k IHp]; intros s H; cbn [wp] in *;
      auto.
    destruct (step o s); [|exact H]. intros y Hy. apply IHp, H, Hy.
Qed.

Lemma wp_weaken {A} (p : prog A) (s : S) (post post' : A -> S -> Prop) :
  (forall a s, post a s -> post' a s) -> wp step p s post -> wp step p s post'.
Proof.
  intros Himp. revert s. induction p as [a|e|o k IH]; intros s H; cbn [wp] in *;
    auto.
  destruct (step o s); [|exact H]. intros x Hx. apply IH, H, Hx.
Qed.

Variable parse_netcdf : list byte -> option dataset.
Variable netcdf_created : list byte.

Lemma exec_answers (o : op) (w w' : world) (x : ans o) :
  exec parse_netcdf netcdf_created o w = (Ok x, w') -> answers o x.
Proof.
  destruct o; cbn [answers]; trivial.
  cbn [exec]. destruct (file_access mode) as [a|]; [|discriminate].
  destruct (open_file (fs w) path a []) as [[c|e] files]; [|discriminate].
  now intros [= <- _].
Qed.

(** A monitor that accepts a script accepts the trace of each of its runs,
    and the postcondition holds at a normal exit. *)
Lemma wp_sound {A} (p : prog A) (s : S) (post : A -> S -> Prop) (w : world) :
  wp step p s post ->
  exists s', monitor step (trace parse_netcdf netcdf_created p w) s = Some s'
             /\ forall a, outcome parse_netcdf netcdf_created p w = Ok a -> post a s'.
Proof.
  unfold trace, outcome. revert s w.
  induction p as [a|e|o k IH]; intros s w H; cbn [run wp] in *.
  - exists s. split; [reflexivity|]. cbn. now intros a' [= <-].
  - exists s. split; [reflexivity|]. cbn. discriminate.
  - destruct (step o s) as [s1|] eqn:Hstep; [|contradiction].
    destruct (exec parse_netcdf netcdf_created o w) as [[x|e] w'] eqn:Hexec.
    + destruct (IH x s1 w' (H x (exec_answers _ _ _ _ Hexec))) as (s' & Hm & Hpost).
      destruct (run parse_netcdf netcdf_created (k x) w') as [t r].
      exists s'. cbn [fst snd monitor] in *. rewrite Hstep. auto.
    + exists s1. cbn [fst snd monitor]. rewrite Hstep. split; [reflexivity|].
      discriminate.
Qed.

End MonitorRules.

(** One step of the symbolic run of a script against a monitor;
    [solve_step] proves that the monitor accepts the operation at hand. *)
Ltac wp_step solve_step :=
  lazymatch goal with
  | |- wp _ (bind _ _) _ _ => apply wp_bind
  | |- wp _ (print _ _) _ _ => unfold print
  | |- wp _ (nc_dataset _ _) _ _ => unfold nc_dataset
  | |- wp _ nc_close _ _ => unfold nc_close
  | |- wp _ (py_open _ _) _ _ => unfold py_open
  | |- wp _ (file_read _ _) _ _ => unfold file_read
  | |- wp _ (file_close _) _ _ => unfold file_close
  | |- wp _ (read_whole _ _) _ _ => unfold read_whole
  | |- wp ?step (perform ?o) ?s ?post =>
      refine (wp_perform step o s _ post _ _);
      [ solve_step
      | let x := fresh "x" in let Hx := fresh "Hx" in
        intros x Hx; cbn [answers] in Hx;
        first [ subst x | clear Hx ]; cbv beta ]
  | |- wp _ (lift _) _ _ => apply wp_lift; intros ?; cbv beta
  | |- wp _ (Ret _) _ _ => cbn [wp]
  | |- wp _ (when _ _) _ _ => apply wp_when; cbv beta
  | |- wp _ (for_each (seq _ _) _) _ _ => cbn [seq for_each]
  | |- wp _ (for_each [] _) _ _ => cbn [for_each]
  | |- wp _ (let x := ?e in _) _ _ =>
      let y := fresh x in pose (y := e); change e with y; cbv zeta;
      clearbody y
  | |- wp _ (match ?x with _ => _ end) _ _ => destruct x
  end.

Ltac wp_run solve_step := repeat wp_step solve_step.

Ltac solve_access := reflexivity.


Lemma access_check_chunk : wp (access_step false true) CheckChunk.main tt (fun _ _ => True).
Proof. unfold CheckChunk.main. wp_run solve_access. exact I. Qed.

Lemma access_verify :
  wp (access_step true true) VerifyCoordinateMapping.main tt (fun _ _ => True).
Proof. unfold VerifyCoordinateMapping.main. wp_run solve_access; exact I. Qed.

Lemma access_compare :
  wp (access_step true true) CompareNetcdfChunk.main tt (fun _ _ => True).
Proof. unfold CompareNetcdfChunk.main. wp_run solve_access; exact I. Qed.

Lemma access_final :
  wp (access_step true true) FinalDiagnosis.main tt (fun _ _ => True).
Proof. unfold FinalDiagnosis.main. wp_run solve_access; exact I. Qed.

Lemma access_diagnose (np : ma_library) :
  wp (access_step true false) (DiagnoseNetcdf.main np) tt (fun _ _ => True).
Proof.
  unfold DiagnoseNetcdf.main. wp_run solve_access.
  apply (wp_for_each _ (fun _ => True)); [exact I | |].
  - intros [dim_name dim] s _. wp_run solve_access. exact I.
  - intros s _. wp_run solve_access; exact I.
Qed.






Ltac solve_seen := reflexivity.

Lemma seen_verify :
  wp (seen_step (targets_of verify_coordinate_mapping))
     VerifyCoordinateMapping.main [false; false; false; false; false]
     (fun _ seen => seen = [true; true; true; true; true]).
Proof. unfold VerifyCoordinateMapping.main. wp_run solve_seen; reflexivity. Qed.

Lemma seen_compare :
  wp (seen_step (targets_of compare_netcdf_chunk))
     CompareNetcdfChunk.main [false; false; false; false; false]
     (fun _ seen => seen = [true; true; true; true; true]).
Proof. unfold CompareNetcdfChunk.main. wp_run solve_seen; reflexivity. Qed.

Lemma seen_final :
  wp (seen_step (targets_of final_diagnosis))
     FinalDiagnosis.main [false; false; false; false; false]
     (fun _ seen => seen = [true; true; true; true; true]).
Proof. unfold FinalDiagnosis.main. wp_run solve_seen; reflexivity. Qed.

Lemma access_program (np : ma_library) (s : script) :
  wp (access_step (uses_dataset s) (uses_chunk s)) (program np s) tt
     (fun _ _ => True).
Proof.
  destruct s; cbn [program uses_dataset uses_chunk].
  - exact access_check_chunk.
  - exact (access_diagnose np).
  - exact access_compare.
  - exact access_verify.
  - exact access_final.
Qed.


Lemma seen_program (np : ma_library) (s : script) :
  compares_sources s = true ->
  wp (seen_step (targets_of s)) (program np s) [false; false; false; false; false]
     (fun _ seen => seen = [true; true; true; true; true]).
Proof.
  destruct s; cbn [compares_sources program]; try discriminate; intros _.
  - exact seen_compare.
  - exact seen_verify.
  - exact seen_final.
Qed.

(** ** What an accepted trace looks like *)

Lemma monitor_access_allowed (d c : bool) (t : list op) (s s' : unit) :
  monitor (access_step d c) t s = Some s' ->
  Forall (fun o => allowed d c o = true) t.
Proof.
  revert s. induction t as [|o t IH]; intros s H; [constructor|].
  cbn [monitor] in H. unfold access_step at 1 in H.
  destruct (allowed d c o) eqn:Ho; [|discriminate].
  constructor; [exact Ho | eapply IH, H].
Qed.




Lemma seen_step_nth (targets : list (op -> bool)) (o : op) (seen : list bool)
    (i : nat) (q : op -> bool) :
  nth_error targets i = Some q ->
  nth_error (map (fun '(q, b) => b || q o) (combine targets seen)) i = Some true ->
  nth_error seen i = Some true \/ q o = true.
Proof.
  revert seen i. induction targets as [|q0 targets IH]; intros seen i Hq H.
  - now destruct i.
  - destruct seen as [|b seen]; [now destruct i|].
    destruct i as [|i]; cbn in *.
    + injection Hq as ->. injection H as H.
      apply orb_true_iff in H as [->|H]; auto.
    + eapply IH; eassumption.
Qed.

Lemma monitor_seen_exists (targets : list (op -> bool)) (t : list op)
    (seen seen' : list bool) (i : nat) (q : op -> bool) :
  monitor (seen_step targets) t seen = Some seen' ->
  nth_error targets i = Some q ->
  nth_error seen' i = Some true ->
  nth_error seen i = Some true \/ exists o, In o t /\ q o = true.
Proof.
  revert seen. induction t as [|o t IH]; intros seen H Hq Hi.
  - cbn in H. injection H as <-. now left.
  - cbn [monitor seen_step] in H.
    destruct (IH _ H Hq Hi) as [Hs|(o' & Ho' & Hqo)].
    + destruct (seen_step_nth targets o seen i q Hq Hs) as [?|Hqo]; [now left|].
      right. exists o. split; [now left | exact Hqo].
    + right. exists o'. split; [now right | exact Hqo].
Qed.

(** ** The runtime on allowed operations *)

Lemma allowed_read_only (d c : bool) (o : op) :
  allowed d c o = true -> read_only o /\ hard_coded o.
Proof.
  destruct o; cbn; try discriminate; try tauto; intros Ha;
    repeat (let H := fresh "H" in apply andb_true_iff in Ha as [Ha H]);
    repeat match goal with
           | H : String.eqb _ _ = true |- _ => apply String.eqb_eq in H
           end;
    split; auto.
Qed.

Section Runs.

Variable parse_netcdf : list byte -> option dataset.
Variable netcdf_created : list byte.

Local Abbreviation exec := (exec parse_netcdf netcdf_created).
Local Abbreviation run := (run parse_netcdf netcdf_created).
Local Abbreviation trace := (trace parse_netcdf netcdf_created).
Local Abbreviation outcome := (outcome parse_netcdf netcdf_created).
Local Abbreviation final := (final parse_netcdf netcdf_created).

Lemma set_fs_same (w : world) : set_fs w (fs w) = w.
Proof. now destruct w. Qed.

Lemma allowed_exec (d c : bool) (o : op) (w : world) :
  allowed d c o = true ->
  snd (exec o w) = w
  /\ forall w', agree w w' -> fst (exec o w) = fst (exec o w').
Proof.
  intros Ha. destruct o; cbn [allowed] in Ha; try discriminate.
  - split; [reflexivity | reflexivity].
  - apply andb_true_iff in Ha as [Ha Hm]. apply andb_true_iff in Ha as [_ Hp].
    apply String.eqb_eq in Hm, Hp. subst path mode.
    cbn [exec]. change (dataset_access "r") with (Some ReadOnly).
    unfold open_file. split.
    + destruct (fs w !! netcdf_path) as [b|]; cbn [snd];
        [destruct (parse_netcdf b)|]; apply set_fs_same.
    + intros w' [Hn _]. cbn [exec]. change (dataset_access "r") with (Some ReadOnly).
      unfold open_file. rewrite <- Hn.
      destruct (fs w !! netcdf_path) as [b|]; cbn [fst];
        [destruct (parse_netcdf b)|]; reflexivity.
  - split; reflexivity.
  - apply andb_true_iff in Ha as [Ha Hm]. apply andb_true_iff in Ha as [_ Hp].
    apply String.eqb_eq in Hm, Hp. subst path mode.
    cbn [exec]. change (file_access "rb") with (Some ReadOnly).
    unfold open_file. split.
    + destruct (fs w !! chunk_path); cbn [snd]; apply set_fs_same.
    + intros w' [_ Hc]. cbn [exec]. change (file_access "rb") with (Some ReadOnly).
      unfold open_file. rewrite <- Hc.
      destruct (fs w !! chunk_path); reflexivity.
  - apply andb_true_iff in Ha as [Ha Hm]. apply andb_true_iff in Ha as [_ Hp].
    apply String.eqb_eq in Hm, Hp. destruct f as [fp fm]. cbn in Hm, Hp. subst fp fm.
    cbn [exec f_mode f_path]. change (can_read "rb") with true. cbv iota. split.
    + destruct (fs w !! chunk_path); [destruct size as [n|]; [destruct (n <? 0)%Z|]|];
        reflexivity.
    + intros w' [_ Hc]. cbn [exec f_mode f_path ans] in *.
      change (can_read "rb") with true. cbv iota. cbn [ans]. rewrite <- Hc.
      destruct (fs w !! chunk_path); [destruct size as [n|]; [destruct (n <? 0)%Z|]|];
        reflexivity.
  - split; reflexivity.
Qed.

(** A script of allowed operations leaves the world as it found it. *)
Lemma allowed_final {A} (d c : bool) (p : prog A) (post : A -> unit -> Prop)
    (w : world) :
  wp (access_step d c) p tt post -> final p w = w.
Proof.
  unfold final. revert w. induction p as [a|e|o k IH]; intros w H; cbn [run wp] in *;
    try reflexivity.
  unfold access_step in H. destruct (allowed d c o) eqn:Ha; [|contradiction].
  destruct (allowed_exec d c o w Ha) as [Hw _].
  destruct (exec o w) as [[x|e] w'] eqn:Hexec; cbn [snd] in Hw; subst w'.
  - specialize (IH x w (H x (exec_answers _ _ _ _ _ _ Hexec))).
    destruct (run (k x) w) as [t r]. exact IH.
  - reflexivity.
Qed.

(** Two runs of a script of allowed operations, in worlds that agree on
    the two named files, perform the same operations and end alike. *)
Lemma allowed_agree {A} (d c : bool) (p : prog A) (post : A -> unit -> Prop)
    (w1 w2 : world) :
  wp (access_step d c) p tt post -> agree w1 w2 ->
  trace p w1 = trace p w2 /\ outcome p w1 = outcome p w2.
Proof.
  unfold trace, outcome. revert w1 w2.
  induction p as [a|e|o k IH]; intros w1 w2 H Hag; cbn [run wp] in *;
    try (split; reflexivity).
  unfold access_step in H. destruct (allowed d c o) eqn:Ha; [|contradiction].
  destruct (allowed_exec d c o w1 Ha) as [Hw1 Hr].
  destruct (allowed_exec d c o w2 Ha) as [Hw2 _].
  specialize (Hr w2 Hag).
  destruct (exec o w1) as [r1 w1'] eqn:E1. destruct (exec o w2) as [r2 w2'] eqn:E2.
  cbn [fst snd] in *. subst w1' w2' r2.
  destruct r1 as [x|e].
  - destruct (IH x w1 w2 (H x (exec_answers _ _ _ _ _ _ E1)) Hag) as [Ht Ho].
    destruct (run (k x) w1) as [t1 q1], (run (k x) w2) as [t2 q2].
    cbn [fst snd] in *. split; congruence.
  - split; reflexivity.
Qed.

End Runs.

(** ** The scripts as whole programs *)

Section Scripts.

Variable parse_netcdf : list byte -> option dataset.
Variable netcdf_created : list byte.
Variable np : ma_library.

Local Abbreviation run := (run parse_netcdf netcdf_created).
Local Abbreviation trace := (trace parse_netcdf netcdf_created).
Local Abbreviation outcome := (outcome parse_netcdf netcdf_created).
Local Abbreviation final := (final parse_netcdf netcdf_created).

Lemma trace_allowed (s : script) (w : world) :
  Forall (fun o => allowed (uses_dataset s) (uses_chunk s) o = true)
         (trace (program np s) w).
Proof.
  destruct (wp_sound _ parse_netcdf netcdf_created _ _ _ w (access_program np s))
    as (s' & Hm & _).
  eapply monitor_access_allowed, Hm.
Qed.


Lemma seen_chunk_open (o : op) :
  is_chunk_open o = true -> o = FileOpen chunk_path "rb".
Proof.
  destruct o; cbn; try discriminate. intros H.
  apply andb_true_iff in H as [Hp Hm]. apply String.eqb_eq in Hp, Hm. congruence.
Qed.


(** C7. No script modifies persistent state: every run of every script
    leaves the world, hence the contents of the NetCDF dataset, of the
    chunk file and of every other file, exactly as it found it; every file
    it opens is opened read-only ('r' or 'rb') and it performs no write and
    no removal. *)
Theorem scripts_modify_no_file (s : script) (w : world) :
  final (program np s) w = w
  /\ fs (final (program np s) w) = fs w
  /\ Forall read_only (trace (program np s) w).
Proof.
  assert (Hf : final (program np s) w = w).
  { eapply allowed_final, access_program. }
  split; [exact Hf|]. split; [now rewrite Hf|].
  eapply List.Forall_impl; [|apply trace_allowed].
  intros o Ho. eapply allowed_read_only, Ho.
Qed.

(** C9. No script takes command-line input: no run reads the command
    line, every file it names is one of the two hard-coded paths, and two
    runs of a script in worlds whose two named files have the same
    contents, whatever their command-line arguments, print the same output
    and end the same way. *)
Theorem output_depends_on_the_files_only (s : script) (w1 w2 : world) :
  agree w1 w2 ->
  stdout (trace (program np s) w1) = stdout (trace (program np s) w2)
  /\ outcome (program np s) w1 = outcome (program np s) w2
  /\ Forall hard_coded (trace (program np s) w1)
  /\ Forall hard_coded (trace (program np s) w2).
Proof.
  intros Hag.
  destruct (allowed_agree parse_netcdf netcdf_created _ _ _ _ w1 w2
              (access_program np s) Hag) as [Ht Ho].
  split; [now rewrite Ht|]. split; [exact Ho|].
  split; (eapply List.Forall_impl; [|apply trace_allowed]);
    intros o Hallowed; eapply allowed_read_only, Hallowed.
Qed.





End Scripts.



(** ** The theorems at concrete inputs *)



Lemma lat_major_differs_on_2_by_2 :
  exists lat_idx lon_idx,
    lat_idx < 2 /\ lon_idx < 2
    /\ lat_major 2 2 lat_idx lon_idx <> lon_major 2 2 lat_idx lon_idx.
Proof.
  apply (proj2 (proj2 every_coordinate_index_is_lat_major) 2 2); lia.
Defined.

(** On a 2 x 2 grid inside the box, with the target of
    verify_coordinate_mapping.py, both scripts compute 1 * 2 + 1. *)
Example indices_on_grid_inside_box :
  CompareNetcdfChunk.coord_index_of [Fin 50; Fin (525 # 10)] [Fin 10; Fin (134 # 10)]
    VerifyCoordinateMapping.test_lat VerifyCoordinateMapping.test_lon = Ok 3
  /\ VerifyCoordinateMapping.coord_idx_calculated_of
       [Fin 50; Fin (525 # 10)] [Fin 10; Fin (134 # 10)]
       VerifyCoordinateMapping.test_lat VerifyCoordinateMapping.test_lon = Ok 3.
Proof. split; vm_compute; reflexivity. Qed.

Lemma indices_differ_on_grid_small :
  exists ci vi,
    CompareNetcdfChunk.coord_index_of grid_lat_small grid_lon_small (Fin 50) (Fin 10)
    = Ok ci
    /\ VerifyCoordinateMapping.coord_idx_calculated_of
         grid_lat_small grid_lon_small (Fin 50) (Fin 10) = Ok vi
    /\ vi <= ci.
Proof.
  destruct (proj1 (proj2 coordinate_indices_compare_vs_verify)
              grid_lat_small grid_lon_small (Fin 50) (Fin 10) 1 1
              eq_refl eq_refl (or_intror (or_introl eq_refl)) (or_introl eq_refl))
    as (fla & flo & ci & vi & _ & _ & _ & _ & HC & HV & Hle & _).
  exists ci, vi. repeat split; assumption.
Defined.

Example chunk_of_two_coordinates :
  is_ok (VerifyCoordinateMapping.chunk_ts (repeat x00 (2 * 2920)) 1) = true
  /\ VerifyCoordinateMapping.chunk_ts (repeat x00 (2 * 2920)) 2 = Err StructError
  /\ CompareNetcdfChunk.chunk_ts (repeat x00 (2 * 2920 + 100)) 2 = Err StructError.
Proof. repeat split; vm_compute; reflexivity. Qed.


Lemma output_same_for_other_arguments :
  agree (sample_world ["--lat"%string; "60"%string]) (sample_world [])
  /\ stdout (trace sample_parse [] (program sample_numpy verify_coordinate_mapping)
                   (sample_world ["--lat"%string; "60"%string]))
     = stdout (trace sample_parse [] (program sample_numpy verify_coordinate_mapping)
                     (sample_world [])).
Proof.
  split; [split; reflexivity|].
  apply (output_depends_on_the_files_only sample_parse [] sample_numpy
           verify_coordinate_mapping). split; reflexivity.
Defined.

(** When the chunk file holds at least 4000 bytes, check_chunk.py prints
    its five messages and exits normally. *)
Lemma check_chunk_exits_normally
    (parse_netcdf : list byte -> option dataset) (netcdf_created : list byte)
    (w : world) (chunk_data : list byte) :
  fs w !! chunk_path = Some chunk_data ->
  (4000 <= len chunk_data)%Z ->
  outcome parse_netcdf netcdf_created CheckChunk.main w = Ok tt
  /\ map fst (stdout (trace parse_netcdf netcdf_created CheckChunk.main w))
     = [6; 7; 9; 10; 11].
Proof.
  intros Hfile Hlen. unfold outcome, trace, CheckChunk.main.
  cbn [bind py_open file_read perform run exec].
  change (file_access "rb") with (Some ReadOnly). unfold open_file.
  rewrite Hfile. cbv iota. cbn [f_mode f_path set_fs fs run exec bind].
  change (can_read "rb") with true. cbv iota. cbn [ans]. rewrite Hfile.
  change (1000 * 4 <? 0)%Z with false. cbv iota.
  unfold struct_unpack_f.
  assert (Hl : len (firstn (Z.to_nat (1000 * 4)) chunk_data) = (4 * 1000)%Z).
  { unfold len in *. rewrite length_firstn. lia. }
  rewrite Hl. change (4 * 1000 =? 4 * 1000)%Z with true. cbv iota.
  cbn [lift bind print perform run exec fst snd stdout map]. split; reflexivity.
Qed.

(** * Further properties of the scripts *)

(** ** Unpacking the chunk *)

Lemma len_nonneg {A} (l : list A) : (0 <= len l)%Z.
Proof. unfold len. lia. Qed.

Lemma unpack_floats_length (n : nat) (data : list byte) :
  length data = 4 * n -> length (unpack_floats n data) = n.
Proof.
  revert data. induction n as [|n IH]; intros data H; [reflexivity|].
  destruct data as [|b0 [|b1 [|b2 [|b3 rest]]]]; simpl length in H; try lia.
  cbn [unpack_floats length]. f_equal. apply IH. lia.
Qed.

Lemma struct_unpack_f_length (n : Z) (data : list byte) (vals : list fl) :
  struct_unpack_f n data = Ok vals -> len vals = n /\ len data = (4 * n)%Z.
Proof.
  unfold struct_unpack_f. destruct (len data =? 4 * n)%Z eqn:E; [|discriminate].
  apply Z.eqb_eq in E. intros [= <-]. split; [|exact E].
  pose proof (len_nonneg data). unfold len in *.
  rewrite unpack_floats_length; lia.
Qed.

Lemma count_if_le_len {A} (p : A -> bool) (l : list A) : (count_if p l <= len l)%Z.
Proof.
  unfold len. induction l as [|v l IH]; cbn [count_if length]; [lia|].
  destruct (p v); lia.
Qed.

Lemma ratio_in_unit_interval (a b : Z) :
  (0 <= a <= b)%Z -> (0 < b)%Z ->
  exists r, py_truediv a b = Ok (Fin r) /\ (0 <= r <= 1)%Q.
Proof.
  intros Ha Hb. unfold py_truediv.
  destruct (b =? 0)%Z eqn:E; [apply Z.eqb_eq in E; lia|].
  eexists. split; [reflexivity|]. rewrite Qred_correct.
  assert (Hq : (0 < inject_Z b)%Q) by (unfold Qlt; cbn; lia).
  split.
  - apply Qle_shift_div_l; [exact Hq|]. rewrite Qmult_0_l.
    unfold Qle; cbn; lia.
  - apply Qle_shift_div_r; [exact Hq|]. rewrite Qmult_1_l.
    unfold Qle; cbn; lia.
Qed.

(** X1 (compare_netcdf_chunk.py, lines 39 to 45 and 113 to 121): the first
    unpacking succeeds exactly when the chunk holds at least 4000 bytes and
    the unpacking of the whole chunk exactly when its length is a multiple
    of 4; when both succeed the two valid counts are not negative, the
    chunk holds at least 1000 values and the missing ratio of line 121 is
    defined and lies between 0 and 1, so that no division by zero occurs. *)
Theorem compare_chunk_statistics_are_defined (chunk_data : list byte) :
  (is_ok (struct_unpack_f 1000 (py_slice chunk_data 0 (1000 * 4))) = true
   <-> (4000 <= len chunk_data)%Z)
  /\ (is_ok (struct_unpack_f (len chunk_data / 4) chunk_data) = true
      <-> (len chunk_data mod 4 = 0)%Z)
  /\ (forall chunk_values all_chunk_values,
        struct_unpack_f 1000 (py_slice chunk_data 0 (1000 * 4)) = Ok chunk_values ->
        struct_unpack_f (len chunk_data / 4) chunk_data = Ok all_chunk_values ->
        len chunk_values = 1000%Z
        /\ (0 <= 1000 - count_if is_missing chunk_values <= 1000)%Z
        /\ (1000 <= len all_chunk_values)%Z
        /\ (4 * len all_chunk_values = len chunk_data)%Z
        /\ (0 <= len all_chunk_values - count_if is_missing all_chunk_values
            <= len all_chunk_values)%Z
        /\ exists r,
             py_truediv (count_if is_missing all_chunk_values)
                        (len all_chunk_values) = Ok (Fin r)
             /\ (0 <= r <= 1)%Q).
Proof.
  pose proof (len_nonneg chunk_data) as Hlen.
  assert (Hfirst : len (py_slice chunk_data 0 (1000 * 4))
                   = Z.min 4000 (len chunk_data)).
  { rewrite py_slice_length by lia. lia. }
  split; [|split].
  - rewrite struct_unpack_f_ok, Hfirst. lia.
  - rewrite struct_unpack_f_ok. rewrite (Z.mul_comm 4).
    rewrite <- (Z.div_exact (len chunk_data) 4) by lia.
    split; intros H; [now rewrite (Z.mul_comm 4) | now rewrite (Z.mul_comm _ 4)].
  - intros cv av Hcv Hav.
    apply struct_unpack_f_length in Hcv. destruct Hcv as [Hcv Hcv'].
    apply struct_unpack_f_length in Hav. destruct Hav as [Hav Hav'].
    rewrite Hfirst in Hcv'.
    pose proof (count_if_nonneg is_missing cv).
    pose proof (count_if_le_len is_missing cv).
    pose proof (count_if_nonneg is_missing av).
    pose proof (count_if_le_len is_missing av).
    repeat split; try lia.
    apply ratio_in_unit_interval; lia.
Qed.

(** ** The nearest cell *)



Lemma np_argmin_lt (a : list fl) (m : nat) : np_argmin a = Ok m -> m < length a.
Proof.
  intros H. apply np_argmin_first_min in H.
  destruct H as (pre & x & post & -> & <- & _).
  rewrite List.length_app. cbn [length]. lia.
Qed.

Lemma abs_diff_length (a : list fl) (t : fl) : length (abs_diff a t) = length a.
Proof. apply List.length_map. Qed.


Lemma nearest_index_lt (a : list fl) (t : fl) (m : nat) :
  np_argmin (abs_diff a t) = Ok m -> m < length a.
Proof. intros H. apply np_argmin_lt in H. now rewrite abs_diff_length in H. Qed.

Lemma nearest_index_exists (a : list fl) (t : fl) :
  a <> [] -> exists m, np_argmin (abs_diff a t) = Ok m.
Proof. intros H. apply np_argmin_ok. destruct a; [congruence|discriminate]. Qed.



Lemma time_series_length (tx : variable3) (nt nlat nlon t1 lat_idx lon_idx : nat) :
  v_shape tx = (nt, nlat, nlon) -> lat_idx < nlat -> lon_idx < nlon ->
  exists ts, time_series tx 0 t1 lat_idx lon_idx = Ok ts
             /\ length (m_elts ts) = Nat.min t1 nt.
Proof.
  intros Hs Hla Hlo. unfold time_series. rewrite Hs.
  rewrite (proj2 (Nat.ltb_lt _ _) Hla), (proj2 (Nat.ltb_lt _ _) Hlo).
  eexists. split; [reflexivity|]. cbn [m_elts andb].
  rewrite List.length_map, List.length_seq. lia.
Qed.

Lemma py_index_ok {A} (l : list A) (i : nat) :
  i < length l -> exists x, py_index l i = Ok x /\ nth_error l i = Some x.
Proof.
  intros H. unfold py_index.
  destruct (nth_error l i) as [x|] eqn:E; [now exists x|].
  apply nth_error_None in E. lia.
Qed.

(** X3 (compare_netcdf_chunk.py, lines 76 to 93; verify_coordinate_mapping.py,
    lines 44 to 62): when the coordinate arrays are not empty and [tx] has
    their lengths as its latitude and longitude dimensions, the nearest-cell
    indices are valid positions: reading the coordinates back and slicing
    the time series raise no [IndexError], the series holds [min(730, nt)]
    days of which at most that many are masked, and the flattened coordinate
    index is below the number of cells. *)
Theorem nearest_cell_indexing_is_safe (tx : variable3) (nt : nat)
    (lat lon : list fl) (target_lat target_lon : fl) :
  v_shape tx = (nt, length lat, length lon) -> lat <> [] -> lon <> [] ->
  exists lat_idx lon_idx lat_v lon_v ts,
    np_argmin (abs_diff lat target_lat) = Ok lat_idx
    /\ np_argmin (abs_diff lon target_lon) = Ok lon_idx
    /\ py_index lat lat_idx = Ok lat_v
    /\ py_index lon lon_idx = Ok lon_v
    /\ time_series tx 0 730 lat_idx lon_idx = Ok ts
    /\ length (m_elts ts) = Nat.min 730 nt
    /\ (0 <= mask_sum (m_elts ts) <= len (m_elts ts))%Z
    /\ CompareNetcdfChunk.coord_index_of lat lon target_lat target_lon
       = Ok (CompareNetcdfChunk.coord_index lat_idx (length lon) lon_idx)
    /\ CompareNetcdfChunk.coord_index lat_idx (length lon) lon_idx
       < length lat * length lon.
Proof.
  intros Hs Hlat Hlon.
  destruct (nearest_index_exists lat target_lat Hlat) as [la Hla].
  destruct (nearest_index_exists lon target_lon Hlon) as [lo Hlo].
  pose proof (nearest_index_lt _ _ _ Hla) as Hla'.
  pose proof (nearest_index_lt _ _ _ Hlo) as Hlo'.
  destruct (py_index_ok lat la Hla') as (lat_v & Hlat_v & _).
  destruct (py_index_ok lon lo Hlo') as (lon_v & Hlon_v & _).
  destruct (time_series_length tx nt _ _ 730 la lo Hs Hla' Hlo') as (ts & Hts & Hlen).
  exists la, lo, lat_v, lon_v, ts.
  repeat (split; [assumption|]).
  split; [|split].
  - split; [apply count_if_nonneg | apply count_if_le_len].
  - unfold CompareNetcdfChunk.coord_index_of. now rewrite Hla, Hlo.
  - unfold CompareNetcdfChunk.coord_index. nia.
Qed.

Lemma nearest_cell_of_sample :
  exists lat_idx lon_idx lat_v lon_v ts,
    np_argmin (abs_diff [Fin 50; Fin (525 # 10)] (Fin 50)) = Ok lat_idx
    /\ np_argmin (abs_diff [Fin 10; Fin (134 # 10)] (Fin 10)) = Ok lon_idx
    /\ py_index [Fin 50; Fin (525 # 10)] lat_idx = Ok lat_v
    /\ py_index [Fin 10; Fin (134 # 10)] lon_idx = Ok lon_v
    /\ time_series sample_tx 0 730 lat_idx lon_idx = Ok ts
    /\ length (m_elts ts) = Nat.min 730 10
    /\ (0 <= mask_sum (m_elts ts) <= len (m_elts ts))%Z
    /\ CompareNetcdfChunk.coord_index_of
         [Fin 50; Fin (525 # 10)] [Fin 10; Fin (134 # 10)] (Fin 50) (Fin 10)
       = Ok (CompareNetcdfChunk.coord_index lat_idx 2 lon_idx)
    /\ CompareNetcdfChunk.coord_index lat_idx 2 lon_idx < 2 * 2.
Proof.
  apply (nearest_cell_indexing_is_safe sample_tx 10
           [Fin 50; Fin (525 # 10)] [Fin 10; Fin (134 # 10)] (Fin 50) (Fin 10)).
  - reflexivity.
  - discriminate.
  - discriminate.
Defined.

(** ** The filtered grid *)

Lemma fold_left_choice {A} (f : A -> A -> A) (l : list A) (x : A) :
  (forall a b, f a b = a \/ f a b = b) -> In (fold_left f l x) (x :: l).
Proof.
  intros Hf. revert x. induction l as [|y l IH]; intros x; cbn [fold_left].
  - now left.
  - destruct (IH (f x y)) as [H|H].
    + cbn [In]. rewrite <- H. destruct (Hf x y) as [E|E]; auto.
    + right. right. exact H.
Qed.

Lemma np_min_In (a : list fl) (v : fl) : np_min a = Ok v -> In v a.
Proof.
  destruct a as [|x rest]; [discriminate|]. intros [= <-].
  apply fold_left_choice. intros p q. unfold fmin2.
  destruct (isnan p); [now left|]. destruct (isnan q); [now right|].
  destruct (flt q p); [now right | now left].
Qed.

Lemma np_max_In (a : list fl) (v : fl) : np_max a = Ok v -> In v a.
Proof.
  destruct a as [|x rest]; [discriminate|]. intros [= <-].
  apply fold_left_choice. intros p q. unfold fmax2.
  destruct (isnan p); [now left|]. destruct (isnan q); [now right|].
  destruct (flt p q); [now right | now left].
Qed.

Lemma np_min_empty (a : list fl) : np_min a = Err ValueError <-> a = [].
Proof. destruct a; cbn; split; intros H; congruence. Qed.

Lemma where_from_length {A} (p : A -> bool) (a : list A) (k : nat) :
  length (where_from k (map p a)) = length (List.filter p a).
Proof.
  revert k. induction a as [|x a IH]; intros k; cbn [map where_from List.filter];
    [reflexivity|].
  destruct (p x); cbn [length]; now rewrite IH.
Qed.

Lemma bbox_filtered_spec (a : list fl) (lo hi : Q) :
  np_take a (np_where (bbox_mask a (Fin lo) (Fin hi)))
  = List.filter (fun x => fge x (Fin lo) && fle x (Fin hi)) a
  /\ length (np_take a (np_where (bbox_mask a (Fin lo) (Fin hi))))
     = length (np_where (bbox_mask a (Fin lo) (Fin hi)))
  /\ (forall x, In x (np_take a (np_where (bbox_mask a (Fin lo) (Fin hi))))
                <-> In x a /\ within lo hi x)
  /\ (np_take a (np_where (bbox_mask a (Fin lo) (Fin hi))) = []
      <-> forall x, In x a -> ~ within lo hi x).
Proof.
  unfold bbox_mask.
  rewrite (np_take_where (fun x => fge x (Fin lo) && fle x (Fin hi)) a).
  split; [reflexivity|]. split; [|split].
  - unfold np_where. now rewrite where_from_length.
  - intros x. rewrite List.filter_In, bbox_test_within. reflexivity.
  - split.
    + intros E x Hx Hw.
      assert (Hin : In x (List.filter (fun x => fge x (Fin lo) && fle x (Fin hi)) a)).
      { apply List.filter_In. split; [exact Hx|]. now apply bbox_test_within. }
      rewrite E in Hin. destruct Hin.
    + intros Hnone.
      destruct (List.filter (fun x => fge x (Fin lo) && fle x (Fin hi)) a)
        as [|x l] eqn:E; [reflexivity|].
      assert (Hin : In x (List.filter (fun x => fge x (Fin lo) && fle x (Fin hi)) a)).
      { rewrite E. now left. }
      apply List.filter_In in Hin. destruct Hin as [Hx Hw].
      apply bbox_test_within in Hw. destruct (Hnone x Hx Hw).
Qed.

(** X4 (verify_coordinate_mapping.py, lines 24 to 36; final_diagnosis.py,
    lines 19 to 23, 107 and 108): the filtered coordinate arrays hold
    exactly the coordinates of the full arrays that lie in the bounding
    box, as many as there are kept indices; the minimum and maximum printed
    for them lie in the box, and computing them raises [ValueError] exactly
    when no coordinate of the full array lies in the box. *)
Theorem filtered_grid_lies_in_the_box (lon_full lat_full : list fl) :
  (forall x, In x (VerifyCoordinateMapping.lon_filtered lon_full)
             <-> In x lon_full /\ within (-25) 45 x)
  /\ (forall y, In y (VerifyCoordinateMapping.lat_filtered lat_full)
                <-> In y lat_full /\ within 34 72 y)
  /\ length (VerifyCoordinateMapping.lon_filtered lon_full)
     = length (VerifyCoordinateMapping.lon_indices lon_full)
  /\ length (VerifyCoordinateMapping.lat_filtered lat_full)
     = length (VerifyCoordinateMapping.lat_indices lat_full)
  /\ np_take lon_full (FinalDiagnosis.lon_indices_np lon_full)
     = VerifyCoordinateMapping.lon_filtered lon_full
  /\ np_take lat_full (FinalDiagnosis.lat_indices_np lat_full)
     = VerifyCoordinateMapping.lat_filtered lat_full
  /\ (forall v, np_min (VerifyCoordinateMapping.lon_filtered lon_full) = Ok v
                \/ np_max (VerifyCoordinateMapping.lon_filtered lon_full) = Ok v ->
                within (-25) 45 v)
  /\ (forall v, np_min (VerifyCoordinateMapping.lat_filtered lat_full) = Ok v
                \/ np_max (VerifyCoordinateMapping.lat_filtered lat_full) = Ok v ->
                within 34 72 v)
  /\ (np_min (VerifyCoordinateMapping.lon_filtered lon_full) = Err ValueError
      <-> forall x, In x lon_full -> ~ within (-25) 45 x)
  /\ (np_min (VerifyCoordinateMapping.lat_filtered lat_full) = Err ValueError
      <-> forall y, In y lat_full -> ~ within 34 72 y).
Proof.
  destruct (bbox_filtered_spec lon_full (-25) 45) as (_ & Hlon_len & Hlon_in & Hlon_nil).
  destruct (bbox_filtered_spec lat_full 34 72) as (_ & Hlat_len & Hlat_in & Hlat_nil).
  split; [exact Hlon_in|]. split; [exact Hlat_in|].
  split; [exact Hlon_len|]. split; [exact Hlat_len|].
  split; [reflexivity|]. split; [reflexivity|].
  split; [|split; [|split]].
  - intros v [H|H]; [apply np_min_In in H | apply np_max_In in H];
      now apply Hlon_in in H.
  - intros v [H|H]; [apply np_min_In in H | apply np_max_In in H];
      now apply Hlat_in in H.
  - rewrite np_min_empty. exact Hlon_nil.
  - rewrite np_min_empty. exact Hlat_nil.
Qed.

(** ** The coordinate index and the chunk *)

Lemma chunk_series_length (chunk_data : list byte) (coord : nat) (ts : list fl) :
  struct_unpack_f 730
    (py_slice chunk_data (Z.of_nat coord * 730 * 4)
              (Z.of_nat coord * 730 * 4 + 730 * 4)) = Ok ts ->
  len ts = 730%Z.
Proof. intros H. now apply struct_unpack_f_length in H. Qed.

Lemma chunk_series_in_grid (chunk_data : list byte) (coord cells : nat) :
  coord < cells -> len chunk_data = (Z.of_nat cells * 730 * 4)%Z ->
  exists ts,
    struct_unpack_f 730
      (py_slice chunk_data (Z.of_nat coord * 730 * 4)
                (Z.of_nat coord * 730 * 4 + 730 * 4)) = Ok ts
    /\ len ts = 730%Z.
Proof.
  intros Hlt Hlen.
  destruct (struct_unpack_f 730 _) as [ts|e] eqn:E.
  - exists ts. split; [reflexivity|]. eapply chunk_series_length, E.
  - assert (H : is_ok (struct_unpack_f 730
                         (py_slice chunk_data (Z.of_nat coord * 730 * 4)
                                   (Z.of_nat coord * 730 * 4 + 730 * 4))) = true).
    { apply chunk_series_ok. lia. }
    rewrite E in H. discriminate.
Qed.

(** X5 (verify_coordinate_mapping.py, lines 65 to 89; compare_netcdf_chunk.py,
    lines 76 to 99): a coordinate index that a script computes is below the
    number of cells of the grid it was computed on, so a chunk that holds
    730 float32 values for each cell of that grid is read in bounds and
    gives a series of exactly 730 values; no index is computed, and
    [ValueError] is raised, exactly when one of the two coordinate arrays is
    empty. *)
Theorem coordinate_index_addresses_a_series
    (lat_full lon_full : list fl) (target_lat target_lon : fl)
    (chunk_data : list byte) :
  (forall c,
     VerifyCoordinateMapping.coord_idx_calculated_of
       lat_full lon_full target_lat target_lon = Ok c ->
     c < length (VerifyCoordinateMapping.lat_filtered lat_full)
         * length (VerifyCoordinateMapping.lon_filtered lon_full)
     /\ (len chunk_data
         = (len (VerifyCoordinateMapping.lat_filtered lat_full)
            * len (VerifyCoordinateMapping.lon_filtered lon_full) * 730 * 4)%Z ->
         exists ts, VerifyCoordinateMapping.chunk_ts chunk_data c = Ok ts
                    /\ len ts = 730%Z))
  /\ (forall c,
        CompareNetcdfChunk.coord_index_of lat_full lon_full target_lat target_lon
        = Ok c ->
        c < length lat_full * length lon_full
        /\ (len chunk_data = (len lat_full * len lon_full * 730 * 4)%Z ->
            exists ts, CompareNetcdfChunk.chunk_ts chunk_data c = Ok ts
                       /\ len ts = 730%Z))
  /\ (VerifyCoordinateMapping.coord_idx_calculated_of
        lat_full lon_full target_lat target_lon = Err ValueError
      <-> VerifyCoordinateMapping.lat_filtered lat_full = []
          \/ VerifyCoordinateMapping.lon_filtered lon_full = [])
  /\ (CompareNetcdfChunk.coord_index_of lat_full lon_full target_lat target_lon
      = Err ValueError
      <-> lat_full = [] \/ lon_full = []).
Proof.
  assert (Hgen : forall lat lon : list fl,
    (forall c,
       CompareNetcdfChunk.coord_index_of lat lon target_lat target_lon = Ok c ->
       c < length lat * length lon
       /\ (len chunk_data = (len lat * len lon * 730 * 4)%Z ->
           exists ts, CompareNetcdfChunk.chunk_ts chunk_data c = Ok ts
                      /\ len ts = 730%Z))
    /\ (CompareNetcdfChunk.coord_index_of lat lon target_lat target_lon
        = Err ValueError <-> lat = [] \/ lon = [])).
  { intros lat lon. unfold CompareNetcdfChunk.coord_index_of. split.
    - intros c Hc.
      destruct (np_argmin (abs_diff lat target_lat)) as [la|] eqn:Hla;
        [|discriminate].
      destruct (np_argmin (abs_diff lon target_lon)) as [lo|] eqn:Hlo;
        [|discriminate].
      injection Hc as <-.
      apply nearest_index_lt in Hla. apply nearest_index_lt in Hlo.
      assert (Hlt : CompareNetcdfChunk.coord_index la (length lon) lo
                    < length lat * length lon).
      { unfold CompareNetcdfChunk.coord_index. nia. }
      split; [exact Hlt|]. intros Hlen.
      apply (chunk_series_in_grid chunk_data _ (length lat * length lon) Hlt).
      rewrite Hlen. unfold len. lia.
    - destruct lat as [|y lat]; [cbn; split; auto|].
      destruct lon as [|x lon]; [cbn; split; auto|].
      cbn. split; [discriminate|]. intros [H|H]; discriminate. }
  split; [|split; [exact (proj1 (Hgen lat_full lon_full))|split;
                   [|exact (proj2 (Hgen lat_full lon_full))]]].
  - exact (proj1 (Hgen (VerifyCoordinateMapping.lat_filtered lat_full)
                       (VerifyCoordinateMapping.lon_filtered lon_full))).
  - exact (proj2 (Hgen (VerifyCoordinateMapping.lat_filtered lat_full)
                       (VerifyCoordinateMapping.lon_filtered lon_full))).
Qed.

(** ** Missing values *)

Lemma Qltb_negb_le (a b : Q) : Qltb a b = negb (Qle_bool b a).
Proof.
  destruct (Qle_bool b a) eqn:E; cbn [negb].
  - apply Qle_bool_iff in E. destruct (Qltb a b) eqn:F; [|reflexivity].
    apply Qltb_lt in F. exfalso. exact (Qlt_not_le _ _ F E).
  - apply Qltb_lt. apply Qnot_le_lt. intros H. apply Qle_bool_iff in H.
    rewrite H in E. discriminate.
Qed.

Lemma shown_missing_spec (v : fl) :
  shown_missing (show_missing v) = is_missing v || isnan v.
Proof.
  unfold show_missing, is_missing, fge.
  destruct v as [| | |q]; cbn; try reflexivity.
  rewrite Qltb_negb_le, Bool.orb_false_r.
  now destruct (Qle_bool (1 # 100) (Qabs (Qred (q + (9999 # 100))))).
Qed.

Lemma missing_not_nan (v : fl) : is_missing v = true -> isnan v = false.
Proof. destruct v; cbn; congruence. Qed.

(** X6 (verify_coordinate_mapping.py, lines 92 to 95; compare_netcdf_chunk.py,
    lines 102 to 105; final_diagnosis.py, line 138): a chunk value is shown
    as MISSING when it is within 0.01 of -99.99 or is a NaN, but only the
    former is counted as missing, so the displayed and the counted missing
    values differ by the NaN values; the valid values that final_diagnosis.py
    keeps are those that are neither. *)
Theorem missing_shown_is_missing_counted_plus_nan (chunk_ts : list fl) :
  (forall v, shown_missing (show_missing v) = true
             <-> is_missing v = true \/ isnan v = true)
  /\ (count_if shown_missing (map show_missing chunk_ts)
      = count_if is_missing chunk_ts + count_if isnan chunk_ts)%Z
  /\ (len (List.filter (fun v => fge (fabs (fadd v lit_99_99)) lit_0_01) chunk_ts)
      = len chunk_ts - count_if is_missing chunk_ts - count_if isnan chunk_ts)%Z.
Proof.
  split; [|split].
  - intros v. rewrite shown_missing_spec. apply Bool.orb_true_iff.
  - induction chunk_ts as [|v l IH]; [reflexivity|].
    cbn [map count_if]. rewrite IH, shown_missing_spec.
    destruct (is_missing v) eqn:E; [rewrite (missing_not_nan v E)|];
      destruct (isnan v); cbn [orb]; lia.
  - unfold len. induction chunk_ts as [|v l IH]; [reflexivity|].
    cbn [List.filter count_if length].
    pose proof (shown_missing_spec v) as H. unfold show_missing in H.
    destruct (fge (fabs (fadd v lit_99_99)) lit_0_01).
    + cbn [shown_missing] in H.
      symmetry in H. apply Bool.orb_false_iff in H. destruct H as [-> ->].
      cbn [length]. lia.
    + change (shown_missing (PStr "MISSING"%string)) with true in H.
      destruct (is_missing v) eqn:E; [rewrite (missing_not_nan v E)|].
      * lia.
      * cbn [orb] in H. rewrite <- H. lia.
Qed.

(** X7 (final_diagnosis.py, lines 131 to 133): a flattened value that is a
    NaN, as a masked cell is, is compared as -99.99, and its row says YES
    exactly when the chunk value is one that the scripts count as missing;
    any other value is compared as it is. *)
Theorem masked_cell_matches_missing_value (python_v c_val : fl) :
  (isnan python_v = true ->
   flt (fabs (fsub (FinalDiagnosis.p_value python_v) c_val)) lit_0_01
   = is_missing c_val)
  /\ (isnan python_v = false -> FinalDiagnosis.p_value python_v = python_v).
Proof.
  unfold FinalDiagnosis.p_value. split; intros ->; cbn [negb]; [|reflexivity].
  unfold is_missing.
  destruct c_val as [| | |q]; try reflexivity.
  cbn. apply Bool.eq_iff_eq_true. rewrite !Qltb_lt, !Qabs_Qred.
  assert (E : (- (9999 # 100) + - q == - (q + (9999 # 100)))%Q) by ring.
  rewrite E, Qabs_opp. reflexivity.
Qed.

(** ** The block that final_diagnosis.py extracts *)

Lemma sorted_head_lt (x : nat) (l : list nat) :
  StronglySorted lt (x :: l) -> forall y, In y l -> x < y.
Proof.
  intros H. apply StronglySorted_inv in H. destruct H as [_ H].
  intros y Hy. eapply List.Forall_forall in H; eauto.
Qed.

(** The last element [z] of a strictly increasing list that starts at [x]:
    the list lies between [x] and [z], and it fills that range exactly when
    it is a run of consecutive numbers. *)
Lemma sorted_extent (l : list nat) (x : nat) :
  StronglySorted lt (x :: l) ->
  exists z,
    nth_error (x :: l) (length l) = Some z
    /\ x + length l <= z
    /\ (forall y, In y (x :: l) -> x <= y <= z)
    /\ In z (x :: l)
    /\ (z = x + length l <-> x :: l = seq x (S (length l))).
Proof.
  revert x. induction l as [|y l IH]; intros x Hs.
  - exists x. cbn [length nth_error seq In].
    split; [reflexivity|]. split; [lia|]. split; [|split; [|split]].
    + intros y [<-|[]]. lia.
    + now left.
    + reflexivity.
    + lia.
  - pose proof (sorted_head_lt x (y :: l) Hs y (or_introl eq_refl)) as Hxy.
    apply StronglySorted_inv in Hs. destruct Hs as [Hs _].
    destruct (IH y Hs) as (z & Hz & Hlen & Hrange & Hin & Hiff).
    exists z. cbn [length nth_error]. split; [exact Hz|].
    split; [lia|]. split; [|split].
    + intros k [<-|Hk]; [|apply Hrange in Hk; lia].
      pose proof (Hrange y (or_introl eq_refl)). lia.
    + right. exact Hin.
    + change (seq x (S (S (length l)))) with (x :: seq (S x) (S (length l))).
      split.
      * intros E. assert (y = S x) by lia. subst y.
        f_equal. apply Hiff. lia.
      * intros E.
        assert (E' : y :: l = seq (S x) (S (length l))) by congruence.
        assert (y = S x) by (cbn [seq] in E'; congruence). subst y.
        assert (z = S x + length l) by (apply Hiff; exact E'). lia.
Qed.

Lemma sorted_NoDup (l : list nat) : StronglySorted lt l -> List.NoDup l.
Proof.
  induction 1 as [|x l Hs IH Hall]; constructor; [|exact IH].
  intros Hin. eapply List.Forall_forall in Hall; eauto. lia.
Qed.

(** A strictly increasing list that holds every number between its first
    and its last element is a run of consecutive numbers. *)
Lemma sorted_convex_is_seq (l : list nat) (x z : nat) :
  StronglySorted lt (x :: l) ->
  nth_error (x :: l) (length l) = Some z ->
  (forall k, x <= k <= z -> In k (x :: l)) ->
  z = x + length l.
Proof.
  intros Hs Hz Hconv.
  destruct (sorted_extent l x Hs) as (z' & Hz' & Hlen & _).
  rewrite Hz in Hz'. injection Hz' as <-.
  assert (Hincl : List.incl (seq x (S (z - x))) (x :: l)).
  { intros k Hk. apply List.in_seq in Hk. apply Hconv. lia. }
  apply List.NoDup_incl_length in Hincl; [|apply List.seq_NoDup].
  rewrite List.length_seq in Hincl. cbn [length] in Hincl. lia.
Qed.

Lemma py_last_cons {A} (x : A) (l : list A) :
  FinalDiagnosis.py_last (x :: l) = py_index (x :: l) (length l).
Proof.
  unfold FinalDiagnosis.py_last.
  now replace (length (x :: l) - 1) with (length l) by (cbn [length]; lia).
Qed.

Lemma monotone_box_convex (a : list fl) (lo hi : Q) (i k j : nat) :
  monotone a -> i <= k <= j ->
  In i (np_where (bbox_mask a (Fin lo) (Fin hi))) ->
  In j (np_where (bbox_mask a (Fin lo) (Fin hi))) ->
  In k (np_where (bbox_mask a (Fin lo) (Fin hi))).
Proof.
  intros Hmono Hk Hi Hj.
  apply bbox_indices_spec in Hi. destruct Hi as (xi & Hxi & Hwi).
  apply bbox_indices_spec in Hj. destruct Hj as (xj & Hxj & Hwj).
  apply bbox_indices_spec.
  destruct (nth_error a k) as [xk|] eqn:Hxk.
  2:{ apply nth_error_None in Hxk.
      assert (j < length a) by (apply nth_error_Some; congruence). lia. }
  exists xk. split; [reflexivity|].
  destruct xi as [| | |qi]; try contradiction.
  destruct xj as [| | |qj]; try contradiction.
  cbn [within] in Hwi, Hwj.
  destruct Hmono as [Hasc|Hdesc].
  - pose proof (Hasc i k _ _ (proj1 Hk) Hxi Hxk) as H1.
    pose proof (Hasc k j _ _ (proj2 Hk) Hxk Hxj) as H2.
    apply fle_Fin_iff in H1. apply fle_iff_Fin in H2.
    destruct H1 as [->|(q & -> & H1)]; [destruct H2 as [?|(? & ? & _)]; discriminate|].
    destruct H2 as [?|(q' & [= <-] & H2)]; [discriminate|].
    cbn [within]. split.
    + eapply Qle_trans; [apply Hwi | exact H1].
    + eapply Qle_trans; [exact H2 | apply Hwj].
  - pose proof (Hdesc i k _ _ (proj1 Hk) Hxi Hxk) as H1.
    pose proof (Hdesc k j _ _ (proj2 Hk) Hxk Hxj) as H2.
    apply fle_iff_Fin in H1. apply fle_Fin_iff in H2.
    destruct H1 as [->|(q & -> & H1)]; [destruct H2 as [?|(? & ? & _)]; discriminate|].
    destruct H2 as [?|(q' & [= <-] & H2)]; [discriminate|].
    cbn [within]. split.
    + eapply Qle_trans; [apply Hwj | exact H2].
    + eapply Qle_trans; [exact H1 | apply Hwi].
Qed.

(** The bounds that lines 39 and 40 compute for the index array of a
    coordinate array [a]. *)
Lemma block_extent (a : list fl) (lo hi : Q) :
  (py_index (np_where (bbox_mask a (Fin lo) (Fin hi))) 0 = Err IndexError
   <-> forall x, In x a -> ~ within lo hi x)
  /\ forall start last,
       py_index (np_where (bbox_mask a (Fin lo) (Fin hi))) 0 = Ok start ->
       FinalDiagnosis.py_last (np_where (bbox_mask a (Fin lo) (Fin hi))) = Ok last ->
       start <= last < length a
       /\ (forall i, In i (np_where (bbox_mask a (Fin lo) (Fin hi))) ->
                     start <= i < last + 1)
       /\ length (np_where (bbox_mask a (Fin lo) (Fin hi))) <= last + 1 - start
       /\ (length (np_where (bbox_mask a (Fin lo) (Fin hi))) = last + 1 - start
           <-> np_where (bbox_mask a (Fin lo) (Fin hi))
               = seq start (last + 1 - start))
       /\ (monotone a ->
           np_where (bbox_mask a (Fin lo) (Fin hi))
           = seq start (last + 1 - start)).
Proof.
  pose proof (where_from_sorted (bbox_mask a (Fin lo) (Fin hi)) 0) as Hs.
  fold (np_where (bbox_mask a (Fin lo) (Fin hi))) in Hs.
  pose proof (bbox_indices_spec a lo hi) as Hspec.
  pose proof (fun i => monotone_box_convex a lo hi i) as Hconv.
  destruct (np_where (bbox_mask a (Fin lo) (Fin hi))) as [|x l].
  - split.
    + split; [|reflexivity]. intros _ y Hy Hw.
      apply In_nth_error in Hy. destruct Hy as [i Hi].
      apply (proj2 (Hspec i)). eauto.
    + intros start last H. discriminate.
  - split.
    + split; [discriminate|]. intros Hnone. exfalso.
      destruct (proj1 (Hspec x) (or_introl eq_refl)) as (y & Hy & Hw).
      exact (Hnone y (nth_error_In _ _ Hy) Hw).
    + intros start last Hstart Hlast. cbn in Hstart. injection Hstart as <-.
      rewrite py_last_cons in Hlast. unfold py_index in Hlast.
      destruct (nth_error (x :: l) (length l)) as [z|] eqn:Hz; [|discriminate].
      injection Hlast as <-.
      destruct (sorted_extent l x Hs) as (z' & Hz' & Hlen & Hrange & Hin & Hiff).
      rewrite Hz in Hz'. injection Hz' as <-.
      assert (Hzlt : z < length a).
      { destruct (proj1 (Hspec z) Hin) as (y & Hy & _).
        apply nth_error_Some. congruence. }
      split; [lia|]. split; [|split; [|split]].
      * intros i Hi. apply Hrange in Hi. lia.
      * cbn [length]. lia.
      * cbn [length].
        replace (z + 1 - x) with (S (z - x)) by lia. split.
        -- intros E. assert (Ez : z = x + length l) by lia.
           rewrite (proj1 Hiff Ez). f_equal. lia.
        -- intros E. apply (f_equal (@length nat)) in E.
           now rewrite List.length_seq in E.
      * intros Hmono.
        assert (Ez : z = x + length l).
        { apply (sorted_convex_is_seq l x z Hs Hz). intros k Hk.
          apply (Hconv x k z Hmono Hk); [now left | exact Hin]. }
        rewrite (proj1 Hiff Ez). f_equal. lia.
Qed.

(** X8 (final_diagnosis.py, lines 39 to 55): the bounds of the extracted
    block raise [IndexError] exactly when no coordinate lies in the bounding
    box; otherwise the block reaches from the first to the last kept index
    of each axis, holds every kept index, and its shape agrees with the
    expected shape of line 51 exactly when the kept indices of both axes
    are runs of consecutive numbers, as they are when the coordinate arrays
    are in ascending or descending order. *)
Theorem extracted_block_covers_the_kept_cells (lat_full lon_full : list fl) :
  (py_index (FinalDiagnosis.lat_indices_np lat_full) 0 = Err IndexError
   <-> forall y, In y lat_full -> ~ within 34 72 y)
  /\ (py_index (FinalDiagnosis.lon_indices_np lon_full) 0 = Err IndexError
      <-> forall x, In x lon_full -> ~ within (-25) 45 x)
  /\ forall (tx : variable3) (nt lat_start lat_last lon_start lon_last : nat),
       v_shape tx = (nt, length lat_full, length lon_full) ->
       py_index (FinalDiagnosis.lat_indices_np lat_full) 0 = Ok lat_start ->
       FinalDiagnosis.py_last (FinalDiagnosis.lat_indices_np lat_full)
       = Ok lat_last ->
       py_index (FinalDiagnosis.lon_indices_np lon_full) 0 = Ok lon_start ->
       FinalDiagnosis.py_last (FinalDiagnosis.lon_indices_np lon_full)
       = Ok lon_last ->
       a_shape (slice3 tx 0 730 lat_start (lat_last + 1) lon_start (lon_last + 1))
       = (Nat.min 730 nt, lat_last + 1 - lat_start, lon_last + 1 - lon_start)
       /\ a_shape (transpose_210
                     (slice3 tx 0 730 lat_start (lat_last + 1)
                             lon_start (lon_last + 1)))
          = (lon_last + 1 - lon_start, lat_last + 1 - lat_start, Nat.min 730 nt)
       /\ (forall j, In j (FinalDiagnosis.lat_indices_np lat_full) ->
                     lat_start <= j < lat_last + 1)
       /\ (forall i, In i (FinalDiagnosis.lon_indices_np lon_full) ->
                     lon_start <= i < lon_last + 1)
       /\ length (FinalDiagnosis.lat_indices_np lat_full)
          <= lat_last + 1 - lat_start
       /\ length (FinalDiagnosis.lon_indices_np lon_full)
          <= lon_last + 1 - lon_start
       /\ (a_shape (slice3 tx 0 730 lat_start (lat_last + 1)
                           lon_start (lon_last + 1))
           = (Nat.min 730 nt, length (FinalDiagnosis.lat_indices_np lat_full),
              length (FinalDiagnosis.lon_indices_np lon_full))
           <-> FinalDiagnosis.lat_indices_np lat_full
               = seq lat_start (lat_last + 1 - lat_start)
               /\ FinalDiagnosis.lon_indices_np lon_full
                  = seq lon_start (lon_last + 1 - lon_start))
       /\ (monotone lat_full -> monotone lon_full ->
           a_shape (slice3 tx 0 730 lat_start (lat_last + 1)
                           lon_start (lon_last + 1))
           = (Nat.min 730 nt, length (FinalDiagnosis.lat_indices_np lat_full),
              length (FinalDiagnosis.lon_indices_np lon_full))).
Proof.
  unfold FinalDiagnosis.lat_indices_np, FinalDiagnosis.lon_indices_np,
    min_lat, max_lat, min_lon, max_lon.
  destruct (block_extent lat_full 34 72) as [Hlat_err Hlat].
  destruct (block_extent lon_full (-25) 45) as [Hlon_err Hlon].
  split; [exact Hlat_err|]. split; [exact Hlon_err|].
  intros tx nt lat_start lat_last lon_start lon_last Hs Ha Hb Hc Hd.
  destruct (Hlat _ _ Ha Hb) as (Hla1 & Hla2 & Hla3 & Hla4 & Hla5).
  destruct (Hlon _ _ Hc Hd) as (Hlo1 & Hlo2 & Hlo3 & Hlo4 & Hlo5).
  assert (Hshape :
    a_shape (slice3 tx 0 730 lat_start (lat_last + 1) lon_start (lon_last + 1))
    = (Nat.min 730 nt, lat_last + 1 - lat_start, lon_last + 1 - lon_start)).
  { unfold slice3. rewrite Hs. cbn [a_shape]. f_equal; [f_equal|]; lia. }
  split; [exact Hshape|]. split.
  { unfold transpose_210. rewrite Hshape. reflexivity. }
  split; [exact Hla2|]. split; [exact Hlo2|].
  split; [exact Hla3|]. split; [exact Hlo3|]. split.
  - rewrite Hshape. rewrite <- Hla4, <- Hlo4. split.
    + intros [= E1 E2]. split; congruence.
    + intros [-> ->]. reflexivity.
  - intros Hmla Hmlo. rewrite Hshape.
    rewrite (proj2 Hla4 (Hla5 Hmla)), (proj2 Hlo4 (Hlo5 Hmlo)). reflexivity.
Qed.

Lemma extracted_block_of_sample :
  a_shape (slice3 sample_tx 0 730 0 (1 + 1) 0 (1 + 1)) = (Nat.min 730 10, 2, 2).
Proof.
  exact (proj1 (proj2 (proj2 (extracted_block_covers_the_kept_cells
                                [Fin 50; Fin (525 # 10)] [Fin 10; Fin (134 # 10)]))
                 sample_tx 10 0 1 0 1 eq_refl eq_refl eq_refl eq_refl eq_refl)).
Defined.

(** ** The flattened copy *)

Lemma py_slice_nat {A} (l : list A) (a n : nat) :
  a + n <= length l ->
  py_slice l (Z.of_nat a) (Z.of_nat (a + n)) = firstn n (skipn a l).
Proof.
  intros H. unfold py_slice, slice_bound, len.
  destruct (Z.of_nat a <? 0)%Z eqn:E1; [apply Z.ltb_lt in E1; lia|].
  destruct (Z.of_nat (a + n) <? 0)%Z eqn:E2; [apply Z.ltb_lt in E2; lia|].
  f_equal; [|f_equal]; lia.
Qed.



(** ** Reasoning about the exceptions of a script *)

Section MonitorExnRules.

Context {S : Type}.
Variable step : op -> S -> option S.

Lemma wpe_bind {A B} (m : prog A) (f : A -> prog B) (s : S)
    (post : B -> S -> Prop) (epost : exn -> S -> Prop) :
  wpe step m s (fun a s' => wpe step (f a) s' post epost) epost ->
  wpe step (bind m f) s post epost.
Proof.
  revert s. induction m as [a|e|o k IH]; intros s H; cbn [bind wpe] in *; trivial.
  destruct (step o s) as [s'|]; [|exact H].
  destruct H as [He H]. split; [exact He|].
  intros x Hx. apply IH, H, Hx.
Qed.

Lemma wpe_perform (o : op) (s s' : S) (post : ans o -> S -> Prop)
    (epost : exn -> S -> Prop) :
  step o s = Some s' ->
  (forall e, fails o e -> epost e s') ->
  (forall x, answers o x -> post x s') ->
  wpe step (perform o) s post epost.
Proof. intros Hs He H. unfold perform. cbn [wpe]. rewrite Hs. now split. Qed.

Lemma wpe_lift {A} (r : result A) (s : S) (post : A -> S -> Prop)
    (epost : exn -> S -> Prop) :
  (forall a, r = Ok a -> post a s) -> (forall e, r = Err e -> epost e s) ->
  wpe step (lift r) s post epost.
Proof. intros H1 H2. destruct r; cbn; auto. Qed.

Lemma wpe_when (c : bool) (body : prog unit) (s : S) (post : unit -> S -> Prop)
    (epost : exn -> S -> Prop) :
  wpe step body s post epost -> post tt s -> wpe step (when c body) s post epost.
Proof. intros H1 H2. destruct c; cbn; assumption. Qed.

Lemma wpe_weaken {A} (p : prog A) (s : S) (post post' : A -> S -> Prop)
    (epost : exn -> S -> Prop) :
  (forall a s, post a s -> post' a s) ->
  wpe step p s post epost -> wpe step p s post' epost.
Proof.
  intros Himp. revert s. induction p as [a|e|o k IH]; intros s H; cbn [wpe] in *;
    auto.
  destruct (step o s); [|exact H]. destruct H as [He H]. split; [exact He|].
  intros x Hx. apply IH, H, Hx.
Qed.

Lemma wpe_for_each {A} (inv : S -> Prop) (l : list A) (body : A -> prog unit)
    (s : S) (post : unit -> S -> Prop) (epost : exn -> S -> Prop) :
  inv s ->
  (forall x s, inv s -> wpe step (body x) s (fun _ s' => inv s') epost) ->
  (forall s, inv s -> post tt s) ->
  wpe step (for_each l body) s post epost.
Proof.
  intros Hs Hbody Hpost. revert s Hs.
  induction l as [|x l IH]; intros s Hs; cbn [for_each].
  - cbn. auto.
  - apply wpe_bind. eapply wpe_weaken; [|apply Hbody, Hs].
    intros a s' Hs'. apply IH, Hs'.
Qed.

Variable parse_netcdf : list byte -> option dataset.
Variable netcdf_created : list byte.

Lemma exec_fails (o : op) (w w' : world) (e : exn) :
  exec parse_netcdf netcdf_created o w = (Err e, w') -> fails o e.
Proof.
  destruct o; cbn [exec fails]; try discriminate.
  - destruct (dataset_access mode) as [a|]; [|now intros [= <-]].
    unfold open_file.
    destruct a, (fs w !! path) as [c|]; try (now intros [= <-]; auto);
      destruct (parse_netcdf _); intros [= <-]; auto.
  - destruct (file_access mode) as [a|]; [|now intros [= <-]].
    unfold open_file.
    destruct a, (fs w !! path) as [c|]; try discriminate; now intros [= <-].
  - destruct (can_read (f_mode f)); [|now intros [= <-]].
    destruct (fs w !! f_path f); [|now intros [= <-]].
    destruct size as [n|]; [destruct (n <? 0)%Z|]; discriminate.
  - destruct (can_write (f_mode f)); [|now intros [= <-]].
    destruct (fs w !! f_path f); [discriminate|now intros [= <-]].
  - destruct (fs w !! path); [discriminate|now intros [= <-]].
Qed.

(** A monitor that accepts a script accepts the trace of each of its runs;
    the postcondition holds at a normal exit and the exception condition at
    an uncaught exception. *)
Lemma wpe_sound {A} (p : prog A) (s : S) (post : A -> S -> Prop)
    (epost : exn -> S -> Prop) (w : world) :
  wpe step p s post epost ->
  exists s', monitor step (trace parse_netcdf netcdf_created p w) s = Some s'
             /\ (forall a, outcome parse_netcdf netcdf_created p w = Ok a ->
                           post a s')
             /\ (forall e, outcome parse_netcdf netcdf_created p w = Err e ->
                           epost e s').
Proof.
  unfold trace, outcome. revert s w.
  induction p as [a|e|o k IH]; intros s w H; cbn [run wpe] in *.
  - exists s. split; [reflexivity|]. cbn. split; [now intros a' [= <-]|discriminate].
  - exists s. split; [reflexivity|]. cbn. split; [discriminate|now intros e' [= <-]].
  - destruct (step o s) as [s1|] eqn:Hstep; [|contradiction].
    destruct H as [Hfail H].
    destruct (exec parse_netcdf netcdf_created o w) as [[x|e] w'] eqn:Hexec.
    + destruct (IH x s1 w' (H x (exec_answers _ _ _ _ _ _ Hexec)))
        as (s' & Hm & Hpost & Hepost).
      destruct (run parse_netcdf netcdf_created (k x) w') as [t r].
      exists s'. cbn [fst snd monitor] in *. rewrite Hstep. auto.
    + exists s1. cbn [fst snd monitor]. rewrite Hstep.
      split; [reflexivity|]. split; [discriminate|].
      intros e' [= <-]. eapply Hfail, exec_fails, Hexec.
Qed.

End MonitorExnRules.

(** The exception that each computation of the scripts raises. *)

Lemma raises_get_variable {A} (v : option A) (e : exn) :
  get_variable v = Err e -> e = KeyError.
Proof. destruct v; cbn; congruence. Qed.

Lemma raises_getattr (tx : variable3) (name : string) (e : exn) :
  getattr tx name = Err e -> e = AttributeError.
Proof. unfold getattr. destruct (assoc name (v_attrs tx)); congruence. Qed.

Lemma raises_struct_unpack (n : Z) (data : list byte) (e : exn) :
  struct_unpack_f n data = Err e -> e = StructError.
Proof. unfold struct_unpack_f. destruct (len data =? 4 * n)%Z; congruence. Qed.

Lemma raises_verify_chunk_ts (chunk_data : list byte) (c : nat) (e : exn) :
  VerifyCoordinateMapping.chunk_ts chunk_data c = Err e -> e = StructError.
Proof. apply raises_struct_unpack. Qed.

Lemma raises_compare_chunk_ts (chunk_data : list byte) (c : nat) (e : exn) :
  CompareNetcdfChunk.chunk_ts chunk_data c = Err e -> e = StructError.
Proof. apply raises_struct_unpack. Qed.

Lemma raises_np_min (a : list fl) (e : exn) : np_min a = Err e -> e = ValueError.
Proof. destruct a; cbn; congruence. Qed.

Lemma raises_np_max (a : list fl) (e : exn) : np_max a = Err e -> e = ValueError.
Proof. destruct a; cbn; congruence. Qed.

Lemma raises_np_argmin (a : list fl) (e : exn) :
  np_argmin a = Err e -> e = ValueError.
Proof. destruct a; cbn; congruence. Qed.

Lemma raises_py_index {A} (l : list A) (i : nat) (e : exn) :
  py_index l i = Err e -> e = IndexError.
Proof. unfold py_index. destruct (nth_error l i); congruence. Qed.

Lemma raises_py_last {A} (l : list A) (e : exn) :
  FinalDiagnosis.py_last l = Err e -> e = IndexError.
Proof. apply raises_py_index. Qed.

Lemma raises_time_series (tx : variable3) (t0 t1 la lo : nat) (e : exn) :
  time_series tx t0 t1 la lo = Err e -> e = IndexError.
Proof.
  unfold time_series. destruct (v_shape tx) as [[nt nlat] nlon].
  destruct ((la <? nlat)%nat && (lo <? nlon)%nat); congruence.
Qed.

Lemma raises_time_slice (tx : variable3) (t : nat) (e : exn) :
  time_slice tx t = Err e -> e = IndexError.
Proof.
  unfold time_slice. destruct (v_shape tx) as [[nt nlat] nlon].
  destruct (t <? nt)%nat; congruence.
Qed.

Lemma raises_row_prefix (a : array2) (row stop : nat) (e : exn) :
  row_prefix a row stop = Err e -> e = IndexError.
Proof. unfold row_prefix. destruct (row <? fst (a2_shape a))%nat; congruence. Qed.

Lemma raises_flat_data_python (data_transposed : array3) (e : exn) :
  FinalDiagnosis.flat_data_python data_transposed = Err e -> False.
Proof.
  destruct (a_shape data_transposed) as [[nlon nlat] ntime] eqn:Hs.
  destruct (flatten_spec data_transposed nlon nlat ntime Hs) as (flat & -> & _).
  discriminate.
Qed.

Lemma raises_compare_ratio (chunk_data : list byte) (chunk_values all : list fl)
    (total_missing : Z) (e : exn) :
  struct_unpack_f 1000 (py_slice chunk_data 0 (1000 * 4)) = Ok chunk_values ->
  struct_unpack_f (len chunk_data / 4) chunk_data = Ok all ->
  py_truediv total_missing (len all) = Err e -> False.
Proof.
  intros H1 H2.
  apply struct_unpack_f_length in H1. destruct H1 as [_ H1].
  apply struct_unpack_f_length in H2. destruct H2 as [H2 H2'].
  pose proof (len_nonneg chunk_data).
  rewrite py_slice_length in H1 by lia.
  unfold py_truediv. destruct (len all =? 0)%Z eqn:E; [|discriminate].
  apply Z.eqb_eq in E. lia.
Qed.

Ltac raise_cause He :=
  first
    [ apply raises_get_variable in He
    | apply raises_getattr in He
    | apply raises_struct_unpack in He
    | apply raises_verify_chunk_ts in He
    | apply raises_compare_chunk_ts in He
    | apply raises_np_min in He
    | apply raises_np_max in He
    | apply raises_np_argmin in He
    | apply raises_py_index in He
    | apply raises_py_last in He
    | apply raises_time_series in He
    | apply raises_time_slice in He
    | apply raises_row_prefix in He
    | apply raises_flat_data_python in He
    | (exfalso; eapply raises_compare_ratio; eassumption) ].

(** One step of the symbolic run of a script against a monitor that sees
    the exceptions: [solve_step] proves that the monitor accepts the
    operation at hand, [op_err] and [lift_err] prove the exception condition
    for a failure of the operation and of a computation. *)
Ltac wpe_step solve_step op_err lift_err :=
  lazymatch goal with
  | |- wpe _ (bind _ _) _ _ _ => apply wpe_bind
  | |- wpe _ (print _ _) _ _ _ => unfold print
  | |- wpe _ (nc_dataset _ _) _ _ _ => unfold nc_dataset
  | |- wpe _ nc_close _ _ _ => unfold nc_close
  | |- wpe _ (py_open _ _) _ _ _ => unfold py_open
  | |- wpe _ (file_read _ _) _ _ _ => unfold file_read
  | |- wpe _ (file_close _) _ _ _ => unfold file_close
  | |- wpe _ (read_whole _ _) _ _ _ => unfold read_whole
  | |- wpe ?step (perform ?o) ?s ?post ?epost =>
      refine (wpe_perform step o s _ post epost _ _ _);
      [ solve_step
      | let e := fresh "e" in let He := fresh "He" in
        intros e He; op_err He
      | let x := fresh "x" in let Hx := fresh "Hx" in
        intros x Hx; cbn [answers] in Hx;
        first [ subst x | clear Hx ]; cbv beta ]
  | |- wpe _ (lift _) _ _ _ =>
      apply wpe_lift;
      [ let a := fresh "a" in let Ha := fresh "Ha" in intros a Ha; cbv beta
      | let e := fresh "e" in let He := fresh "He" in
        intros e He; lift_err He ]
  | |- wpe _ (Ret _) _ _ _ => cbn [wpe]
  | |- wpe _ (when _ _) _ _ _ => apply wpe_when; cbv beta
  | |- wpe _ (for_each (seq _ _) _) _ _ _ => cbn [seq for_each]
  | |- wpe _ (for_each [] _) _ _ _ => cbn [for_each]
  | |- wpe _ (let x := ?e in _) _ _ _ =>
      let y := fresh x in pose (y := e); change e with y; cbv zeta;
      clearbody y
  | |- wpe _ (match ?x with _ => _ end) _ _ _ => destruct x
  end.

Ltac wpe_run solve_step op_err lift_err :=
  repeat wpe_step solve_step op_err lift_err.

(** The exceptions of each script. *)

Ltac raise_op He := hnf in He; intuition (subst; reflexivity).
Ltac raise_lift He :=
  raise_cause He; first [ contradiction | subst; reflexivity ].
Ltac solve_any := reflexivity.

Lemma raise_check_chunk :
  wpe any_step CheckChunk.main tt (fun _ _ => True)
      (fun e _ => may_raise check_chunk e = true).
Proof. unfold CheckChunk.main. wpe_run solve_any raise_op raise_lift. exact I. Qed.

Lemma raise_verify :
  wpe any_step VerifyCoordinateMapping.main tt (fun _ _ => True)
      (fun e _ => may_raise verify_coordinate_mapping e = true).
Proof.
  unfold VerifyCoordinateMapping.main.
  wpe_run solve_any raise_op raise_lift; exact I.
Qed.

Lemma raise_compare :
  wpe any_step CompareNetcdfChunk.main tt (fun _ _ => True)
      (fun e _ => may_raise compare_netcdf_chunk e = true).
Proof.
  unfold CompareNetcdfChunk.main.
  wpe_run solve_any raise_op raise_lift; exact I.
Qed.

Lemma raise_final :
  wpe any_step FinalDiagnosis.main tt (fun _ _ => True)
      (fun e _ => may_raise final_diagnosis e = true).
Proof.
  unfold FinalDiagnosis.main.
  wpe_run solve_any raise_op raise_lift; exact I.
Qed.

Lemma raise_diagnose (np : ma_library) :
  wpe any_step (DiagnoseNetcdf.main np) tt (fun _ _ => True)
      (fun e _ => may_raise diagnose_netcdf e = true).
Proof.
  unfold DiagnoseNetcdf.main. wpe_run solve_any raise_op raise_lift.
  apply (wpe_for_each _ (fun _ => True)); [exact I | |].
  - intros [dim_name dim] s _. wpe_run solve_any raise_op raise_lift. exact I.
  - intros s _. wpe_run solve_any raise_op raise_lift; exact I.
Qed.

Lemma raise_program (np : ma_library) (s : script) :
  wpe any_step (program np s) tt (fun _ _ => True)
      (fun e _ => may_raise s e = true).
Proof.
  destruct s; cbn [program].
  - exact raise_check_chunk.
  - exact (raise_diagnose np).
  - exact raise_compare.
  - exact raise_verify.
  - exact raise_final.
Qed.

(** The dataset handle of each script. *)

Ltac handle_op He := first [ discriminate | hnf in He; contradiction ].
Ltac handle_lift He := discriminate.
Ltac solve_handle := reflexivity.

Lemma handle_verify :
  wpe handle_step VerifyCoordinateMapping.main NotOpened
      (fun _ h => h = Closed) (fun _ h => h <> Closed).
Proof.
  unfold VerifyCoordinateMapping.main.
  wpe_run solve_handle handle_op handle_lift; reflexivity.
Qed.

Lemma handle_compare :
  wpe handle_step CompareNetcdfChunk.main NotOpened
      (fun _ h => h = Closed) (fun _ h => h <> Closed).
Proof.
  unfold CompareNetcdfChunk.main.
  wpe_run solve_handle handle_op handle_lift; reflexivity.
Qed.

Lemma handle_final :
  wpe handle_step FinalDiagnosis.main NotOpened
      (fun _ h => h = Closed) (fun _ h => h <> Closed).
Proof.
  unfold FinalDiagnosis.main.
  wpe_run solve_handle handle_op handle_lift; reflexivity.
Qed.

Lemma handle_diagnose (np : ma_library) :
  wpe handle_step (DiagnoseNetcdf.main np) NotOpened
      (fun _ h => h = Closed) (fun _ h => h <> Closed).
Proof.
  unfold DiagnoseNetcdf.main. wpe_run solve_handle handle_op handle_lift.
  apply (wpe_for_each _ (fun h => h = Opened)); [reflexivity | |].
  - intros [dim_name dim] s ->. wpe_run solve_handle handle_op handle_lift.
    reflexivity.
  - intros s ->. wpe_run solve_handle handle_op handle_lift; reflexivity.
Qed.

Lemma handle_program (np : ma_library) (s : script) :
  uses_dataset s = true ->
  wpe handle_step (program np s) NotOpened
      (fun _ h => h = Closed) (fun _ h => h <> Closed).
Proof.
  destruct s; cbn [program uses_dataset]; try discriminate; intros _.
  - exact (handle_diagnose np).
  - exact handle_compare.
  - exact handle_verify.
  - exact handle_final.
Qed.

(** What a trace that the handle monitor accepts looks like. *)

Lemma monitor_app {S} (step : op -> S -> option S) (t1 t2 : list op) (s : S) :
  monitor step (t1 ++ t2) s
  = match monitor step t1 s with
    | Some s1 => monitor step t2 s1
    | None => None
    end.
Proof.
  revert s. induction t1 as [|o t1 IH]; intros s; cbn [monitor app]; [reflexivity|].
  destruct (step o s); [apply IH|reflexivity].
Qed.

Lemma handle_closed_stays (t : list op) (h : handle) :
  monitor handle_step t Closed = Some h ->
  h = Closed /\ Forall (fun o => is_print o = true) t.
Proof.
  induction t as [|o t IH]; cbn [monitor]; [now intros [= <-]|].
  destruct o; cbn [handle_step]; try discriminate.
  intros H. destruct (IH H) as [-> Hall]. split; [reflexivity|].
  constructor; [reflexivity|exact Hall].
Qed.

Lemma handle_not_closed (t : list op) (h h' : handle) :
  monitor handle_step t h = Some h' -> h' <> Closed ->
  ~ In DatasetClose t.
Proof.
  revert h. induction t as [|o t IH]; intros h H Hh'; [intros []|].
  cbn [monitor] in H. destruct (handle_step o h) as [h1|] eqn:Hstep; [|discriminate].
  intros [->|Hin]; [|exact (IH h1 H Hh' Hin)].
  destruct h; cbn in Hstep; try discriminate. injection Hstep as <-.
  apply handle_closed_stays in H. destruct H as [-> _]. now apply Hh'.
Qed.

Lemma handle_opened (t : list op) (h' : handle) :
  monitor handle_step t NotOpened = Some h' -> h' <> NotOpened ->
  exists path mode, In (DatasetOpen path mode) t.
Proof.
  induction t as [|o t IH]; cbn [monitor]; [intros [= <-] H; now destruct H|].
  destruct o; cbn [handle_step]; try discriminate;
    try (intros H Hh'; destruct (IH H Hh') as (p & m & Hin);
         exists p, m; now right).
  intros _ _. exists path, mode. now left.
Qed.

Lemma handle_reaches_closed (t : list op) (h : handle) :
  monitor handle_step t h = Some Closed -> h <> Closed -> In DatasetClose t.
Proof.
  revert h. induction t as [|o t IH]; intros h Hm Hh; cbn [monitor] in Hm.
  - congruence.
  - destruct (handle_step o h) as [h1|] eqn:Hs; [|discriminate].
    destruct o; try (right; apply (IH h1 Hm); destruct h; cbn in Hs; congruence).
    now left.
Qed.

Lemma handle_closed_iff (t : list op) (h' : handle) :
  monitor handle_step t NotOpened = Some h' ->
  (h' = Closed <-> In DatasetClose t)
  /\ forall pre post, t = (pre ++ DatasetClose :: post)%list ->
       (exists path mode, In (DatasetOpen path mode) pre)
       /\ ~ In DatasetClose pre
       /\ Forall (fun o => is_print o = true) post.
Proof.
  intros Hm.
  assert (Hsplit : forall pre post, t = (pre ++ DatasetClose :: post)%list ->
            h' = Closed
            /\ (exists path mode, In (DatasetOpen path mode) pre)
            /\ ~ In DatasetClose pre
            /\ Forall (fun o => is_print o = true) post).
  { intros pre post ->. rewrite monitor_app in Hm.
    destruct (monitor handle_step pre NotOpened) as [h1|] eqn:Hpre; [|discriminate].
    cbn [monitor] in Hm.
    destruct h1; cbn [handle_step] in Hm; try discriminate.
    apply handle_closed_stays in Hm. destruct Hm as [-> Hpost].
    split; [reflexivity|]. split; [|split; [|exact Hpost]].
    - apply (handle_opened pre Opened Hpre). discriminate.
    - apply (handle_not_closed pre NotOpened Opened Hpre). discriminate. }
  split.
  - split.
    + intros ->. apply (handle_reaches_closed t NotOpened Hm). discriminate.
    + intros Hin. apply List.in_split in Hin. destruct Hin as (pre & post & E).
      exact (proj1 (Hsplit pre post E)).
  - intros pre post E. exact (proj2 (Hsplit pre post E)).
Qed.

Section ScriptExceptions.

Variable parse_netcdf : list byte -> option dataset.
Variable netcdf_created : list byte.
Variable np : ma_library.

Local Abbreviation trace := (trace parse_netcdf netcdf_created).
Local Abbreviation outcome := (outcome parse_netcdf netcdf_created).

(** X10 (the five scripts; the division of compare_netcdf_chunk.py, line
    121): a script ends normally or with one of the exceptions of its
    table.  No script ends with [ZeroDivisionError]: the only division of
    Python integers follows two unpackings that leave at least 1000 values.
    [KeyError], [IndexError] and [ValueError] come only from the scripts that
    open the dataset, [struct.error] only from those that read the chunk,
    and [AttributeError] only from compare_netcdf_chunk.py. *)
Theorem scripts_raise_only_expected_exceptions (s : script) (w : world) (e : exn) :
  outcome (program np s) w = Err e ->
  may_raise s e = true
  /\ e <> ZeroDivisionError /\ e <> FileExistsError /\ e <> UnsupportedOperation
  /\ (e = KeyError \/ e = IndexError \/ e = ValueError -> uses_dataset s = true)
  /\ (e = StructError -> uses_chunk s = true)
  /\ (e = AttributeError -> s = compare_netcdf_chunk).
Proof.
  intros He.
  destruct (wpe_sound any_step parse_netcdf netcdf_created (program np s) tt _ _ w
              (raise_program np s)) as (_ & _ & _ & Herr).
  specialize (Herr e He). cbv beta in Herr.
  split; [exact Herr|].
  destruct e; cbn [may_raise] in Herr; try discriminate;
    repeat split; try discriminate; try (intros [H|[H|H]]; discriminate);
    try (intros _; exact Herr); try (intros [H|[H|H]]; exact Herr).
  intros _. destruct s; (reflexivity || discriminate).
Qed.

(** X11 (nc.Dataset and ncfile.close() of diagnose_netcdf.py, lines 5 and
    135, compare_netcdf_chunk.py, lines 10 and 133,
    verify_coordinate_mapping.py, lines 10 and 114, and final_diagnosis.py,
    lines 10 and 155): a script that opens the dataset closes it exactly
    when it ends normally, so an uncaught exception leaves it open; the
    dataset is closed at most once, after it was opened, and after closing
    it the script only prints. *)
Theorem dataset_is_closed_exactly_on_normal_exit (s : script) (w : world) :
  uses_dataset s = true ->
  (outcome (program np s) w = Ok tt <-> In DatasetClose (trace (program np s) w))
  /\ forall pre post,
       trace (program np s) w = (pre ++ DatasetClose :: post)%list ->
       (exists path mode, In (DatasetOpen path mode) pre)
       /\ ~ In DatasetClose pre
       /\ Forall (fun o => is_print o = true) post.
Proof.
  intros Hs.
  destruct (wpe_sound handle_step parse_netcdf netcdf_created (program np s)
              NotOpened _ _ w (handle_program np s Hs))
    as (h & Hm & Hok & Herr).
  destruct (handle_closed_iff _ _ Hm) as [Hiff Hshape].
  split; [|exact Hshape].
  rewrite <- Hiff. split.
  - apply Hok.
  - intros ->. destruct (outcome (program np s) w) as [[]|e] eqn:E;
      [reflexivity|]. now destruct (Herr e eq_refl).
Qed.

End ScriptExceptions.

(** A world without any file. *)
Example check_chunk_without_files :
  outcome sample_parse [] (program sample_numpy check_chunk)
          {| fs := ∅; argv := [] |} = Err FileNotFoundError.
Proof. vm_compute. reflexivity. Qed.

Lemma check_chunk_raises_without_files :
  may_raise check_chunk FileNotFoundError = true
  /\ FileNotFoundError <> ZeroDivisionError.
Proof.
  destruct (scripts_raise_only_expected_exceptions sample_parse [] sample_numpy
              check_chunk {| fs := ∅; argv := [] |} FileNotFoundError
              check_chunk_without_files)
    as (H1 & H2 & _).
  split; assumption.
Defined.

Lemma compare_closes_dataset_on_sample :
  outcome sample_parse [] (program sample_numpy compare_netcdf_chunk)
          (sample_world []) = Ok tt
  <-> In DatasetClose
         (trace sample_parse [] (program sample_numpy compare_netcdf_chunk)
                (sample_world [])).
Proof.
  exact (proj1 (dataset_is_closed_exactly_on_normal_exit sample_parse []
                  sample_numpy compare_netcdf_chunk (sample_world []) eq_refl)).
Defined.

(** ** Runs that stop early *)

Lemma getattr_hasattr (tx : variable3) (name : string) (a : attr) :
  getattr tx name = Ok a -> hasattr tx name = true.
Proof.
  unfold getattr, hasattr. destruct (assoc name (v_attrs tx)); congruence.
Qed.

Section EarlyRuns.

Variable parse_netcdf : list byte -> option dataset.
Variable netcdf_created : list byte.
Variable np : ma_library.

Local Abbreviation run := (run parse_netcdf netcdf_created).
Local Abbreviation trace := (trace parse_netcdf netcdf_created).
Local Abbreviation outcome := (outcome parse_netcdf netcdf_created).

(** The run of a program that starts with a given operation, from the run
    of what follows. *)

Lemma run_print {A} (line : nat) (msg : list pitem) (k : prog A) (w : world)
    (t : list op) (r : result A * world) :
  run k w = (t, r) -> run (print line msg ;; k) w = (Print line msg :: t, r).
Proof. intros H. cbn [bind print perform run exec]. now rewrite H. Qed.

Lemma run_lift_ok {A B} (x : result A) (a : A) (f : A -> prog B) (w : world)
    (t : list op) (r : result B * world) :
  x = Ok a -> run (f a) w = (t, r) -> run (bind (lift x) f) w = (t, r).
Proof. now intros ->. Qed.

Lemma run_lift_err {A B} (x : result A) (e : exn) (f : A -> prog B) (w : world) :
  x = Err e -> run (bind (lift x) f) w = ([], (Err e, w)).
Proof. now intros ->. Qed.

Lemma run_dataset_err {A} (f : dataset -> prog A) (w : world) (e : exn) :
  dataset_of parse_netcdf w = Err e ->
  run (bind (nc_dataset netcdf_path "r") f) w
  = ([DatasetOpen netcdf_path "r"], (Err e, w)).
Proof.
  unfold dataset_of. intros H. cbn [bind nc_dataset perform run exec].
  change (dataset_access "r") with (Some ReadOnly). unfold open_file.
  destruct (fs w !! netcdf_path) as [c|].
  - destruct (parse_netcdf c); [discriminate|].
    injection H as <-. now rewrite set_fs_same.
  - injection H as <-. now rewrite set_fs_same.
Qed.

Lemma run_dataset_ok {A} (f : dataset -> prog A) (w : world) (ds : dataset)
    (t : list op) (r : result A * world) :
  dataset_of parse_netcdf w = Ok ds -> run (f ds) w = (t, r) ->
  run (bind (nc_dataset netcdf_path "r") f) w
  = (DatasetOpen netcdf_path "r" :: t, r).
Proof.
  unfold dataset_of. intros H Hrun. cbn [bind nc_dataset perform run exec].
  change (dataset_access "r") with (Some ReadOnly). unfold open_file.
  destruct (fs w !! netcdf_path) as [c|]; [|discriminate].
  destruct (parse_netcdf c); [|discriminate].
  injection H as <-. rewrite set_fs_same. now rewrite Hrun.
Qed.

Lemma run_for_each_print {A B C} (l : list (A * B)) (line : nat)
    (msg : A -> B -> list pitem) (k : prog C) (w : world)
    (t : list op) (r : result C * world) :
  run k w = (t, r) ->
  run (for_each l (fun '(a, b) => print line (msg a b)) ;; k) w
  = ((map (fun '(a, b) => Print line (msg a b)) l ++ t)%list, r).
Proof.
  intros Hk. induction l as [|[a b] l IH].
  - cbn [for_each bind map app]. exact Hk.
  - cbn [for_each map app]. cbn [bind print perform run exec].
    change (bind (for_each l (fun '(a, b) => print line (msg a b)))
                 (fun _ => k))
      with (for_each l (fun '(a, b) => print line (msg a b)) ;; k).
    now rewrite IH.
Qed.

Lemma dataset_of_err (w : world) (e : exn) :
  dataset_of parse_netcdf w = Err e -> e = FileNotFoundError \/ e = OSError.
Proof.
  unfold dataset_of. destruct (fs w !! netcdf_path) as [c|];
    [destruct (parse_netcdf c)|]; intros [= <-]; auto.
Qed.

(** The run of a script whose dataset cannot be opened. *)
Lemma unreadable_dataset_run (s : script) (w : world) (e : exn) :
  uses_dataset s = true -> dataset_of parse_netcdf w = Err e ->
  exists banner,
    run (program np s) w
    = ((banner ++ [DatasetOpen netcdf_path "r"])%list, (Err e, w))
    /\ Forall (fun o => is_print o = true) banner
    /\ map fst (stdout banner) = if compares_sources s then [5; 6; 7] else [].
Proof.
  intros Hs He.
  destruct s; cbn [uses_dataset] in Hs; try discriminate;
    cbn [program compares_sources].
  - exists []. split; [|split; constructor].
    unfold DiagnoseNetcdf.main. apply (run_dataset_err _ _ _ He).
  - eexists [_; _; _]. split.
    + unfold CompareNetcdfChunk.main. cbn [app]. do 3 apply run_print.
      apply (run_dataset_err _ _ _ He).
    + split; repeat constructor.
  - eexists [_; _; _]. split.
    + unfold VerifyCoordinateMapping.main. cbn [app]. do 3 apply run_print.
      apply (run_dataset_err _ _ _ He).
    + split; repeat constructor.
  - eexists [_; _; _]. split.
    + unfold FinalDiagnosis.main. cbn [app]. do 3 apply run_print.
      apply (run_dataset_err _ _ _ He).
    + split; repeat constructor.
Qed.

(** X12 (nc.Dataset of diagnose_netcdf.py, line 5, and of
    compare_netcdf_chunk.py, verify_coordinate_mapping.py and
    final_diagnosis.py, line 10): when the dataset file is missing or cannot
    be decoded, the script ends with [FileNotFoundError] or [OSError] at
    its attempt to open it, having printed its three banner lines
    (diagnose_netcdf.py: nothing) and without opening the chunk file. *)
Theorem unreadable_dataset_stops_the_script (s : script) (w : world) (e : exn) :
  uses_dataset s = true -> dataset_of parse_netcdf w = Err e ->
  outcome (program np s) w = Err e
  /\ (e = FileNotFoundError \/ e = OSError)
  /\ (exists banner,
        trace (program np s) w = (banner ++ [DatasetOpen netcdf_path "r"])%list
        /\ Forall (fun o => is_print o = true) banner
        /\ map fst (stdout banner)
           = if compares_sources s then [5; 6; 7] else [])
  /\ forall path mode, ~ In (FileOpen path mode) (trace (program np s) w).
Proof.
  intros Hs He.
  destruct (unreadable_dataset_run s w e Hs He) as (banner & Hrun & Hprints & Hlines).
  unfold outcome, trace. rewrite Hrun. cbn [fst snd].
  split; [reflexivity|]. split; [exact (dataset_of_err w e He)|].
  split; [exists banner; auto|].
  intros path mode Hin. apply in_app_or in Hin. destruct Hin as [Hin|[Hin|[]]].
  - eapply List.Forall_forall in Hprints; [|exact Hin]. discriminate.
  - discriminate.
Qed.

Lemma prints_of_pairs {A B} (l : list (A * B)) (line : nat)
    (msg : A -> B -> list pitem) :
  Forall (fun o => is_print o = true)
         (map (fun '(a, b) => Print line (msg a b)) l).
Proof. induction l as [|[a b] l IH]; cbn [map]; now constructor. Qed.

(** X13 (ncfile.variables['tx'] of diagnose_netcdf.py, line 22, and of
    compare_netcdf_chunk.py, verify_coordinate_mapping.py and
    final_diagnosis.py, line 11): on a dataset without a variable [tx] the
    script ends with [KeyError]; besides opening the dataset it has only
    printed, so the chunk file is not opened and the dataset is not
    closed. *)
Theorem dataset_without_tx_raises_key_error (s : script) (w : world) (ds : dataset) :
  uses_dataset s = true -> dataset_of parse_netcdf w = Ok ds -> var_tx ds = None ->
  outcome (program np s) w = Err KeyError
  /\ exists before after,
       trace (program np s) w
       = (before ++ DatasetOpen netcdf_path "r" :: after)%list
       /\ Forall (fun o => is_print o = true) before
       /\ Forall (fun o => is_print o = true) after.
Proof.
  intros Hs Hds Htx.
  assert (Hkey : get_variable (var_tx ds) = Err KeyError) by now rewrite Htx.
  assert (H : exists before after,
            run (program np s) w
            = ((before ++ DatasetOpen netcdf_path "r" :: after)%list,
               (Err KeyError, w))
            /\ Forall (fun o => is_print o = true) before
            /\ Forall (fun o => is_print o = true) after).
  { destruct s; cbn [uses_dataset] in Hs; try discriminate; cbn [program].
    - exists []. eexists. split.
      + unfold DiagnoseNetcdf.main. cbn [app].
        apply (run_dataset_ok _ _ _ _ _ Hds). do 7 apply run_print.
        apply run_for_each_print. apply (run_lift_err _ _ _ _ Hkey).
      + split; [constructor|].
        repeat (constructor; [reflexivity|]). rewrite app_nil_r.
        apply prints_of_pairs.
    - eexists [_; _; _], []. split.
      + unfold CompareNetcdfChunk.main. cbn [app]. do 3 apply run_print.
        apply (run_dataset_ok _ _ _ _ _ Hds). apply (run_lift_err _ _ _ _ Hkey).
      + split; repeat constructor.
    - eexists [_; _; _], []. split.
      + unfold VerifyCoordinateMapping.main. cbn [app]. do 3 apply run_print.
        apply (run_dataset_ok _ _ _ _ _ Hds). apply (run_lift_err _ _ _ _ Hkey).
      + split; repeat constructor.
    - eexists [_; _; _], []. split.
      + unfold FinalDiagnosis.main. cbn [app]. do 3 apply run_print.
        apply (run_dataset_ok _ _ _ _ _ Hds). apply (run_lift_err _ _ _ _ Hkey).
      + split; repeat constructor. }
  destruct H as (before & after & Hrun & Hb & Ha).
  unfold outcome, trace. rewrite Hrun. cbn [fst snd].
  split; [reflexivity|]. exists before, after. auto.
Qed.

(** The operations of a run that stops at lines 15 to 17 of
    compare_netcdf_chunk.py. *)
Lemma compare_attribute_run (w : world) (ds : dataset) (tx : variable3) :
  dataset_of parse_netcdf w = Ok ds -> var_tx ds = Some tx ->
  hasattr tx "_FillValue" && hasattr tx "scale_factor" && hasattr tx "add_offset"
  = false ->
  exists t,
    run CompareNetcdfChunk.main w = (t, (Err AttributeError, w))
    /\ Forall (fun o => match o with
                        | Print line _ => line <= 16
                        | DatasetOpen _ _ => True
                        | _ => False
                        end) t.
Proof.
  intros Hds Htx Hattr.
  assert (Hvar : get_variable (var_tx ds) = Ok tx) by now rewrite Htx.
  destruct (getattr tx "_FillValue") as [a1|e1] eqn:E1.
  2:{ apply raises_getattr in E1 as E1'. subst e1. eexists. split.
      - unfold CompareNetcdfChunk.main. do 3 eapply run_print.
        eapply run_dataset_ok; [exact Hds|]. eapply run_lift_ok; [exact Hvar|].
        do 2 eapply run_print. apply (run_lift_err _ _ _ _ E1).
      - repeat (constructor; [cbn; first [lia | exact I]|]). constructor. }
  destruct (getattr tx "scale_factor") as [a2|e2] eqn:E2.
  2:{ apply raises_getattr in E2 as E2'. subst e2. eexists. split.
      - unfold CompareNetcdfChunk.main. do 3 eapply run_print.
        eapply run_dataset_ok; [exact Hds|]. eapply run_lift_ok; [exact Hvar|].
        do 2 eapply run_print. eapply run_lift_ok; [exact E1|].
        eapply run_print. apply (run_lift_err _ _ _ _ E2).
      - repeat (constructor; [cbn; first [lia | exact I]|]). constructor. }
  destruct (getattr tx "add_offset") as [a3|e3] eqn:E3.
  2:{ apply raises_getattr in E3 as E3'. subst e3. eexists. split.
      - unfold CompareNetcdfChunk.main. do 3 eapply run_print.
        eapply run_dataset_ok; [exact Hds|]. eapply run_lift_ok; [exact Hvar|].
        do 2 eapply run_print. eapply run_lift_ok; [exact E1|].
        eapply run_print. eapply run_lift_ok; [exact E2|].
        eapply run_print. apply (run_lift_err _ _ _ _ E3).
      - repeat (constructor; [cbn; first [lia | exact I]|]). constructor. }
  apply getattr_hasattr in E1, E2, E3. rewrite E1, E2, E3 in Hattr.
  discriminate.
Qed.

(** X21 (compare_netcdf_chunk.py, lines 15 to 17, against the [hasattr]
    tests of diagnose_netcdf.py, lines 29 to 41): when the variable [tx]
    lacks one of the attributes [_FillValue], [scale_factor] and
    [add_offset], compare_netcdf_chunk.py ends with [AttributeError] at
    one of the lines 15 to 17, before it opens the chunk file, and it
    leaves the dataset open. *)
Theorem compare_needs_the_packing_attributes
    (w : world) (ds : dataset) (tx : variable3) :
  dataset_of parse_netcdf w = Ok ds -> var_tx ds = Some tx ->
  hasattr tx "_FillValue" && hasattr tx "scale_factor" && hasattr tx "add_offset"
  = false ->
  outcome CompareNetcdfChunk.main w = Err AttributeError
  /\ (forall path mode,
        ~ In (FileOpen path mode) (trace CompareNetcdfChunk.main w))
  /\ ~ In DatasetClose (trace CompareNetcdfChunk.main w)
  /\ Forall (fun line => line <= 16)
            (map fst (stdout (trace CompareNetcdfChunk.main w))).
Proof.
  intros Hds Htx Hattr.
  destruct (compare_attribute_run w ds tx Hds Htx Hattr) as (t & Hrun & Hall).
  unfold outcome, trace. rewrite Hrun. cbn [fst snd].
  split; [reflexivity|]. split; [|split].
  - intros path mode Hin. eapply List.Forall_forall in Hall; [|exact Hin].
    exact Hall.
  - intros Hin. eapply List.Forall_forall in Hall; [|exact Hin]. exact Hall.
  - clear Hrun. induction Hall as [|o t Ho Hall IH]; [constructor|].
    destruct o; cbn [stdout map fst]; try contradiction; try exact IH.
    constructor; [exact Ho|exact IH].
Qed.

Lemma run_open_read {A} (size : Z) (k : list byte -> prog A) (w : world)
    (chunk_data : list byte) :
  fs w !! chunk_path = Some chunk_data -> (0 <= size)%Z ->
  run (f <- py_open chunk_path "rb" ;;
       data <- file_read f (Some size) ;;
       k data) w
  = (FileOpen chunk_path "rb"
       :: FileRead {| f_path := chunk_path; f_mode := "rb" |} (Some size)
       :: fst (run (k (firstn (Z.to_nat size) chunk_data)) w),
     snd (run (k (firstn (Z.to_nat size) chunk_data)) w)).
Proof.
  intros Hfile Hsize. cbn [bind py_open file_read perform run exec].
  change (file_access "rb") with (Some ReadOnly). unfold open_file.
  rewrite Hfile. cbv iota. rewrite set_fs_same.
  cbn [f_mode f_path run exec bind].
  change (can_read "rb") with true. cbv iota. cbn [ans]. rewrite Hfile.
  destruct (size <? 0)%Z eqn:E; [apply Z.ltb_lt in E; lia|].
  now destruct (run (k (firstn (Z.to_nat size) chunk_data)) w).
Qed.

Lemma run_open_missing {A} (k : file_obj -> prog A) (w : world) :
  fs w !! chunk_path = None ->
  run (bind (py_open chunk_path "rb") k) w
  = ([FileOpen chunk_path "rb"], (Err FileNotFoundError, w)).
Proof.
  intros Hfile. cbn [bind py_open perform run exec].
  change (file_access "rb") with (Some ReadOnly). unfold open_file.
  rewrite Hfile. now rewrite set_fs_same.
Qed.

Lemma first_4000_unpack (chunk_data : list byte) :
  (is_ok (struct_unpack_f 1000 (firstn (Z.to_nat (1000 * 4)) chunk_data)) = true
   <-> (4000 <= len chunk_data)%Z).
Proof.
  rewrite struct_unpack_f_ok. unfold len. rewrite length_firstn. lia.
Qed.

(** X14 (check_chunk.py, lines 3 to 11): check_chunk.py ends with
    [FileNotFoundError] when the chunk file is missing and with
    [struct.error] when it holds fewer than 4000 bytes, in both cases
    before printing anything; otherwise it prints its five messages and
    exits normally, and what it prints depends on the first 4000 bytes of
    the file only. *)
Theorem check_chunk_reads_the_first_4000_bytes (w : world) :
  (fs w !! chunk_path = None ->
   outcome CheckChunk.main w = Err FileNotFoundError
   /\ stdout (trace CheckChunk.main w) = [])
  /\ (forall chunk_data,
        fs w !! chunk_path = Some chunk_data -> (len chunk_data < 4000)%Z ->
        outcome CheckChunk.main w = Err StructError
        /\ stdout (trace CheckChunk.main w) = [])
  /\ (forall chunk_data,
        fs w !! chunk_path = Some chunk_data -> (4000 <= len chunk_data)%Z ->
        outcome CheckChunk.main w = Ok tt
        /\ map fst (stdout (trace CheckChunk.main w)) = [6; 7; 9; 10; 11])
  /\ (forall w' chunk_data chunk_data',
        fs w !! chunk_path = Some chunk_data ->
        fs w' !! chunk_path = Some chunk_data' ->
        firstn 4000 chunk_data = firstn 4000 chunk_data' ->
        outcome CheckChunk.main w = outcome CheckChunk.main w'
        /\ stdout (trace CheckChunk.main w) = stdout (trace CheckChunk.main w')).
Proof.
  unfold outcome, trace, CheckChunk.main. split; [|split; [|split]].
  - intros Hfile. rewrite (run_open_missing _ w Hfile). split; reflexivity.
  - intros chunk_data Hfile Hlen.
    rewrite (run_open_read _ _ w chunk_data Hfile) by lia. cbv beta.
    destruct (struct_unpack_f 1000 (firstn (Z.to_nat (1000 * 4)) chunk_data))
      as [vals|e] eqn:E.
    + assert (H : is_ok (struct_unpack_f 1000
                           (firstn (Z.to_nat (1000 * 4)) chunk_data)) = true)
        by now rewrite E.
      apply first_4000_unpack in H. lia.
    + pose proof (raises_struct_unpack _ _ _ E) as ->.
      cbn [lift bind run fst snd stdout]. split; reflexivity.
  - intros chunk_data Hfile Hlen.
    rewrite (run_open_read _ _ w chunk_data Hfile) by lia. cbv beta.
    destruct (struct_unpack_f 1000 (firstn (Z.to_nat (1000 * 4)) chunk_data))
      as [vals|e] eqn:E.
    + cbn [lift bind print perform run exec fst snd stdout map].
      split; reflexivity.
    + assert (H : is_ok (struct_unpack_f 1000
                           (firstn (Z.to_nat (1000 * 4)) chunk_data)) = true)
        by (apply first_4000_unpack; exact Hlen).
      rewrite E in H. discriminate.
  - intros w' chunk_data chunk_data' Hfile Hfile' Hsame.
    rewrite (run_open_read _ _ w chunk_data Hfile) by lia. cbv beta.
    rewrite (run_open_read _ _ w' chunk_data' Hfile') by lia. cbv beta.
    change (Z.to_nat (1000 * 4)) with 4000. rewrite <- Hsame.
    destruct (struct_unpack_f 1000 (firstn 4000 chunk_data)) as [vals|e] eqn:E.
    + cbn [lift bind print perform run exec fst snd stdout map].
      split; reflexivity.
    + cbn [lift bind run fst snd stdout]. split; reflexivity.
Qed.

End EarlyRuns.

Example dataset_of_world_without_files :
  dataset_of sample_parse {| fs := ∅; argv := [] |} = Err FileNotFoundError.
Proof. vm_compute. reflexivity. Qed.

Lemma verify_without_files :
  outcome sample_parse [] (program sample_numpy verify_coordinate_mapping)
          {| fs := ∅; argv := [] |} = Err FileNotFoundError.
Proof.
  exact (proj1 (unreadable_dataset_stops_the_script sample_parse [] sample_numpy
                  verify_coordinate_mapping {| fs := ∅; argv := [] |}
                  FileNotFoundError eq_refl dataset_of_world_without_files)).
Defined.

Example dataset_of_empty_dataset :
  dataset_of (fun _ => Some empty_dataset) (sample_world []) = Ok empty_dataset.
Proof. vm_compute. reflexivity. Qed.

Lemma compare_on_empty_dataset :
  outcome (fun _ => Some empty_dataset) []
          (program sample_numpy compare_netcdf_chunk) (sample_world [])
  = Err KeyError.
Proof.
  exact (proj1 (dataset_without_tx_raises_key_error (fun _ => Some empty_dataset)
                  [] sample_numpy compare_netcdf_chunk (sample_world [])
                  empty_dataset eq_refl dataset_of_empty_dataset eq_refl)).
Defined.

Example chunk_of_sample_world :
  fs (sample_world []) !! chunk_path = Some (repeat x00 (4 * 2920)).
Proof. vm_compute. reflexivity. Qed.

Lemma check_chunk_on_sample :
  outcome sample_parse [] CheckChunk.main (sample_world []) = Ok tt
  /\ map fst (stdout (trace sample_parse [] CheckChunk.main (sample_world [])))
     = [6; 7; 9; 10; 11].
Proof.
  apply (proj1 (proj2 (proj2 (check_chunk_reads_the_first_4000_bytes
                                sample_parse [] (sample_world []))))
           (repeat x00 (4 * 2920))).
  - exact chunk_of_sample_world.
  - vm_compute. discriminate.
Defined.

(** ** The coordinate index of final_diagnosis.py *)

Lemma first_and_last {A} (l : list A) :
  l <> [] -> exists s z, py_index l 0 = Ok s /\ FinalDiagnosis.py_last l = Ok z.
Proof.
  destruct l as [|x l]; [congruence|]. intros _.
  rewrite py_last_cons.
  destruct (py_index_ok (x :: l) (length l)) as (z & Hz & _); [cbn [length]; lia|].
  exists x, z. split; [reflexivity|exact Hz].
Qed.

Lemma length_zero_nil {A} (l : list A) : length l = 0 <-> l = [].
Proof. destruct l; cbn; split; intros H; congruence. Qed.

(** X16 (final_diagnosis.py, lines 39 to 68 and 107 to 120, against
    verify_coordinate_mapping.py, lines 65 to 75): for the same dataset and
    target, the coordinate index of final_diagnosis.py, which multiplies by
    the width of the extracted block, is at least the index of
    verify_coordinate_mapping.py, which multiplies by the number of kept
    longitudes; the two agree when the longitudes are in ascending or
    descending order.  Where verify_coordinate_mapping.py raises
    [ValueError] for an empty filtered grid, final_diagnosis.py raises
    [IndexError]. *)
Theorem final_index_is_at_least_verify_index
    (tx : variable3) (nt : nat) (lat_full lon_full : list fl)
    (test_lat test_lon : fl) :
  v_shape tx = (nt, length lat_full, length lon_full) ->
  (forall vi,
     VerifyCoordinateMapping.coord_idx_calculated_of
       lat_full lon_full test_lat test_lon = Ok vi ->
     exists fi,
       coord_idx_berlin_of tx lat_full lon_full test_lat test_lon = Ok fi
       /\ vi <= fi
       /\ (monotone lon_full -> fi = vi))
  /\ (VerifyCoordinateMapping.coord_idx_calculated_of
        lat_full lon_full test_lat test_lon = Err ValueError
      <-> coord_idx_berlin_of tx lat_full lon_full test_lat test_lon
          = Err IndexError).
Proof.
  intros Hs.
  destruct (bbox_filtered_spec lat_full 34 72) as (_ & Hlat_len & _ & _).
  destruct (bbox_filtered_spec lon_full (-25) 45) as (_ & Hlon_len & _ & _).
  destruct (block_extent lat_full 34 72) as [_ Hlat].
  destruct (block_extent lon_full (-25) 45) as [_ Hlon].
  unfold VerifyCoordinateMapping.coord_idx_calculated_of, coord_idx_berlin_of,
    VerifyCoordinateMapping.lat_filtered, VerifyCoordinateMapping.lon_filtered,
    VerifyCoordinateMapping.lat_indices, VerifyCoordinateMapping.lon_indices,
    FinalDiagnosis.lat_indices_np, FinalDiagnosis.lon_indices_np,
    min_lat, max_lat, min_lon, max_lon.
  cbv zeta.
  remember (np_where (bbox_mask lat_full (Fin 34) (Fin 72))) as lat_idx
    eqn:Hlat_idx in *.
  remember (np_where (bbox_mask lon_full (Fin (-25)) (Fin 45))) as lon_idx
    eqn:Hlon_idx in *.
  clear Hlat_idx Hlon_idx.
  destruct (decide (lat_idx = [])) as [Ela|Ela].
  { rewrite Ela in *. cbn [length] in Hlat_len. apply length_zero_nil in Hlat_len.
    rewrite Hlat_len. cbn. split; [discriminate|]. split; reflexivity. }
  assert (Hla_ne : np_take lat_full lat_idx <> []).
  { intros E. apply Ela, length_zero_nil. rewrite <- Hlat_len, E. reflexivity. }
  destruct (nearest_index_exists _ test_lat Hla_ne) as [fla Hfla].
  rewrite Hfla.
  destruct (decide (lon_idx = [])) as [Elo|Elo].
  { destruct (first_and_last lat_idx Ela) as (s & z & -> & ->).
    rewrite Elo in *. cbn [length] in Hlon_len. apply length_zero_nil in Hlon_len.
    rewrite Hlon_len. cbn. split; [discriminate|]. split; reflexivity. }
  destruct (first_and_last lat_idx Ela) as (lat_start & lat_last & Ha & Hb).
  destruct (first_and_last lon_idx Elo) as (lon_start & lon_last & Hc & Hd).
  rewrite Ha, Hb, Hc, Hd.
  destruct (Hlat _ _ Ha Hb) as (Hla1 & _ & _ & _ & _).
  destruct (Hlon _ _ Hc Hd) as (Hlo1 & _ & Hlo3 & Hlo4 & Hlo5).
  assert (Hshape :
    a_shape (transpose_210
               (slice3 tx 0 730 lat_start (lat_last + 1) lon_start (lon_last + 1)))
    = (lon_last + 1 - lon_start, lat_last + 1 - lat_start, Nat.min 730 nt)).
  { unfold transpose_210, slice3. rewrite Hs. cbn [a_shape].
    f_equal; [f_equal|]; lia. }
  rewrite Hshape.
  assert (Hlo_ne : np_take lon_full lon_idx <> []).
  { intros E. apply Elo, length_zero_nil. rewrite <- Hlon_len, E. reflexivity. }
  destruct (nearest_index_exists _ test_lon Hlo_ne) as [flo Hflo].
  rewrite Hflo. split; [|split; discriminate].
  intros vi [= <-]. eexists. split; [reflexivity|].
  unfold VerifyCoordinateMapping.coord_idx_calculated,
    FinalDiagnosis.coord_idx_berlin. rewrite Hlon_len. split.
  - apply Nat.add_le_mono_r, Nat.mul_le_mono_l. exact Hlo3.
  - intros Hmono. rewrite (proj2 Hlo4 (Hlo5 Hmono)). reflexivity.
Qed.

Lemma final_index_on_sample :
  exists fi,
    coord_idx_berlin_of sample_tx [Fin 50; Fin (525 # 10)] [Fin 10; Fin (134 # 10)]
      FinalDiagnosis.test_lat FinalDiagnosis.test_lon = Ok fi
    /\ 3 <= fi
    /\ (monotone [Fin 10; Fin (134 # 10)] -> fi = 3).
Proof.
  apply (proj1 (final_index_is_at_least_verify_index sample_tx 10
                  [Fin 50; Fin (525 # 10)] [Fin 10; Fin (134 # 10)]
                  FinalDiagnosis.test_lat FinalDiagnosis.test_lon eq_refl) 3).
  vm_compute. reflexivity.
Defined.

(** ** Runs without the chunk file *)

Section ChunkRuns.

Variable parse_netcdf : list byte -> option dataset.
Variable netcdf_created : list byte.
Variable np : ma_library.

Local Abbreviation exec := (exec parse_netcdf netcdf_created).
Local Abbreviation run := (run parse_netcdf netcdf_created).
Local Abbreviation trace := (trace parse_netcdf netcdf_created).
Local Abbreviation outcome := (outcome parse_netcdf netcdf_created).

(** In a run of allowed operations that ends normally, every operation
    succeeded in the world in which the run started. *)
Lemma allowed_ok_ops {A} (d c : bool) (p : prog A) (post : A -> unit -> Prop)
    (w : world) (a : A) :
  wp (access_step d c) p tt post -> outcome p w = Ok a ->
  Forall (fun o => is_ok (fst (exec o w)) = true) (trace p w).
Proof.
  unfold trace, outcome. revert w.
  induction p as [a'|e|o k IH]; intros w H Hok; cbn [run wp] in *;
    try (cbn; constructor).
  unfold access_step in H. destruct (allowed d c o) eqn:Ha; [|contradiction].
  destruct (allowed_exec parse_netcdf netcdf_created d c o w Ha) as [Hw _].
  destruct (exec o w) as [[x|e] w'] eqn:Hexec; cbn [snd] in Hw; subst w'.
  - specialize (IH x w (H x (exec_answers _ _ _ _ _ _ Hexec))).
    destruct (run (k x) w) as [t r]. cbn [fst snd] in *.
    constructor; [now rewrite Hexec | exact (IH Hok)].
  - cbn in Hok. discriminate.
Qed.

Lemma chunk_open_in_trace (s : script) (w : world) :
  uses_chunk s = true -> outcome (program np s) w = Ok tt ->
  In (FileOpen chunk_path "rb") (trace (program np s) w).
Proof.
  intros Hs Hok. destruct s; cbn [uses_chunk] in Hs; try discriminate.
  - revert Hok. unfold outcome, trace. cbn [program]. unfold CheckChunk.main.
    cbn [bind py_open perform run].
    destruct (exec (FileOpen chunk_path "rb") w) as [[x|e] w'].
    + destruct (run _ w') as [t r]. intros _. now left.
    + intros _. now left.
  - destruct (wp_sound _ parse_netcdf netcdf_created _ _ _ w
                (seen_program np compare_netcdf_chunk eq_refl))
      as (seen & Hm & Hpost).
    specialize (Hpost tt Hok). subst seen.
    destruct (monitor_seen_exists _ _ _ _ 1 is_chunk_open Hm eq_refl eq_refl)
      as [Hinit|(o & Hin & Ho)]; [discriminate|].
    apply seen_chunk_open in Ho. now subst o.
  - destruct (wp_sound _ parse_netcdf netcdf_created _ _ _ w
                (seen_program np verify_coordinate_mapping eq_refl))
      as (seen & Hm & Hpost).
    specialize (Hpost tt Hok). subst seen.
    destruct (monitor_seen_exists _ _ _ _ 1 is_chunk_open Hm eq_refl eq_refl)
      as [Hinit|(o & Hin & Ho)]; [discriminate|].
    apply seen_chunk_open in Ho. now subst o.
  - destruct (wp_sound _ parse_netcdf netcdf_created _ _ _ w
                (seen_program np final_diagnosis eq_refl))
      as (seen & Hm & Hpost).
    specialize (Hpost tt Hok). subst seen.
    destruct (monitor_seen_exists _ _ _ _ 1 is_chunk_open Hm eq_refl eq_refl)
      as [Hinit|(o & Hin & Ho)]; [discriminate|].
    apply seen_chunk_open in Ho. now subst o.
Qed.

(** X15 (open of check_chunk.py, line 3, compare_netcdf_chunk.py, line 25,
    verify_coordinate_mapping.py, line 82, and final_diagnosis.py, line 95):
    a script that reads the chunk ends normally only in a world that holds
    the chunk file and, when it also reads the dataset, a dataset file that
    can be decoded; without the chunk file it ends with an uncaught
    exception. *)
Theorem normal_exit_needs_the_chunk_file (s : script) (w : world) :
  uses_chunk s = true ->
  (outcome (program np s) w = Ok tt ->
   (exists chunk_data, fs w !! chunk_path = Some chunk_data)
   /\ (uses_dataset s = true -> exists ds, dataset_of parse_netcdf w = Ok ds))
  /\ (fs w !! chunk_path = None -> exists e, outcome (program np s) w = Err e).
Proof.
  intros Hs.
  assert (Hchunk : outcome (program np s) w = Ok tt ->
                   exists chunk_data, fs w !! chunk_path = Some chunk_data).
  { intros Hok.
    pose proof (allowed_ok_ops _ _ _ _ w tt (access_program np s) Hok) as Hall.
    pose proof (chunk_open_in_trace s w Hs Hok) as Hin.
    eapply List.Forall_forall in Hall; [|exact Hin].
    cbn [exec] in Hall. change (file_access "rb") with (Some ReadOnly) in Hall.
    unfold open_file in Hall.
    destruct (fs w !! chunk_path) as [c|]; [now exists c|discriminate]. }
  split.
  - intros Hok. split; [exact (Hchunk Hok)|]. intros Hd.
    destruct (dataset_of parse_netcdf w) as [ds|e] eqn:E; [now exists ds|].
    destruct (unreadable_dataset_run parse_netcdf netcdf_created np s w e Hd E)
      as (banner & Hrun & _).
    unfold outcome in Hok. rewrite Hrun in Hok. discriminate.
  - intros Hnone.
    destruct (outcome (program np s) w) as [[]|e] eqn:E; [|now exists e].
    destruct (Hchunk eq_refl) as [c Hc]. congruence.
Qed.

End ChunkRuns.

Example no_chunk_in_world_without_files :
  fs {| fs := ∅; argv := [] |} !! chunk_path = None.
Proof. vm_compute. reflexivity. Qed.

Lemma final_diagnosis_without_files :
  exists e,
    outcome sample_parse [] (program sample_numpy final_diagnosis)
            {| fs := ∅; argv := [] |} = Err e.
Proof.
  exact (proj2 (normal_exit_needs_the_chunk_file sample_parse [] sample_numpy
                  final_diagnosis {| fs := ∅; argv := [] |} eq_refl)
               no_chunk_in_world_without_files).
Defined.

(** ** The series of a coordinate and the values of the whole chunk *)

Lemma unpack_floats_firstn (n : nat) (data : list byte) :
  unpack_floats n (firstn (4 * n) data) = unpack_floats n data.
Proof.
  revert data. induction n as [|n IH]; intros data; [reflexivity|].
  replace (4 * S n) with (S (S (S (S (4 * n))))) by lia.
  destruct data as [|b0 [|b1 [|b2 [|b3 rest]]]]; try reflexivity.
  cbn [firstn unpack_floats]. now rewrite IH.
Qed.

Lemma unpack_floats_skipn (k n : nat) (data : list byte) :
  4 * k <= length data ->
  unpack_floats n (skipn (4 * k) data) = skipn k (unpack_floats (k + n) data).
Proof.
  revert data. induction k as [|k IH]; intros data Hlen; [reflexivity|].
  replace (4 * S k) with (S (S (S (S (4 * k))))) in * by lia.
  destruct data as [|b0 [|b1 [|b2 [|b3 rest]]]]; cbn [length] in Hlen; try lia.
  cbn [skipn Nat.add unpack_floats]. apply IH. lia.
Qed.

Lemma unpack_floats_prefix (n m : nat) (data : list byte) :
  unpack_floats n data = firstn n (unpack_floats (n + m) data).
Proof.
  revert data. induction n as [|n IH]; intros data; [reflexivity|].
  destruct data as [|b0 [|b1 [|b2 [|b3 rest]]]]; try reflexivity.
  cbn [Nat.add unpack_floats firstn]. now rewrite <- IH.
Qed.

Lemma unpack_floats_window (k n total : nat) (data : list byte) :
  length data = 4 * total -> k + n <= total ->
  unpack_floats n (firstn (4 * n) (skipn (4 * k) data))
  = firstn n (skipn k (unpack_floats total data)).
Proof.
  intros Hlen Hle.
  rewrite unpack_floats_firstn, unpack_floats_skipn by lia.
  replace total with ((k + n) + (total - (k + n))) at 1 by lia.
  rewrite (unpack_floats_prefix (k + n) (total - (k + n))).
  rewrite List.skipn_firstn_comm. f_equal. lia.
Qed.

(** X17 (verify_coordinate_mapping.py, lines 86 to 89, and
    compare_netcdf_chunk.py, lines 97 to 99, against the whole-file
    unpacking of compare_netcdf_chunk.py, line 113, and final_diagnosis.py,
    lines 98 and 125): the 730 values unpacked from the bytes of one
    coordinate are the values number [coord * 730] to [(coord + 1) * 730] of
    the unpacking of the whole chunk, so cutting the bytes and cutting the
    values give the same series. *)
Theorem chunk_series_is_a_slice_of_all_values
    (chunk_data : list byte) (coord : nat) (chunk_ts all_chunk_values : list fl) :
  VerifyCoordinateMapping.chunk_ts chunk_data coord = Ok chunk_ts ->
  struct_unpack_f (len chunk_data / 4) chunk_data = Ok all_chunk_values ->
  CompareNetcdfChunk.chunk_ts chunk_data coord = Ok chunk_ts
  /\ chunk_ts
     = py_slice all_chunk_values (Z.of_nat coord * Z.of_nat 730)
                ((Z.of_nat coord + 1) * Z.of_nat 730)
  /\ forall day, day < 730 ->
       nth_error chunk_ts day = nth_error all_chunk_values (coord * 730 + day).
Proof.
  intros Hts Hall. split; [exact Hts|].
  assert (Hin : (Z.of_nat coord * 730 * 4 + 730 * 4 <= len chunk_data)%Z).
  { apply chunk_series_ok. unfold VerifyCoordinateMapping.chunk_ts,
      VerifyCoordinateMapping.num_days in Hts. now rewrite Hts. }
  pose proof (struct_unpack_f_length _ _ _ Hall) as [Hn Hlen].
  set (total := Z.to_nat (len chunk_data / 4)).
  assert (Htotal : length chunk_data = 4 * total).
  { unfold total, len in *. lia. }
  assert (Hwin : chunk_ts = firstn 730 (skipn (coord * 730) all_chunk_values)).
  { unfold VerifyCoordinateMapping.chunk_ts, VerifyCoordinateMapping.num_days,
      struct_unpack_f in Hts.
    destruct (len _ =? 4 * 730)%Z; [|discriminate]. injection Hts as <-.
    unfold struct_unpack_f in Hall.
    destruct (len chunk_data =? _)%Z; [|discriminate]. injection Hall as <-.
    replace (Z.of_nat coord * 730 * 4)%Z with (Z.of_nat (4 * (coord * 730)))
      by lia.
    replace (Z.of_nat (4 * (coord * 730)) + 730 * 4)%Z
      with (Z.of_nat (4 * (coord * 730) + 4 * 730)) by lia.
    rewrite py_slice_nat by (unfold len in Hin; lia).
    change (Z.to_nat 730) with 730.
    apply (unpack_floats_window (coord * 730) 730 total chunk_data Htotal).
    unfold len in Hin. lia. }
  assert (Hlen_all : coord * 730 + 730 <= length all_chunk_values).
  { unfold len in *. lia. }
  split.
  - rewrite Hwin.
    replace (Z.of_nat coord * Z.of_nat 730)%Z with (Z.of_nat (coord * 730)) by lia.
    replace ((Z.of_nat coord + 1) * Z.of_nat 730)%Z
      with (Z.of_nat (coord * 730 + 730)) by lia.
    now rewrite py_slice_nat.
  - intros day Hday. rewrite Hwin.
    rewrite List.nth_error_firstn.
    destruct (day <? 730)%nat eqn:E; [|apply Nat.ltb_ge in E; lia].
    apply List.nth_error_skipn.
Qed.

Example series_of_two_coordinates :
  VerifyCoordinateMapping.chunk_ts (repeat x00 (2 * 2920)) 1 = Ok (repeat (Fin 0) 730)
  /\ struct_unpack_f (len (repeat x00 (2 * 2920)) / 4) (repeat x00 (2 * 2920))
     = Ok (repeat (Fin 0) (2 * 730)).
Proof. split; vm_compute; reflexivity. Qed.

Lemma chunk_series_of_two_coordinates :
  CompareNetcdfChunk.chunk_ts (repeat x00 (2 * 2920)) 1 = Ok (repeat (Fin 0) 730).
Proof.
  exact (proj1 (chunk_series_is_a_slice_of_all_values (repeat x00 (2 * 2920)) 1
                  (repeat (Fin 0) 730) (repeat (Fin 0) (2 * 730))
                  (proj1 series_of_two_coordinates)
                  (proj2 series_of_two_coordinates))).
Defined.

(** ** The statistics of the valid values *)

Lemma flt_fle (x y : fl) : flt x y = true -> fle x y = true.
Proof.
  destruct x as [| | |a], y as [| | |b]; cbn; try congruence.
  intros H. apply Qltb_lt in H. apply Qle_bool_iff, Qlt_le_weak, H.
Qed.

Lemma flt_false_fle (x y : fl) :
  isnan x = false -> isnan y = false -> flt x y = false -> fle y x = true.
Proof.
  destruct x as [| | |a], y as [| | |b]; cbn; try congruence.
  intros _ _ H. apply Qle_bool_iff. apply Qnot_lt_le. intros Hlt.
  apply Qltb_lt in Hlt. congruence.
Qed.

Lemma fle_refl (x : fl) : isnan x = false -> fle x x = true.
Proof.
  destruct x; cbn; try congruence. intros _. apply Qle_bool_iff, Qle_refl.
Qed.

Lemma fold_fmin2_spec (rest : list fl) (x : fl) :
  isnan x = false -> (forall y, In y rest -> isnan y = false) ->
  isnan (fold_left fmin2 rest x) = false
  /\ fle (fold_left fmin2 rest x) x = true
  /\ forall y, In y rest -> fle (fold_left fmin2 rest x) y = true.
Proof.
  revert x. induction rest as [|y rest IH]; intros x Hx Hrest; cbn [fold_left].
  - split; [exact Hx|]. split; [now apply fle_refl|]. intros y [].
  - pose proof (Hrest y (or_introl eq_refl)) as Hy.
    assert (Hz : isnan (fmin2 x y) = false
                 /\ fle (fmin2 x y) x = true /\ fle (fmin2 x y) y = true).
    { unfold fmin2. rewrite Hx, Hy. destruct (flt y x) eqn:E.
      - split; [exact Hy|]. split; [now apply flt_fle | now apply fle_refl].
      - split; [exact Hx|]. split; [now apply fle_refl|].
        now apply flt_false_fle. }
    destruct Hz as (Hz1 & Hz2 & Hz3).
    destruct (IH (fmin2 x y) Hz1 (fun v Hv => Hrest v (or_intror Hv)))
      as (Hm1 & Hm2 & Hm3).
    split; [exact Hm1|]. split; [eapply fle_trans; eauto|].
    intros v [<-|Hv]; [eapply fle_trans; eauto | now apply Hm3].
Qed.

Lemma fold_fmax2_spec (rest : list fl) (x : fl) :
  isnan x = false -> (forall y, In y rest -> isnan y = false) ->
  isnan (fold_left fmax2 rest x) = false
  /\ fle x (fold_left fmax2 rest x) = true
  /\ forall y, In y rest -> fle y (fold_left fmax2 rest x) = true.
Proof.
  revert x. induction rest as [|y rest IH]; intros x Hx Hrest; cbn [fold_left].
  - split; [exact Hx|]. split; [now apply fle_refl|]. intros y [].
  - pose proof (Hrest y (or_introl eq_refl)) as Hy.
    assert (Hz : isnan (fmax2 x y) = false
                 /\ fle x (fmax2 x y) = true /\ fle y (fmax2 x y) = true).
    { unfold fmax2. rewrite Hx, Hy. destruct (flt x y) eqn:E.
      - split; [exact Hy|]. split; [now apply flt_fle | now apply fle_refl].
      - split; [exact Hx|]. split; [now apply fle_refl|].
        now apply flt_false_fle. }
    destruct Hz as (Hz1 & Hz2 & Hz3).
    destruct (IH (fmax2 x y) Hz1 (fun v Hv => Hrest v (or_intror Hv)))
      as (Hm1 & Hm2 & Hm3).
    split; [exact Hm1|]. split; [eapply fle_trans; eauto|].
    intros v [<-|Hv]; [eapply fle_trans; eauto | now apply Hm3].
Qed.

(** The minimum and the maximum of the values that a filter keeps, when it
    keeps no NaN. *)
Lemma range_of_kept_values (p : fl -> bool) (a : list fl) :
  (forall v, p v = true -> isnan v = false) ->
  (np_min (List.filter p a) = Err ValueError
   <-> forall v, In v a -> p v = false)
  /\ (np_max (List.filter p a) = Err ValueError
      <-> forall v, In v a -> p v = false)
  /\ forall lo hi,
       np_min (List.filter p a) = Ok lo -> np_max (List.filter p a) = Ok hi ->
       In lo a /\ In hi a /\ p lo = true /\ p hi = true
       /\ forall v, In v a -> p v = true -> fle lo v = true /\ fle v hi = true.
Proof.
  intros Hp.
  assert (Hnil : List.filter p a = [] <-> forall v, In v a -> p v = false).
  { split.
    - intros E v Hv. destruct (p v) eqn:Epv; [|reflexivity].
      assert (Hin : In v (List.filter p a)) by (apply List.filter_In; auto).
      rewrite E in Hin. destruct Hin.
    - intros Hall. destruct (List.filter p a) as [|x l] eqn:E; [reflexivity|].
      assert (Hin : In x (List.filter p a)) by (rewrite E; now left).
      apply List.filter_In in Hin. destruct Hin as [Hx Hpx].
      rewrite (Hall x Hx) in Hpx. discriminate. }
  assert (Hnan : forall v, In v (List.filter p a) -> isnan v = false).
  { intros v Hv. apply List.filter_In in Hv. now apply Hp. }
  split; [|split].
  - rewrite <- Hnil. destruct (List.filter p a); cbn; split; congruence.
  - rewrite <- Hnil. destruct (List.filter p a); cbn; split; congruence.
  - intros lo hi Hlo Hhi.
    pose proof (np_min_In _ _ Hlo) as Hlo_in.
    pose proof (np_max_In _ _ Hhi) as Hhi_in.
    pose proof (proj1 (List.filter_In _ _ _) Hlo_in) as [Hlo_a Hlo_p].
    pose proof (proj1 (List.filter_In _ _ _) Hhi_in) as [Hhi_a Hhi_p].
    repeat (split; [assumption|]).
    intros v Hv Hpv.
    assert (Hin : In v (List.filter p a)) by (apply List.filter_In; auto).
    destruct (List.filter p a) as [|x rest]; [destruct Hin|].
    cbn [np_min np_max] in Hlo, Hhi. injection Hlo as <-. injection Hhi as <-.
    destruct (fold_fmin2_spec rest x (Hnan x (or_introl eq_refl))
                (fun y Hy => Hnan y (or_intror Hy))) as (_ & Hmin_x & Hmin).
    destruct (fold_fmax2_spec rest x (Hnan x (or_introl eq_refl))
                (fun y Hy => Hnan y (or_intror Hy))) as (_ & Hmax_x & Hmax).
    destruct Hin as [<-|Hin]; split; auto.
Qed.

Lemma not_nan_length (a : list fl) :
  (len (List.filter (fun v => negb (isnan v)) a) = len a - count_if isnan a)%Z.
Proof.
  unfold len. induction a as [|v l IH]; [reflexivity|].
  cbn [List.filter count_if length]. destruct (isnan v); cbn [negb length]; lia.
Qed.

(** X18 (final_diagnosis.py, lines 137 to 152): the valid values of the
    flattened copy are its values other than NaN and the valid values of
    the chunk those at distance at least 0.01 from -99.99; the minimum and
    the maximum printed for them are valid values that bound every valid
    value, and computing them raises [ValueError] exactly when there is no
    valid value, as when every cell of the block is masked. *)
Theorem valid_value_range_bounds_the_valid_values
    (flat_data_python all_chunk_values : list fl) :
  let python_valid := List.filter (fun v => negb (isnan v)) flat_data_python in
  let chunk_valid :=
    List.filter (fun v => fge (fabs (fadd v lit_99_99)) lit_0_01)
                all_chunk_values in
  (np_min python_valid = Err ValueError
   <-> forall v, In v flat_data_python -> isnan v = true)
  /\ (np_min chunk_valid = Err ValueError
      <-> forall v, In v all_chunk_values ->
            is_missing v = true \/ isnan v = true)
  /\ (len python_valid
      = len flat_data_python - count_if isnan flat_data_python)%Z
  /\ (forall python_min python_max,
        np_min python_valid = Ok python_min ->
        np_max python_valid = Ok python_max ->
        In python_min flat_data_python /\ In python_max flat_data_python
        /\ isnan python_min = false /\ isnan python_max = false
        /\ forall v, In v flat_data_python -> isnan v = false ->
             fle python_min v = true /\ fle v python_max = true)
  /\ (forall chunk_min chunk_max,
        np_min chunk_valid = Ok chunk_min ->
        np_max chunk_valid = Ok chunk_max ->
        In chunk_min all_chunk_values /\ In chunk_max all_chunk_values
        /\ is_missing chunk_min = false /\ is_missing chunk_max = false
        /\ forall v, In v all_chunk_values ->
             is_missing v = false -> isnan v = false ->
             fle chunk_min v = true /\ fle v chunk_max = true).
Proof.
  intros python_valid chunk_valid.
  assert (Hkeep : forall v, fge (fabs (fadd v lit_99_99)) lit_0_01
                            = negb (is_missing v || isnan v)).
  { intros v. pose proof (shown_missing_spec v) as H. unfold show_missing in H.
    destruct (fge (fabs (fadd v lit_99_99)) lit_0_01).
    - cbn [shown_missing] in H. now rewrite <- H.
    - change (shown_missing (PStr "MISSING"%string)) with true in H.
      now rewrite <- H. }
  destruct (range_of_kept_values (fun v => negb (isnan v)) flat_data_python)
    as (Hp1 & _ & Hp3).
  { intros v H. now apply Bool.negb_true_iff in H. }
  destruct (range_of_kept_values
              (fun v => fge (fabs (fadd v lit_99_99)) lit_0_01) all_chunk_values)
    as (Hc1 & _ & Hc3).
  { intros v H. rewrite Hkeep in H. apply Bool.negb_true_iff in H.
    now apply Bool.orb_false_iff in H. }
  fold python_valid in Hp1, Hp3. fold chunk_valid in Hc1, Hc3.
  split; [|split; [|split; [|split]]].
  - rewrite Hp1. split; intros H v Hv; specialize (H v Hv).
    + now apply Bool.negb_false_iff in H.
    + now apply Bool.negb_false_iff.
  - rewrite Hc1. split; intros H v Hv; specialize (H v Hv).
    + rewrite Hkeep in H. apply Bool.negb_false_iff in H.
      now apply Bool.orb_true_iff in H.
    + rewrite Hkeep. apply Bool.negb_false_iff. now apply Bool.orb_true_iff.
  - apply not_nan_length.
  - intros lo hi Hlo Hhi.
    destruct (Hp3 lo hi Hlo Hhi) as (H1 & H2 & H3 & H4 & H5).
    apply Bool.negb_true_iff in H3, H4. repeat (split; [assumption|]).
    intros v Hv Hnan. apply H5; [exact Hv|]. now rewrite Hnan.
  - intros lo hi Hlo Hhi.
    destruct (Hc3 lo hi Hlo Hhi) as (H1 & H2 & H3 & H4 & H5).
    rewrite Hkeep in H3, H4. apply Bool.negb_true_iff in H3, H4.
    apply Bool.orb_false_iff in H3, H4.
    repeat (split; [tauto|]).
    intros v Hv Hm Hnan. apply H5; [exact Hv|]. rewrite Hkeep, Hm, Hnan.
    reflexivity.
Qed.

(** ** The properties at concrete inputs *)

Example unpack_of_4000_zero_bytes :
  struct_unpack_f 1000 (py_slice (repeat x00 4000) 0 (1000 * 4))
  = Ok (repeat (Fin 0) 1000)
  /\ struct_unpack_f (len (repeat x00 4000) / 4) (repeat x00 4000)
     = Ok (repeat (Fin 0) 1000).
Proof. split; vm_compute; reflexivity. Qed.

Lemma compare_statistics_of_zero_chunk :
  exists r,
    py_truediv (count_if is_missing (repeat (Fin 0) 1000))
               (len (repeat (Fin 0) 1000)) = Ok (Fin r)
    /\ (0 <= r <= 1)%Q.
Proof.
  apply (proj2 (proj2 (compare_chunk_statistics_are_defined (repeat x00 4000)))
           (repeat (Fin 0) 1000) (repeat (Fin 0) 1000)
           (proj1 unpack_of_4000_zero_bytes) (proj2 unpack_of_4000_zero_bytes)).
Defined.

Example verify_index_on_sample :
  VerifyCoordinateMapping.coord_idx_calculated_of
    [Fin 50; Fin (525 # 10)] [Fin 10; Fin (134 # 10)]
    VerifyCoordinateMapping.test_lat VerifyCoordinateMapping.test_lon = Ok 3.
Proof. vm_compute. reflexivity. Qed.

Lemma verify_index_below_cell_count :
  3 < length (VerifyCoordinateMapping.lat_filtered [Fin 50; Fin (525 # 10)])
      * length (VerifyCoordinateMapping.lon_filtered [Fin 10; Fin (134 # 10)]).
Proof.
  exact (proj1 (proj1 (coordinate_index_addresses_a_series
                         [Fin 50; Fin (525 # 10)] [Fin 10; Fin (134 # 10)]
                         VerifyCoordinateMapping.test_lat
                         VerifyCoordinateMapping.test_lon [])
                      3 verify_index_on_sample)).
Defined.

Lemma masked_cell_matches_fill_value :
  flt (fabs (fsub (FinalDiagnosis.p_value NaN) lit_m99_99)) lit_0_01
  = is_missing lit_m99_99.
Proof.
  exact (proj1 (masked_cell_matches_missing_value NaN lit_m99_99) eq_refl).
Defined.

Example range_of_three_values :
  np_min (List.filter (fun v => negb (isnan v)) [Fin 2; NaN; Fin 1]) = Ok (Fin 1)
  /\ np_max (List.filter (fun v => negb (isnan v)) [Fin 2; NaN; Fin 1]) = Ok (Fin 2).
Proof. split; vm_compute; reflexivity. Qed.

Lemma valid_range_of_three_values :
  In (Fin 1) [Fin 2; NaN; Fin 1] /\ In (Fin 2) [Fin 2; NaN; Fin 1]
  /\ isnan (Fin 1) = false /\ isnan (Fin 2) = false
  /\ forall v, In v [Fin 2; NaN; Fin 1] -> isnan v = false ->
       fle (Fin 1) v = true /\ fle v (Fin 2) = true.
Proof.
  exact (proj1 (proj2 (proj2 (proj2 (valid_value_range_bounds_the_valid_values
                                       [Fin 2; NaN; Fin 1] []))))
               (Fin 1) (Fin 2)
               (proj1 range_of_three_values) (proj2 range_of_three_values)).
Defined.

(** ** The slices of diagnose_netcdf.py and compare_netcdf_chunk.py *)

Lemma flat_map_rows_length {A} (f : nat -> nat -> A) (rows cols : nat) :
  length (flat_map (fun i => map (fun j => f i j) (seq 0 cols)) (seq 0 rows))
  = rows * cols.
Proof.
  generalize 0 at 2. induction rows as [|rows IH]; intros s; cbn [seq flat_map];
    [reflexivity|].
  rewrite List.length_app, List.length_map, List.length_seq, IH. lia.
Qed.

(** X19 (diagnose_netcdf.py, lines 49 to 62, 81, 85 and 90): the first time
    slice raises [IndexError] exactly when the variable has no time step;
    when it is read, its shape is that of the grid, the total of line 60 is
    the number of cells, the middle slice of line 90 is read without
    [IndexError], and the first row of line 81 raises [IndexError] exactly
    when the grid has no latitude and holds at most 20 values otherwise. *)
Theorem diagnose_slices_are_in_range (tx : variable3) (nt nlat nlon : nat) :
  v_shape tx = (nt, nlat, nlon) ->
  (time_slice tx 0 = Err IndexError <-> nt = 0)
  /\ forall first_slice,
       time_slice tx 0 = Ok first_slice ->
       a2_shape first_slice = (nlat, nlon)
       /\ len (m_elts (elements2 first_slice)) = (Z.of_nat nlat * Z.of_nat nlon)%Z
       /\ (exists middle_slice,
             time_slice tx (dim0 (v_shape tx) / 2) = Ok middle_slice
             /\ a2_shape middle_slice = (nlat, nlon))
       /\ (row_prefix first_slice 0 20 = Err IndexError <-> nlat = 0)
       /\ forall first_row,
            row_prefix first_slice 0 20 = Ok first_row ->
            length first_row = Nat.min 20 nlon.
Proof.
  intros Hs. unfold time_slice. rewrite Hs. cbn [dim0 fst].
  destruct nt as [|nt].
  - cbn. split; [tauto|]. discriminate.
  - change (0 <? S nt)%nat with true. cbv iota.
    split; [split; [discriminate|lia]|].
    intros first_slice [= <-]. cbn [a2_shape].
    split; [reflexivity|]. split.
    { unfold elements2, len. cbn [m_elts a2_shape fst snd].
      rewrite flat_map_rows_length. lia. }
    split.
    { assert (Hmid : (S nt / 2 <? S nt)%nat = true).
      { apply Nat.ltb_lt. apply Nat.div_lt; lia. }
      rewrite Hmid. eexists. split; reflexivity. }
    unfold row_prefix. cbn [a2_shape fst snd a2_elt].
    destruct nlat as [|nlat].
    + cbn. split; [tauto|]. discriminate.
    + change (0 <? S nlat)%nat with true. cbv iota.
      split; [split; [discriminate|lia]|].
      intros first_row [= <-]. now rewrite List.length_map, List.length_seq.
Qed.

Lemma diagnose_slices_of_sample :
  exists middle_slice,
    time_slice sample_tx (dim0 (v_shape sample_tx) / 2) = Ok middle_slice
    /\ a2_shape middle_slice = (2, 2).
Proof.
  exact (proj1 (proj2 (proj2
           (proj2 (diagnose_slices_are_in_range sample_tx 10 2 2 eq_refl)
                  {| a2_shape := (2, 2);
                     a2_masked := true;
                     a2_elt := fun la lo => v_elt sample_tx 0 la lo |}
                  eq_refl)))).
Defined.

Lemma elements3_length (a : array3) :
  len (elements3 a) = size3 a.
Proof.
  unfold elements3, size3, len. destruct (a_shape a) as [[n0 n1] n2].
  cbn [dim0 dim1 dim2 fst snd].
  assert (H : forall s,
            length (flat_map
                      (fun i => flat_map (fun j => map (fun t => a_elt a i j t)
                                                       (seq 0 n2)) (seq 0 n1))
                      (seq s n0)) = n0 * (n1 * n2)).
  { induction n0 as [|n0 IH]; intros s; cbn [seq flat_map]; [reflexivity|].
    rewrite List.length_app, IH, flat_map_rows_length. lia. }
  rewrite H. lia.
Qed.

(** X20 (compare_netcdf_chunk.py, lines 20, 21 and 124 to 131): the first
    730 days have shape [(min(730, nt), nlat, nlon)]; the total of line 126
    is the number of their elements, the masked count lies between 0 and
    that total, and the valid count of line 130 is not negative. *)
Theorem netcdf_totals_are_consistent (tx : variable3) (nt nlat nlon : nat) :
  v_shape tx = (nt, nlat, nlon) ->
  a_shape (slice_first_days tx 730) = (Nat.min 730 nt, nlat, nlon)
  /\ size3 (slice_first_days tx 730) = len (elements3 (slice_first_days tx 730))
  /\ size3 (slice_first_days tx 730)
     = (Z.of_nat (Nat.min 730 nt) * Z.of_nat nlat * Z.of_nat nlon)%Z
  /\ (0 <= mask_sum (elements3 (slice_first_days tx 730))
      <= size3 (slice_first_days tx 730))%Z
  /\ (0 <= size3 (slice_first_days tx 730)
           - mask_sum (elements3 (slice_first_days tx 730)))%Z
  /\ a_masked (slice_first_days tx 730) = v_masked tx.
Proof.
  intros Hs.
  assert (Hshape : a_shape (slice_first_days tx 730) = (Nat.min 730 nt, nlat, nlon)).
  { unfold slice_first_days, slice3. rewrite Hs. cbn [a_shape].
    f_equal; [f_equal|]; lia. }
  pose proof (elements3_length (slice_first_days tx 730)) as Hlen.
  pose proof (count_if_nonneg is_masked (elements3 (slice_first_days tx 730))).
  pose proof (count_if_le_len is_masked (elements3 (slice_first_days tx 730))).
  unfold mask_sum. split; [exact Hshape|]. split; [now rewrite Hlen|].
  split; [unfold size3; now rewrite Hshape|].
  split; [lia|]. split; [lia|].
  unfold slice_first_days, slice3. now rewrite Hs.
Qed.

Lemma netcdf_totals_of_sample :
  a_shape (slice_first_days sample_tx 730) = (Nat.min 730 10, 2, 2).
Proof.
  exact (proj1 (netcdf_totals_are_consistent sample_tx 10 2 2 eq_refl)).
Defined.


Example dataset_of_bare_dataset :
  dataset_of (fun _ => Some bare_dataset) (sample_world []) = Ok bare_dataset.
Proof. vm_compute. reflexivity. Qed.

Lemma compare_on_bare_dataset :
  outcome (fun _ => Some bare_dataset) [] CompareNetcdfChunk.main (sample_world [])
  = Err AttributeError.
Proof.
  exact (proj1 (compare_needs_the_packing_attributes
                  (fun _ => Some bare_dataset) [] (sample_world []) bare_dataset _
                  dataset_of_bare_dataset eq_refl eq_refl)).
Defined.
